(** * DayRun: a shallow embedding of [dayrun.py]

    The development follows the source file top to bottom:

    - [PyStr]: the Python built-ins the program calls on strings and
      numbers ([str.strip], [str.lower], [str.isdigit], [str.endswith],
      [int], [float], [str]), on strings of code points below 256;
    - [parse_duration] and [human_readable_seconds];
    - a small state-and-exception monad over the [world] the program
      acts on (the files under [~/.dayrun], the clock, the processes it
      can signal, the log of externally visible effects);
    - the commands [status], [stop], [_monitor] and [start];
    - the vocabulary of the properties: the history as a list, the order
      of the effects of a session, the events of whole runs;
    - the properties of the duration parser, of the tracker commands and
      of the session life cycle. *)

From Stdlib Require Import ZArith NArith String Ascii List Bool Lia.
From Stdlib Require Import SpecFloat.
From stdpp Require Import gmap strings list pretty.

Local Open Scope string_scope.
Local Open Scope Z_scope.
Local Open Scope list_scope.

(** ** Exceptions and results *)

(** The Python exceptions that the modelled code can meet.
    [KeyboardInterrupt] is the only one that is not a subclass of
    [Exception]; [BadParameter] is [click.BadParameter], the program's
    invalid-duration error. *)
Inductive exn : Type :=
  | KeyboardInterrupt
  | ValueError
  | OverflowError
  | AttributeError
  | TypeError
  | OSError
  | BadParameter (msg : string).

Definition is_Exception (e : exn) : bool :=
  match e with
  | KeyboardInterrupt => false
  | _ => true
  end.

Inductive res (A : Type) : Type :=
  | Ok (a : A)
  | Raise (e : exn).
Arguments Ok {A} a.
Arguments Raise {A} e.

#[global] Instance res_ret : MRet res := fun A a => Ok a.
#[global] Instance res_bind : MBind res := fun A B k r =>
  match r with
  | Ok a => k a
  | Raise e => Raise e
  end.

(** ** Python built-ins on strings and numbers *)

Module PyStr.

Definition code (c : ascii) : N := N_of_ascii c.

Definition in_range (lo hi : N) (c : ascii) : bool :=
  ((lo <=? code c) && (code c <=? hi))%N.

(** [str.isspace] / the characters removed by [str.strip], for code
    points below 256. *)
Definition is_space (c : ascii) : bool :=
  in_range 9 13 c || in_range 28 32 c
  || (code c =? 133)%N || (code c =? 160)%N.

(** The white space skipped by [int] and [float] around a literal:
    the C locale's white space, plus the non-ASCII spaces, which the
    conversion replaces by a blank first. *)
Definition is_num_space (c : ascii) : bool :=
  in_range 9 13 c || (code c =? 32)%N
  || (code c =? 133)%N || (code c =? 160)%N.

(** Decimal digits (the only ones [int] and [float] accept below 256). *)
Definition is_decimal (c : ascii) : bool := in_range 48 57 c.

(** The characters [str.isdigit] accepts: the decimal digits and the
    superscripts two, three and one. *)
Definition is_digit_char (c : ascii) : bool :=
  is_decimal c || (code c =? 178)%N || (code c =? 179)%N || (code c =? 185)%N.

(** [str.lower] on one character. *)
Definition lower_char (c : ascii) : ascii :=
  if in_range 65 90 c
     || (in_range 192 222 c && negb (code c =? 215)%N)
  then ascii_of_N (code c + 32)
  else c.

Definition chars (s : string) : list ascii := list_ascii_of_string s.
Definition of_chars (l : list ascii) : string := string_of_list_ascii l.

Fixpoint drop_while (p : ascii -> bool) (l : list ascii) : list ascii :=
  match l with
  | [] => []
  | c :: r => if p c then drop_while p r else l
  end.

Definition strip_with (p : ascii -> bool) (l : list ascii) : list ascii :=
  rev (drop_while p (rev (drop_while p l))).

(** [s.strip()] *)
Definition strip (s : string) : string :=
  of_chars (strip_with is_space (chars s)).

(** [s.lower()] *)
Definition lower (s : string) : string :=
  of_chars (map lower_char (chars s)).

(** [s.isdigit()]: every character is a digit and there is one. *)
Definition isdigit (s : string) : bool :=
  match chars s with
  | [] => false
  | l => forallb is_digit_char l
  end.

(** [s.endswith(c)] for a one-character suffix. *)
Definition endswith (s : string) (c : ascii) : bool :=
  match rev (chars s) with
  | [] => false
  | d :: _ => Ascii.eqb d c
  end.

(** [s[:-1]] *)
Definition but_last (s : string) : string :=
  of_chars (removelast (chars s)).

(** *** Integer literals *)

Definition digit_value (c : ascii) : Z := Z.of_N (code c) - 48.

Definition digits_value (l : list ascii) : Z :=
  fold_left (fun acc c => acc * 10 + digit_value c) l 0.

Definition is_underscore (c : ascii) : bool := Ascii.eqb c "_".

(** An underscore is allowed between two digits only. *)
Fixpoint underscores_ok (prev : option ascii) (l : list ascii) : bool :=
  match l with
  | [] => true
  | c :: r =>
      if is_underscore c then
        match prev, r with
        | Some p, n :: _ => is_decimal p && is_decimal n && underscores_ok (Some c) r
        | _, _ => false
        end
      else underscores_ok (Some c) r
  end.

Definition no_underscores (l : list ascii) : list ascii :=
  List.filter (fun c => negb (is_underscore c)) l.

(** An optional sign; [true] is minus. *)
Definition split_sign (l : list ascii) : bool * list ascii :=
  match l with
  | c :: r =>
      if Ascii.eqb c "-" then (true, r)
      else if Ascii.eqb c "+" then (false, r)
      else (false, l)
  | [] => (false, [])
  end.

Definition all_decimal (l : list ascii) : bool :=
  match l with
  | [] => false
  | _ => forallb is_decimal l
  end.

(** The interpreter's default limit on the decimal digits of an
    integer that [int] reads from a string or that [str] writes to one
    ([sys.int_info.default_max_str_digits], CPython 3.11 and later and
    the patched 3.7 to 3.10): beyond it both raise [ValueError].  The
    digits are counted without the sign, the underscores and the white
    space around the literal. *)
Definition max_str_digits : nat := 4300.

(** [int(s)] for a string [s], base ten, when [s] holds no more digits
    than [max_str_digits]: the refusal beyond the limit is not rendered,
    and what is stated of [int] over all strings is stated within the
    limit. *)
Definition py_int (s : string) : res Z :=
  let l := strip_with is_num_space (chars s) in
  if underscores_ok None l then
    let '(neg, ds) := split_sign (no_underscores l) in
    if all_decimal ds
    then Ok (if neg then - digits_value ds else digits_value ds)
    else Raise ValueError
  else Raise ValueError.

(** [str(n)] for an integer [n] of no more digits than
    [max_str_digits], as the pids, the time stamps and the minutes that
    the program prints are; the refusal beyond the limit is not
    rendered. *)
Definition py_str (n : Z) : string := pretty n.

(** The number of decimal digits of [n], which the limit is about. *)
Definition int_digits (n : Z) : nat := String.length (py_str (Z.abs n)).

(** *** Floating-point literals and arithmetic (IEEE 754 binary64) *)

Definition prec : Z := 53.
Definition emax : Z := 1024.

Definition float := spec_float.

(** [float(n)] for an integer [n]. *)
Definition float_of_Z (n : Z) : float := binary_normalize prec emax n 0 false.

(** The double nearest to [(-1)^neg * m * 10^e]. *)
Definition float_of_decimal (neg : bool) (m : Z) (e : Z) : float :=
  match m with
  | Zpos p =>
      if 0 <=? e
      then binary_normalize prec emax ((if neg then Z.neg p else Z.pos p) * 10 ^ e) 0 false
      else SFdiv prec emax (S754_finite neg p 0)
                           (S754_finite false (Z.to_pos (10 ^ (- e))) 0)
  | _ => S754_zero neg
  end.

Fixpoint span_decimal (l : list ascii) : list ascii * list ascii :=
  match l with
  | c :: r =>
      if is_decimal c
      then let '(d, rest) := span_decimal r in (c :: d, rest)
      else ([], l)
  | [] => ([], [])
  end.

Definition ascii_lower (c : ascii) : ascii :=
  if in_range 65 90 c then ascii_of_N (code c + 32) else c.

Definition is_e (c : ascii) : bool := Ascii.eqb (ascii_lower c) "e".

(** The exponent part: nothing, or [e], an optional sign and digits. *)
Definition parse_exponent (l : list ascii) : option Z :=
  match l with
  | [] => Some 0
  | c :: r =>
      if is_e c then
        let '(neg, ds) := split_sign r in
        if all_decimal ds
        then Some (if neg then - digits_value ds else digits_value ds)
        else None
      else None
  end.

(** The literal after the sign: [inf], [infinity], [nan], or digits
    with an optional fraction and exponent. *)
Definition parse_unsigned (neg : bool) (l : list ascii) : option float :=
  let word := of_chars (map ascii_lower l) in
  if String.eqb word "inf" || String.eqb word "infinity" then Some (S754_infinity neg)
  else if String.eqb word "nan" then Some S754_nan
  else
    let '(ip, r1) := span_decimal l in
    let '(fp, r2) :=
      match r1 with
      | c :: r => if Ascii.eqb c "." then span_decimal r else ([], r1)
      | [] => ([], [])
      end in
    match (ip ++ fp)%list with
    | [] => None
    | ds =>
        match parse_exponent r2 with
        | Some e => Some (float_of_decimal neg (digits_value ds) (e - Z.of_nat (length fp)))
        | None => None
        end
    end.

(** [float(s)] for a string [s]. *)
Definition py_float (s : string) : res float :=
  let l := strip_with is_num_space (chars s) in
  if underscores_ok None l then
    let '(neg, r) := split_sign (no_underscores l) in
    match parse_unsigned neg r with
    | Some x => Ok x
    | None => Raise ValueError
    end
  else Raise ValueError.

(** [x * y] on floats. *)
Definition fmul (x y : float) : float := SFmul prec emax x y.

(** [int(x)] for a float [x]: truncation towards zero. *)
Definition int_of_float (x : float) : res Z :=
  match x with
  | S754_zero _ => Ok 0
  | S754_infinity _ => Raise OverflowError
  | S754_nan => Raise ValueError
  | S754_finite neg m e =>
      let a := if 0 <=? e then Z.pos m * 2 ^ e else Z.pos m / 2 ^ (- e) in
      Ok (if neg then - a else a)
  end.

End PyStr.

Import PyStr.

(** ** Durations *)

(** [parse_duration]: the three attempts of the source, each falling
    through to the next one when its conversion raises. *)
Definition parse_plain (s : string) : res Z :=
  if isdigit s then
    n ← py_int s; Ok (n * 60)
  else
    match (x ← py_float s; int_of_float x) with
    | Ok n => Ok n
    | Raise e =>
        if is_Exception e
        then Raise (BadParameter ("Can't parse duration '" +:+ s +:+ "'"))
        else Raise e
    end.

Definition parse_suffix (suffix : ascii) (factor : Z) (s : string) (next : res Z) : res Z :=
  if endswith s suffix then
    match (x ← py_float (but_last s); int_of_float (fmul x (float_of_Z factor))) with
    | Ok n => Ok n
    | Raise e => if is_Exception e then next else Raise e
    end
  else next.

Definition parse_duration (s : string) : res Z :=
  let s := lower (strip s) in
  parse_suffix "h" 3600 s (parse_suffix "m" 60 s (parse_plain s)).

Definition human_readable_seconds (sec : Z) : string :=
  if sec <? 60 then py_str sec +:+ "s"
  else
    let m := sec / 60 in
    let h := m / 60 in
    let m := m mod 60 in
    if negb (h =? 0) then py_str h +:+ "h" +:+ py_str m +:+ "m"
    else py_str m +:+ "m".


(** ** The world the program acts on *)

(** Values exchanged with the JSON files ([json.dumps] / [json.loads]);
    a Python dict keeps its keys in insertion order. *)
#[warnings="-register-all"]
Inductive json : Type :=
  | JNull
  | JBool (b : bool)
  | JInt (n : Z)
  | JStr (s : string)
  | JList (l : list json)
  | JDict (d : list (string * json)).

(** Python truthiness. *)
Definition truthy (j : json) : bool :=
  match j with
  | JNull => false
  | JBool b => b
  | JInt n => negb (n =? 0)
  | JStr s => negb (String.eqb s "")
  | JList l => match l with [] => false | _ => true end
  | JDict d => match d with [] => false | _ => true end
  end.

(** [d.get(k)], on the key/value pairs of a dict. *)
Fixpoint dict_get (d : list (string * json)) (k : string) : json :=
  match d with
  | [] => JNull
  | (k', v) :: r => if String.eqb k' k then v else dict_get r k
  end.

(** [d[k] = v]: replaces the value of an existing key in place, adds a
    new key at the end. *)
Fixpoint dict_set (d : list (string * json)) (k : string) (v : json) : list (string * json) :=
  match d with
  | [] => [(k, v)]
  | (k', v') :: r => if String.eqb k' k then (k', v) :: r else (k', v') :: dict_set r k v
  end.

Definition dict_has (d : list (string * json)) (k : string) : bool :=
  existsb (fun kv => String.eqb (fst kv) k) d.

(** What [json.loads] makes of a file's text. *)
Inductive jfile : Type :=
  | Unparsable
  | Parsed (j : json).

Inductive signal : Type := SIG0 | SIGTERM.

Record pane : Type := mkPane { pane_cwd : option string; pane_cmd : option string }.

(** The calls by which the commands act on the outside world, in
    program order. *)
Inductive event : Type :=
  | Echo (msg : string)                          (* click.echo *)
  | SetDnd (enable : bool)                       (* set_dnd *)
  | OpenItem (item : string)                     (* open_app_or_url *)
  | RunBackground (cmd : string)                 (* run_subprocess(background=True) *)
  | CreateTmux (name : string) (panes : list pane)  (* create_tmux_session *)
  | Notify (title msg : string)                  (* notification *)
  | Sleep (secs : Z)                             (* time.sleep *)
  | Spawn (args : list string)                   (* subprocess.Popen of the monitor *)
  | Kill (pid : Z) (sig : signal)                (* os.kill *)
  | WriteEntry (path : string) (entry : json)    (* write_text of the handoff file *)
  | ReadEntry (path : string)                    (* open + json.load of the handoff file *)
  | UnlinkEntry (path : string)                  (* Path(entry_file).unlink(missing_ok=True) *)
  | WritePid (pid : Z)                           (* write_pid *)
  | ClearPid                                     (* clear_pid *)
  | SaveSession (entry : json).                  (* save_session_entry *)

(** The state under [~/.dayrun] and around it.  The three kinds of file
    live in separate name spaces: [sessions.json], [current_session.pid],
    and the other paths ([files]), among them the handoff files.  File
    operations succeed; the monitor of a detached session acts after the
    command that spawned it has returned. *)
Record world : Type := mkWorld {
  sessions_file : option jfile;    (* SESSIONS_PATH *)
  pid_file : option string;        (* PID_PATH, as text *)
  files : gmap string jfile;       (* the other files, by path *)
  clock : Z;                       (* int(time.time()) *)
  procs : gset Z;                  (* the pids os.kill can signal *)
  sigint : option nat;             (* Ctrl-C arrives during the sleep after that many *)
  trace : list event
}.

Definition set_sessions_file (v : option jfile) (w : world) : world :=
  mkWorld v (pid_file w) (files w) (clock w) (procs w) (sigint w) (trace w).
Definition set_pid_file (v : option string) (w : world) : world :=
  mkWorld (sessions_file w) v (files w) (clock w) (procs w) (sigint w) (trace w).
Definition set_files (v : gmap string jfile) (w : world) : world :=
  mkWorld (sessions_file w) (pid_file w) v (clock w) (procs w) (sigint w) (trace w).
Definition set_clock (v : Z) (w : world) : world :=
  mkWorld (sessions_file w) (pid_file w) (files w) v (procs w) (sigint w) (trace w).
Definition set_sigint (v : option nat) (w : world) : world :=
  mkWorld (sessions_file w) (pid_file w) (files w) (clock w) (procs w) v (trace w).
Definition set_trace (v : list event) (w : world) : world :=
  mkWorld (sessions_file w) (pid_file w) (files w) (clock w) (procs w) (sigint w) v.

(** The machine the program runs on: what the capability wrappers
    ([set_dnd], [open_app_or_url], [create_tmux_session],
    [run_subprocess], [subprocess.Popen]) answer.  They are modelled at
    their interface: the call is logged and the answer comes from here. *)
Record env : Type := mkEnv {
  windows : bool;                       (* platform.system() == "Windows" *)
  dnd_result : bool -> bool;            (* set_dnd(enable) *)
  open_result : string -> bool;         (* open_app_or_url(item) *)
  tmux_result : string -> bool;         (* create_tmux_session(name, panes) *)
  popen_result : string -> option Z;    (* run_subprocess(cmd, background=True): the pid *)
  spawn_result : option Z;              (* Popen of the monitor: its pid, or a failure *)
  python : string;                      (* the interpreter found by shutil.which *)
  script : string;                      (* Path(__file__).absolute() *)
  dayrun_dir : string;                  (* DAYRUN_DIR *)
  exn_text : exn -> string              (* str(e), for an exception of the interpreter
                                           or of the system *)
}.

(** ** The state-and-exception monad *)

Definition M (A : Type) : Type := world -> res A * world.

#[global] Instance M_ret : MRet M := fun A a w => (Ok a, w).
#[global] Instance M_bind : MBind M := fun A B k m w =>
  match m w with
  | (Ok a, w') => k a w'
  | (Raise e, w') => (Raise e, w')
  end.

Definition raise {A} (e : exn) : M A := fun w => (Raise e, w).
Definition gets {A} (f : world -> A) : M A := fun w => (Ok (f w), w).
Definition modify (f : world -> world) : M unit := fun w => (Ok tt, f w).

Definition log (e : event) : M unit :=
  modify (fun w => set_trace (trace w ++ [e]) w).

(** [try: body except Exception as e: handler e] *)
Definition try_except {A} (body : M A) (handler : exn -> M A) : M A := fun w =>
  match body w with
  | (Raise e, w') => if is_Exception e then handler e w' else (Raise e, w')
  | r => r
  end.

(** [try: body except KeyboardInterrupt: handler] *)
Definition try_except_interrupt {A} (body : M A) (handler : M A) : M A := fun w =>
  match body w with
  | (Raise KeyboardInterrupt, w') => handler w'
  | r => r
  end.

(** [try: body finally: cleanup] *)
Definition try_finally {A} (body : M A) (cleanup : M unit) : M A := fun w =>
  match body w with
  | (r, w') =>
      match cleanup w' with
      | (Ok _, w'') => (r, w'')
      | (Raise e, w'') => (Raise e, w'')
      end
  end.

Fixpoint for_each {A} (l : list A) (f : A -> M unit) : M unit :=
  match l with
  | [] => mret tt
  | x :: r => f x ;; for_each r f
  end.

Definition when (b : bool) (m : M unit) : M unit := if b then m else mret tt.

(** The events a run adds to the log. *)
Definition new_events (w w' : world) : list event :=
  drop (length (trace w)) (trace w').

(** ** Primitive operations *)

Definition echo (msg : string) : M unit := log (Echo msg).

Definition now : M Z := gets clock.

(** [time.sleep(secs)]: a negative length is refused; a pending Ctrl-C
    interrupts the sleep. *)
Definition sleep (secs : Z) : M unit :=
  log (Sleep secs) ;;
  if secs <? 0 then raise ValueError
  else
    k ← gets sigint;
    match k with
    | Some O => modify (set_sigint None) ;; raise KeyboardInterrupt
    | Some (S k') => modify (fun w => set_clock (clock w + secs) (set_sigint (Some k') w))
    | None => modify (fun w => set_clock (clock w + secs) w)
    end.

(** [os.kill(pid, sig)] *)
Definition kill (pid : Z) (sig : signal) : M unit :=
  log (Kill pid sig) ;;
  alive ← gets (fun w => bool_decide (pid ∈ procs w));
  if alive : bool then mret tt else raise OSError.

Definition bool_str (b : bool) : string := if b then "True" else "False".

(** ** History store and tracker marker *)

(** [load_sessions]: a missing or unparsable file reads as the empty
    list; otherwise whatever JSON value the file holds. *)
Definition load_sessions : M json :=
  f ← gets sessions_file;
  match f with
  | None => mret (JList [])
  | Some Unparsable => mret (JList [])
  | Some (Parsed j) => mret j
  end.

(** [save_session_entry]: [s.insert(0, entry)] needs [s] to be a list. *)
Definition save_session_entry (entry : json) : M unit :=
  log (SaveSession entry) ;;
  s ← load_sessions;
  match s with
  | JList l => modify (set_sessions_file (Some (Parsed (JList (entry :: l)))))
  | _ => raise AttributeError
  end.

Definition write_pid (pid : Z) : M unit :=
  log (WritePid pid) ;;
  modify (set_pid_file (Some (py_str pid))).

(** What [read_pid] finds: the integer the marker's text holds, if any. *)
Definition marker_pid (w : world) : option Z :=
  match pid_file w with
  | Some text =>
      match py_int (strip text) with
      | Ok p => Some p
      | Raise _ => None
      end
  | None => None
  end.

Definition read_pid : M (option Z) := gets marker_pid.

Definition clear_pid : M unit :=
  log ClearPid ;;
  modify (set_pid_file None).

(** ** Capability wrappers *)

Section Commands.

Variable host : env.

(** [str(e)] as the commands print it: the message the program gave to
    its own [click.BadParameter]; for the other exceptions a text of the
    interpreter or the system, which the model leaves open. *)
Definition exn_str (e : exn) : string :=
  match e with
  | BadParameter msg => msg
  | _ => exn_text host e
  end.

Definition notification (title message : string) : M unit :=
  log (Notify title message).

Definition set_dnd (enable : bool) : M bool :=
  log (SetDnd enable) ;; mret (dnd_result host enable).

Definition open_app_or_url (item : string) : M bool :=
  log (OpenItem item) ;; mret (open_result host item).

Definition create_tmux_session (session_name : string) (panes : list pane) : M bool :=
  log (CreateTmux session_name panes) ;; mret (tmux_result host session_name).

Definition run_subprocess_background (cmd : string) : M (option Z) :=
  log (RunBackground cmd) ;; mret (popen_result host cmd).

Definition popen_monitor (args : list string) : M Z :=
  log (Spawn args) ;;
  match spawn_result host with
  | Some pid => mret pid
  | None => raise OSError
  end.

(** ** [status] and [stop] *)

(** [not pid], for the [Optional[int]] that [read_pid] returns. *)
Definition not_pid (pid : option Z) : bool :=
  match pid with
  | Some p => p =? 0
  | None => true
  end.

Definition status : M unit :=
  pid ← read_pid;
  if not_pid pid then echo "No detached session found."
  else
    let pid := default 0 pid in
    try_except
      (kill pid SIG0 ;;
       echo ("Detached session monitor running (pid " +:+ py_str pid +:+ ")."))
      (fun _ =>
       echo "No detached session running (stale PID file)." ;;
       clear_pid).

Definition stop : M unit :=
  pid ← read_pid;
  if not_pid pid then echo "No detached session found."
  else
    let pid := default 0 pid in
    try_except
      (kill pid SIGTERM ;;
       echo ("Signaled detached session (pid " +:+ py_str pid +:+ ") to stop.") ;;
       clear_pid)
      (fun e =>
       echo ("Failed to stop pid " +:+ py_str pid +:+ ": " +:+ exn_str e) ;;
       clear_pid).

(** ** [_monitor] *)

(** [with open(entry_file) as f: entry = json.load(f)] *)
Definition read_entry (entry_file : string) : M json :=
  log (ReadEntry entry_file) ;;
  f ← gets (fun w => files w !! entry_file);
  match f with
  | Some (Parsed j) => mret j
  | Some Unparsable => raise ValueError
  | None => raise OSError
  end.

Definition unlink_entry (entry_file : string) : M unit :=
  log (UnlinkEntry entry_file) ;;
  modify (fun w => set_files (delete entry_file (files w)) w).

(** [entry.get(k)] and [entry[k] = v] on whatever the handoff file held. *)
Definition entry_get (entry : json) (k : string) : M json :=
  match entry with
  | JDict d => mret (dict_get d k)
  | _ => raise AttributeError
  end.

Definition entry_set (entry : json) (k : string) (v : json) : M json :=
  match entry with
  | JDict d => mret (JDict (dict_set d k v))
  | _ => raise TypeError
  end.

(** Lines 639-643: a handoff file that cannot be read or parsed gives
    the empty record. *)
Definition load_entry (entry_file : string) : M json :=
  try_except (read_entry entry_file) (fun _ => mret (JDict [])).

(** Lines 648-654, the body of the [try]. *)
Definition finishing (seconds : Z) (entry : json) : M unit :=
  sleep seconds ;;
  notification "DayRun" "Detached session finished" ;;
  d ← entry_get entry "dnd";
  when (truthy d) (set_dnd false ;; mret tt) ;;
  t ← now;
  entry ← entry_set entry "end_ts" (JInt t);
  save_session_entry entry.

(** Lines 656-661, the [finally] block. *)
Definition cleanup (entry_file : string) : M unit :=
  try_except (unlink_entry entry_file) (fun _ => mret tt) ;;
  clear_pid.

(** [self] is [os.getpid()] in the monitor process. *)
Definition monitor (self : Z) (seconds : Z) (entry_file : string) : M unit :=
  entry ← load_entry entry_file;
  let pid := self in
  write_pid pid ;;
  try_finally (finishing seconds entry) (cleanup entry_file).

(** ** [start] *)

Record tmux_cfg : Type := mkTmuxCfg {
  tmux_session_name : option string;
  tmux_panes : option (list pane)
}.

(** A template of the configuration; [None] is an absent key. *)
Record template : Type := mkTemplate {
  t_duration : option string;
  t_dnd : option bool;
  t_apps : option (list string);
  t_cmds : option (list string);
  t_tmux : option tmux_cfg;
  t_music : option string;
  t_other_keys : list string      (* keys that [start] never reads *)
}.

(** What [load_config] returns. *)
Record config : Type := mkConfig {
  default_duration : string;
  dnd_on_start : bool;
  templates : list (string * template)
}.

(** The options of the [start] command. *)
Record start_opts : Type := mkOpts {
  o_template : option string;
  o_duration : option string;
  o_dnd : option bool;
  o_apps : string;
  o_cmds : list string;
  o_tmux : bool;
  o_tmux_session : option string;
  o_notify : bool;
  o_detach : bool;
  o_log : bool
}.

Definition empty_template : template :=
  mkTemplate None None None None None None [].

(** Truthiness of an optional string, and of the template dict. *)
Definition nonempty (s : option string) : option string :=
  match s with
  | Some t => if String.eqb t "" then None else Some t
  | None => None
  end.

Definition template_truthy (t : template) : bool :=
  match t with
  | mkTemplate None None None None None None [] => false
  | _ => true
  end.

Definition tmux_truthy (t : option tmux_cfg) : bool :=
  match t with
  | Some (mkTmuxCfg None None) => false
  | Some _ => true
  | None => false
  end.

Fixpoint assoc {A} (l : list (string * A)) (k : string) : option A :=
  match l with
  | [] => None
  | (k', v) :: r => if String.eqb k' k then Some v else assoc r k
  end.

(** [s.split(",")] *)
Fixpoint split_comma (s : string) : list string :=
  match s with
  | EmptyString => [EmptyString]
  | String c r =>
      if Ascii.eqb c "," then EmptyString :: split_comma r
      else match split_comma r with
           | [] => [String c EmptyString]
           | x :: xs => String c x :: xs
           end
  end.

(** [[x.strip() for x in s.split(",") if x.strip()]] *)
Definition stripped_items (s : string) : list string :=
  List.filter (fun x => negb (String.eqb x "")) (map strip (split_comma s)).

(** The local variables of [start] once the options are resolved. *)
Record plan : Type := mkPlan {
  p_template : option string;
  dur_seconds : Z;
  dnd_mode : bool;
  apps_list : list string;
  cmds_list : list string;
  tmux_panes_list : list pane;
  session_name : string;
  p_music : option string;
  p_tmux : bool;
  p_notify : bool;
  p_detach : bool;
  p_log : bool
}.

Definition resolve (cfg : config) (o : start_opts) (template_data : template)
    (dur_seconds : Z) (t : Z) : plan :=
  let dnd_mode :=
    match o_dnd o with
    | None => default (dnd_on_start cfg) (t_dnd template_data)
    | Some b => b
    end in
  let apps_list :=
    (match t_apps template_data with Some ((_ :: _) as l) => l | _ => [] end
     ++ (if String.eqb (o_apps o) "" then [] else stripped_items (o_apps o)))%list in
  let cmds_list :=
    (o_cmds o
     ++ match t_cmds template_data with Some ((_ :: _) as l) => l | _ => [] end)%list in
  let fresh := "dayrun_" +:+ py_str t in
  let '(tmux_panes, session_name) :=
    if o_tmux o && tmux_truthy (t_tmux template_data) then
      let tmux_cfg := default (mkTmuxCfg None None) (t_tmux template_data) in
      (default [] (tmux_panes tmux_cfg),
       default (default fresh (tmux_session_name tmux_cfg)) (nonempty (o_tmux_session o)))
    else ([], default fresh (nonempty (o_tmux_session o))) in
  mkPlan (nonempty (o_template o)) dur_seconds dnd_mode apps_list cmds_list
         tmux_panes session_name (nonempty (t_music template_data))
         (o_tmux o) (o_notify o) (o_detach o) (o_log o).

Definition run_commands (cmds : list string) : M unit :=
  for_each cmds (fun c => run_subprocess_background c ;; mret tt).

(** Lines 455-497: the effects at the start of a session. *)
Definition begin (p : plan) : M unit :=
  echo ("Starting DayRun session: duration=" +:+ human_readable_seconds (dur_seconds p)
        +:+ ", dnd=" +:+ bool_str (dnd_mode p) +:+ ", detach=" +:+ bool_str (p_detach p)) ;;
  when (dnd_mode p)
    (ok ← set_dnd true;
     when (negb ok)
       (echo "Could not enable Do Not Disturb automatically on your system. Please enable it manually if desired.")) ;;
  for_each (apps_list p) (fun item =>
    opened ← open_app_or_url item;
    when (negb opened)
      (echo ("Could not open '" +:+ item +:+ "' automatically. (Best-effort)"))) ;;
  (if p_tmux p && match tmux_panes_list p with [] => false | _ => true end then
     created ← create_tmux_session (session_name p) (tmux_panes_list p);
     if created : bool then
       echo ("Created tmux session '" +:+ session_name p
             +:+ "'. Attach with: tmux attach -t " +:+ session_name p)
     else
       echo "tmux requested but failed to create session. Falling back to background commands." ;;
       run_commands (cmds_list p)
   else run_commands (cmds_list p)) ;;
  match p_music p with
  | Some music => open_app_or_url music ;; mret tt
  | None => mret tt
  end ;;
  when (p_notify p)
    (notification "DayRun" ("Session started: " +:+ human_readable_seconds (dur_seconds p))).

Definition session_entry (p : plan) (start_ts : Z) : list (string * json) :=
  [("template", match p_template p with Some n => JStr n | None => JNull end);
   ("duration_seconds", JInt (dur_seconds p));
   ("start_ts", JInt start_ts);
   ("dnd", JBool (dnd_mode p));
   ("apps", JList (map JStr (apps_list p)));
   ("cmds", JList (map JStr (cmds_list p)));
   ("tmux_session", if p_tmux p then JStr (session_name p) else JNull)].

Definition write_entry (path : string) (entry : json) : M unit :=
  log (WriteEntry path entry) ;;
  modify (fun w => set_files (<[path := Parsed entry]> (files w)) w).

(** [DAYRUN_DIR / f"pending_session_{start_ts}.json"] *)
Definition handoff_path (start_ts : Z) : string :=
  dayrun_dir host +:+ "/pending_session_" +:+ py_str start_ts +:+ ".json".

(** Lines 512-536, [if detach:].  The result tells whether the command
    returned there, and gives [session_entry] as the block left it: the
    handler runs with the entry as mutated so far. *)
Definition detach_session (p : plan) (start_ts : Z) (entry : list (string * json))
    : M (bool * list (string * json)) :=
  let args := [python host; script host; "_monitor"; py_str (dur_seconds p)] in
  let failed (entry : list (string * json)) (e : exn) : M (bool * list (string * json)) :=
    echo ("Failed to start detached monitor: " +:+ exn_str e) ;; mret (false, entry) in
  try_except
    (let tmp_entry_file := handoff_path start_ts in
     write_entry tmp_entry_file (JDict entry) ;;
     let args := (args ++ [tmp_entry_file])%list in
     if windows host then mret (false, entry)
     else
       pid ← popen_monitor args;
       write_pid pid ;;
       echo ("Detached monitor started (pid " +:+ py_str pid +:+ ").") ;;
       if p_log p then
         let entry := dict_set entry "detached_pid" (JInt pid) in
         try_except
           (save_session_entry (JDict entry) ;; mret (true, entry))
           (failed entry)
       else mret (true, entry))
    (failed entry).

(** Lines 539-557: the countdown.  Every turn takes at least one second
    off [remaining], so [Z.to_nat remaining] turns are enough. *)
Definition countdown_interval (remaining : Z) : Z :=
  if 60 <? remaining then 10 else 1.

Definition countdown_echo (remaining : Z) (interval : Z) : M unit :=
  let rr := remaining in
  when (rr mod interval =? 0)
    (let mins := rr / 60 in
     let secs := rr mod 60 in
     if 0 <? mins
     then echo ("Time left: " +:+ py_str mins +:+ "m " +:+ py_str secs +:+ "s")
     else echo ("Time left: " +:+ py_str secs +:+ "s")).

Fixpoint countdown_loop (fuel : nat) (remaining : Z) : M unit :=
  if 0 <? remaining then
    match fuel with
    | O => mret tt
    | S fuel =>
        let interval := countdown_interval remaining in
        countdown_echo remaining interval ;;
        sleep interval ;;
        countdown_loop fuel (remaining - interval)
    end
  else mret tt.

Definition countdown (remaining : Z) : M unit :=
  countdown_loop (Z.to_nat remaining) remaining.

(** Lines 566-577: the effects at the end of a foreground session. *)
Definition finish (p : plan) (entry : list (string * json)) : M unit :=
  when (p_notify p) (notification "DayRun" "Session finished") ;;
  when (dnd_mode p) (set_dnd false ;; mret tt) ;;
  t ← now;
  let entry := dict_set entry "end_ts" (JInt t) in
  when (p_log p) (save_session_entry (JDict entry)) ;;
  echo "Session completed.".

(** Lines 499-577, from [start_ts] on. *)
Definition run_session (p : plan) : M unit :=
  start_ts ← now;
  let entry := session_entry p start_ts in
  '(returned, entry) ← (if p_detach p then detach_session p start_ts entry
                        else mret (false, entry));
  if returned : bool then mret tt
  else
    interrupted ← try_except_interrupt
      (countdown (dur_seconds p) ;; mret false)
      ((echo "Session interrupted by user." ;;
        when (dnd_mode p) (set_dnd false ;; mret tt)) ;;
       mret true);
    if interrupted : bool then mret tt
    else finish p entry.

(** Lines 411-425: the template and the duration string. *)
Definition template_data_of (cfg : config) (o : start_opts) : template :=
  match nonempty (o_template o) with
  | Some name => default empty_template (assoc (templates cfg) name)
  | None => empty_template
  end.

Definition template_not_found (cfg : config) (o : start_opts) : bool :=
  match nonempty (o_template o) with
  | Some _ => negb (template_truthy (template_data_of cfg o))
  | None => false
  end.

Definition dur_str_of (cfg : config) (o : start_opts) : string :=
  default (default (default_duration cfg) (nonempty (t_duration (template_data_of cfg o))))
          (nonempty (o_duration o)).

(** [cfg] is what [load_config()] returned. *)
Definition start (cfg : config) (o : start_opts) : M unit :=
  let template_data := template_data_of cfg o in
  if template_not_found cfg o
  then echo ("Template '" +:+ default "" (o_template o) +:+ "' not found.")
  else
    let dur_str := dur_str_of cfg o in
    match parse_duration dur_str return M unit with
    | Raise e =>
        if is_Exception e then echo ("Invalid duration: " +:+ exn_str e) else raise e
    | Ok dur_seconds =>
        t ← now;
        let p := resolve cfg o template_data dur_seconds t in
        begin p ;;
        run_session p
    end.

(** The plan that [start] runs at time [t], when the template is
    found and the duration parses. *)
Definition plan_of (cfg : config) (o : start_opts) (t : Z) : option plan :=
  if template_not_found cfg o then None
  else
    match parse_duration (dur_str_of cfg o) with
    | Ok dur_seconds => Some (resolve cfg o (template_data_of cfg o) dur_seconds t)
    | Raise _ => None
    end.

(** ** The process that [start --detach] spawns *)

(** No [@cli.command] of the program gives a name, so click registers
    each command under the name of its function, in lower case and with
    every underscore replaced by a dash. *)
Definition click_name (function_name : string) : string :=
  of_chars (map (fun c => if Ascii.eqb c "_" then "-"%char else c)
                (chars (lower function_name))).

(** The commands of the [cli] group, and the functions they decorate. *)
Inductive command : Type :=
  | CmdTemplates | CmdStart | CmdStatus | CmdStop | CmdHistory | CmdMonitor.

Definition command_function (c : command) : string :=
  match c with
  | CmdTemplates => "templates"
  | CmdStart => "start"
  | CmdStatus => "status"
  | CmdStop => "stop"
  | CmdHistory => "history"
  | CmdMonitor => "_monitor"
  end.

Definition commands : list command :=
  [CmdTemplates; CmdStart; CmdStatus; CmdStop; CmdHistory; CmdMonitor].

(** [cli.get_command(ctx, word)]: the command registered under [word]. *)
Definition get_command (word : string) : option command :=
  List.find (fun c => String.eqb (click_name (command_function c)) word) commands.

(** The process spawned at line 526 runs the program on the command
    word ["_monitor"] of line 515, the duration and the handoff path;
    [self] is its pid.  When click finds no command under that word it
    ends the process with a usage error, before any code of the program
    runs; the output goes to [DEVNULL]. *)
Definition spawned_process (self seconds : Z) (entry_file : string) : M unit :=
  match get_command "_monitor" with
  | Some CmdMonitor => monitor self seconds entry_file
  | Some _ | None => mret tt
  end.

(** A detached session: [start --detach], and then the process it
    spawned, whose pid is the one [Popen] returned. *)
Definition detached_session (cfg : config) (o : start_opts) (p : plan) (pid : Z)
    (w : world) : world :=
  let w1 := snd (start cfg o w) in
  snd (spawned_process pid (dur_seconds p) (handoff_path (clock w)) w1).

End Commands.

(** ** [templates add] and [templates remove] *)

(** [temps[name] = entry]: a key that is there keeps its place, a new
    one goes to the end. *)
Fixpoint templates_set (temps : list (string * template)) (name : string)
    (entry : template) : list (string * template) :=
  match temps with
  | [] => [(name, entry)]
  | (k, v) :: r =>
      if String.eqb k name then (k, entry) :: r
      else (k, v) :: templates_set r name entry
  end.

(** [del temps[name]] *)
Definition templates_del (temps : list (string * template)) (name : string)
    : list (string * template) :=
  List.filter (fun kv => negb (String.eqb (fst kv) name)) temps.

(** [name in temps] *)
Definition has_template (temps : list (string * template)) (name : string) : bool :=
  match assoc temps name with
  | Some _ => true
  | None => false
  end.

(** The options of [templates add]. *)
Record add_opts : Type := mkAdd {
  a_name : string;
  a_duration : option string;
  a_dnd : option bool;
  a_apps : string;
  a_cmds : string;
  a_tmux_session : option string
}.

(** Lines 370-377: the entry that [templates add] builds. *)
Definition new_template (a : add_opts) : template :=
  mkTemplate
    (nonempty (a_duration a))
    (a_dnd a)
    (Some (if String.eqb (a_apps a) "" then [] else stripped_items (a_apps a)))
    (Some (if String.eqb (a_cmds a) "" then [] else stripped_items (a_cmds a)))
    (Some (mkTmuxCfg (Some (default ("dayrun_" +:+ a_name a) (nonempty (a_tmux_session a))))
                     (Some [])))
    None [].

(** [templates add], on the configuration [cfg] that [load_config()]
    returned, as far as the commands read it: the configuration handed
    to [save_config], if any, and the line printed.  [confirm] is the
    answer to the overwrite question, which is asked only when the name
    is taken. *)
Definition templates_add (confirm : bool) (cfg : config) (a : add_opts)
    : option config * string :=
  if has_template (templates cfg) (a_name a) && negb confirm
  then (None, "Aborted.")
  else
    (Some (mkConfig (default_duration cfg) (dnd_on_start cfg)
                    (templates_set (templates cfg) (a_name a) (new_template a))),
     "Saved template '" +:+ a_name a +:+ "'.").

(** [templates remove] *)
Definition templates_remove (cfg : config) (name : string) : option config * string :=
  if has_template (templates cfg) name
  then (Some (mkConfig (default_duration cfg) (dnd_on_start cfg)
                       (templates_del (templates cfg) name)),
        "Removed template " +:+ name)
  else (None, "Template not found.").

(** ** The wrappers around the operating system *)

(** The best-effort wrappers ([set_dnd] and its two helpers,
    [open_app_or_url], [create_tmux_session]) act through
    [platform.system], [shutil.which], [os.path.exists] and
    [subprocess]; what these answer is given by a record [os], and a
    wrapper yields its result and the calls it made, in order. *)
Module Shell.

Inductive call : Type :=
  | Run (argv : list string)           (* subprocess.run(argv, check=False) *)
  | Popen (argv : list string)         (* subprocess.Popen(argv) *)
  | Stdout (line : string).            (* print(line) *)

Record os : Type := mkOs {
  system : string;                     (* platform.system() *)
  which : string -> bool;              (* shutil.which(name) is not None *)
  path_exists : string -> bool;        (* os.path.exists(path) *)
  outcome : call -> res Z;             (* the return code or pid, or what is raised *)
  home : string                        (* str(HOME) *)
}.

(** A result, or the exception raised, and the calls made until then. *)
Definition S (A : Type) : Type := (res A * list call)%type.

#[global] Instance S_ret : MRet S := fun A a => (Ok a, []).
#[global] Instance S_bind : MBind S := fun A B k m =>
  match m with
  | (Ok a, l) => let '(r, l') := k a in (r, l ++ l')
  | (Raise e, l) => (Raise e, l)
  end.

(** [try: body / except Exception: handler] *)
Definition catch {A} (body : S A) (handler : S A) : S A :=
  match body with
  | (Raise e, l) =>
      if is_Exception e then let '(r, l') := handler in (r, l ++ l') else (Raise e, l)
  | done => done
  end.

Section Wrappers.

Variable h : os.

Definition do (c : call) : S Z := (outcome h c, [c]).

Definition print (line : string) : S unit := (Ok tt, [Stdout line]).

Fixpoint for_each {A} (l : list A) (f : A -> S unit) : S unit :=
  match l with
  | [] => mret tt
  | x :: r => f x ;; for_each r f
  end.

Definition dq : string := String (Ascii.ascii_of_nat 34) EmptyString.

(** Lines 163-175 *)
Definition enable_dnd_mac (enable : bool) : S bool :=
  catch
    (let script :=
       "display notification " +:+ dq +:+ "Do Not Disturb "
       +:+ (if enable then "enabled" else "disabled")
       +:+ " by DayRun (if supported on your macOS)." +:+ dq
       +:+ " with title " +:+ dq +:+ "DayRun" +:+ dq in
     do (Run ["osascript"; "-e"; script]) ;;
     mret true)
    (mret false).

(** Lines 178-196.  The result of the [try] block is [Some b] when it
    returned [b], [None] when it fell through. *)
Definition enable_dnd_linux (enable : bool) : S bool :=
  returned ← catch
    (if which h "gsettings" then
       let val := if enable then "false" else "true" in
       do (Run ["gsettings"; "set"; "org.gnome.desktop.notifications"; "show-banners"; val]) ;;
       mret (Some true)
     else if which h "notify-send" then
       do (Run ["notify-send"; "DayRun";
                "Do Not Disturb " +:+ (if enable then "enabled" else "disabled")
                +:+ " (attempt)"]) ;;
       mret (Some true)
     else mret None)
    (mret None);
  mret (default false returned).

(** Lines 199-208 *)
Definition set_dnd (enable : bool) : S bool :=
  if String.eqb (system h) "Darwin" then enable_dnd_mac enable
  else if String.eqb (system h) "Linux" then enable_dnd_linux enable
  else mret false.

(** [item.startswith("http://") or item.startswith("https://") or
    os.path.exists(item)] *)
Definition url_or_path (item : string) : bool :=
  String.prefix "http://" item || String.prefix "https://" item || path_exists h item.

(** Lines 211-254 *)
Definition open_app_or_url (item : string) : S bool :=
  returned ← catch
    (if String.eqb (system h) "Darwin" then
       if url_or_path item then
         do (Run ["open"; item]) ;; mret (Some true)
       else
         catch (do (Run ["open"; "-a"; item]) ;; mret (Some true))
               (do (Run ["open"; item]) ;; mret (Some true))
     else if String.eqb (system h) "Linux" then
       if url_or_path item then
         if which h "xdg-open" then do (Run ["xdg-open"; item]) ;; mret (Some true)
         else print ("Open: " +:+ item) ;; mret (Some false)
       else if which h item then do (Popen [item]) ;; mret (Some true)
       else if which h "gtk-launch" then do (Run ["gtk-launch"; item]) ;; mret (Some true)
       else if which h "xdg-open" then do (Run ["xdg-open"; item]) ;; mret (Some true)
       else mret None
     else mret (Some false))
    (mret (Some false));
  mret (default false returned).

(** Lines 262-301.  The loop that looks for a name no session has
    yet: [None] when [fuel] turns do not end it. *)
Definition has_session (name : string) : call := Run ["tmux"; "has-session"; "-t"; name].

Fixpoint find_name (fuel : nat) (base name : string) (i : Z) : option (S string) :=
  match outcome h (has_session name) with
  | Ok 0 =>
      match fuel with
      | O => None
      | Datatypes.S fuel =>
          match find_name fuel base (base +:+ "_" +:+ py_str i) (i + 1) with
          | Some (r, l) => Some (r, has_session name :: l)
          | None => None
          end
      end
  | Ok _ => Some (Ok name, [has_session name])
  | Raise e => Some (Raise e, [has_session name])
  end.

(** [cwd or str(HOME)] *)
Definition or_home (cwd : option string) : string := default (home h) (nonempty cwd).

Definition split_pane (name : string) (p : pane) : S unit :=
  do (Run ["tmux"; "split-window"; "-t"; name; "-c"; or_home (pane_cwd p)]) ;;
  match nonempty (pane_cmd p) with
  | Some cmd => do (Run ["tmux"; "send-keys"; "-t"; name; cmd; "Enter"]) ;; mret tt
  | None => mret tt
  end.

Definition create_panes (name : string) (panes : list pane) : S unit :=
  match panes with
  | first :: rest =>
      match nonempty (pane_cmd first) with
      | Some cmd =>
          do (Run ["tmux"; "new-session"; "-d"; "-s"; name; "-c";
                   or_home (pane_cwd first); cmd])
      | None =>
          do (Run ["tmux"; "new-session"; "-d"; "-s"; name; "-c"; or_home (pane_cwd first)])
      end ;;
      for_each rest (split_pane name) ;;
      do (Run ["tmux"; "select-layout"; "-t"; name; "tiled"]) ;;
      mret tt
  | [] =>
      do (Run ["tmux"; "new-session"; "-d"; "-s"; name]) ;;
      mret tt
  end.

Definition create_tmux_session (fuel : nat) (session_name : string) (panes : list pane)
    : option (S bool) :=
  if negb (which h "tmux") then Some (mret false)
  else
    match find_name fuel session_name session_name 1 with
    | Some found =>
        Some (catch (name ← found; create_panes name panes ;; mret true) (mret false))
    | None => None
    end.

End Wrappers.

End Shell.

(** * The vocabulary of the properties *)

(** ** Strings *)

Definition is_ascii (c : ascii) : bool := (code c <? 128)%N.

Definition ascii_only (s : string) : bool := forallb is_ascii (chars s).

(** ** The history and the countdown *)

(** The history as [load_sessions] sees it, when it is a list. *)
Definition history (w : world) : list json :=
  match sessions_file w with
  | Some (Parsed (JList l)) => l
  | _ => []
  end.

(** The history file is missing, unparsable (both read as the empty
    list) or holds a list: [save_session_entry] can insert into it. *)
Definition history_ok (w : world) : Prop :=
  match sessions_file w with
  | Some (Parsed (JList _)) | Some Unparsable | None => True
  | Some (Parsed _) => False
  end.

(** The number of sleeps of the countdown. *)
Fixpoint countdown_sleeps (fuel : nat) (remaining : Z) : nat :=
  if 0 <? remaining then
    match fuel with
    | O => O
    | S fuel => S (countdown_sleeps fuel (remaining - countdown_interval remaining))
    end
  else O.

Definition sleeps_of (dur : Z) : nat := countdown_sleeps (Z.to_nat dur) dur.

(** [logger m]: [m] returns normally and changes nothing but the log. *)
Definition logger {A} (m : M A) : Prop :=
  forall w, exists a evs, m w = (Ok a, set_trace (trace w ++ evs) w).

(** ** The order of the effects of a session *)

(** The start notification reads "Session started: ..."; the two end
    notifications read "Session finished" and "Detached session
    finished". *)
Definition is_start_message (msg : string) : bool :=
  String.prefix "Session started" msg.

(** The six effects whose order the session promises, in that order:
    DND on, opening an app or URL, the start notification, the end
    notification, DND off, and the history append of the finished
    record (the one stamped with [end_ts]). *)
Definition rank (e : event) : option nat :=
  match e with
  | SetDnd true => Some 0%nat
  | OpenItem _ => Some 1%nat
  | Notify _ msg => if is_start_message msg then Some 2%nat else Some 3%nat
  | SetDnd false => Some 4%nat
  | SaveSession (JDict d) => if dict_has d "end_ts" then Some 5%nat else None
  | _ => None
  end.

(** Every ranked event comes before the ranked events of higher rank. *)
Definition ordered (evs : list event) : Prop :=
  forall (i j : nat) (a b : event) (ra rb : nat),
    (i < j)%nat -> evs !! i = Some a -> evs !! j = Some b ->
    rank a = Some ra -> rank b = Some rb -> (ra <= rb)%nat.

(** The ranked events of [evs] have their ranks between [lo] and [hi]. *)
Definition within (lo hi : nat) (evs : list event) : Prop :=
  Forall (fun e => forall r, rank e = Some r -> (lo <= r <= hi)%nat) evs.

Definition phase (lo hi : nat) (evs : list event) : Prop :=
  ordered evs /\ within lo hi evs.

(** Events that the order does not concern. *)
Definition unranked (evs : list event) : Prop :=
  Forall (fun e => rank e = None) evs.

(** [phased lo hi m]: whatever [m] does, it only adds events to the
    log, in the promised order and of ranks between [lo] and [hi]. *)
Definition phased {A} (lo hi : nat) (m : M A) : Prop :=
  forall w, exists evs, trace (snd (m w)) = trace w ++ evs /\ phase lo hi evs.

(** [a] is logged before [b]. *)
Definition happens_before (a b : event) (tr : list event) : Prop :=
  exists i j : nat, (i < j)%nat /\ tr !! i = Some a /\ tr !! j = Some b.

(** ** The events and states of whole runs *)

(** What [finish] logs, for the finished record [e]. *)
Definition finish_events (p : plan) (e : json) : list event :=
  (if p_notify p then [Notify "DayRun" "Session finished"] else [])
  ++ (if dnd_mode p then [SetDnd false] else [])
  ++ (if p_log p then [SaveSession e] else [])
  ++ [Echo "Session completed."].

(** The record the monitor works on. *)
Definition monitor_entry (w : world) (entry_file : string) : json :=
  match files w !! entry_file with
  | Some (Parsed j) => j
  | _ => JDict []
  end.

(** The world in which the monitor starts its [try] block. *)
Definition monitor_marked (self : Z) (entry_file : string) (w : world) : world :=
  set_pid_file (Some (py_str self))
    (set_trace (trace w ++ [ReadEntry entry_file; WritePid self]) w).

(** What a monitor logs when it runs to its end on the record [d] and
    finishes at time [t]. *)
Definition monitor_events (self seconds : Z) (entry_file : string)
    (d : list (string * json)) (t : Z) : list event :=
  [ReadEntry entry_file; WritePid self; Sleep seconds;
   Notify "DayRun" "Detached session finished"]
  ++ (if truthy (dict_get d "dnd") then [SetDnd false] else [])
  ++ [SaveSession (JDict (dict_set d "end_ts" (JInt t)));
      UnlinkEntry entry_file; ClearPid].

Section DetachEvents.

Variable host : env.

(** What [start] logs when it detaches to the monitor [pid]. *)
Definition detach_events (p : plan) (start_ts pid : Z) : list event :=
  let entry := session_entry p start_ts in
  let path := handoff_path host start_ts in
  [WriteEntry path (JDict entry);
   Spawn [python host; script host; "_monitor"; py_str (dur_seconds p); path];
   WritePid pid;
   Echo ("Detached monitor started (pid " +:+ py_str pid +:+ ").")]
  ++ (if p_log p
      then [SaveSession (JDict (dict_set entry "detached_pid" (JInt pid)))]
      else []).

End DetachEvents.

(** ** Sample machines, worlds and options *)

(** A machine on which every capability works, and an empty [~/.dayrun]. *)
Definition host0 : env :=
  mkEnv false (fun _ => true) (fun _ => true) (fun _ => true) (fun _ => Some 77)
        (Some 4242) "/usr/bin/python3" "/opt/dayrun.py" "/home/u/.dayrun"
        (fun _ => "[Errno 3] No such process").

Definition world0 : world := mkWorld None None ∅ 1000 ∅ None [].

Definition config0 : config := mkConfig "25m" true [].

(** [start --duration ... --apps ... (--detach)], logging and
    notifications on. *)
Definition opts0 (duration apps : string) (detach : bool) : start_opts :=
  mkOpts None (Some duration) None apps [] false None true detach true.

(** A marker file with the given text, and the given live processes. *)
Definition world_with_marker (text : string) (alive : list Z) : world :=
  mkWorld None (Some text) ∅ 1000 (list_to_set alive) None [].

(** Ctrl-C arrives during the third sleep. *)
Definition interrupted_world : world := set_sigint (Some 2%nat) world0.

(** ** Further vocabulary *)

(** A history file that holds a JSON object instead of a list. *)
Definition foreign_history_world : world :=
  mkWorld (Some (Parsed (JDict [("sessions", JList [])]))) None ∅ 1000 ∅ None [].

(** The items opened and the commands run in the background, as a log
    shows them. *)
Definition opened_items (evs : list event) : list string :=
  omap (fun e => match e with OpenItem item => Some item | _ => None end) evs.

Definition background_commands (evs : list event) : list string :=
  omap (fun e => match e with RunBackground c => Some c | _ => None end) evs.

(** The seconds slept, as a log shows them. *)
Definition slept (evs : list event) : Z :=
  fold_right (fun e acc => match e with Sleep secs => secs + acc | _ => acc end) 0 evs.

(** What the countdown logs: progress lines and sleeps of ten seconds
    or of one. *)
Definition is_tick (e : event) : Prop :=
  match e with
  | Echo _ => True
  | Sleep secs => secs = 10 \/ secs = 1
  | _ => False
  end.

(** An item as [--apps] yields them: it is not empty, holds no comma
    and has no white space at either end. *)
Definition comma_free (s : string) : bool :=
  forallb (fun c => negb (Ascii.eqb c ",")) (chars s).

Definition clean_item (s : string) : Prop :=
  s <> "" /\ comma_free s = true /\ strip s = s.

(** [templates add --name deep --duration 50m --apps "firefox, slack"
    --cmds "make watch"], and [start --template ... --tmux]. *)
Definition add0 : add_opts :=
  mkAdd "deep" (Some "50m") None "firefox, slack" "make watch" None.

Definition template_opts (name : string) : start_opts :=
  mkOpts (Some name) None None "" [] true None true false true.

(** ** The wrappers' calls *)

(** The call returned: it did not raise. *)
Definition returned (h : Shell.os) (c : Shell.call) : Prop :=
  exists code, Shell.outcome h c = Ok code.

(** A wrapper never goes on after a call that raised: every call but
    the last returned, and the last one raised what the wrapper
    raises. *)
Definition sound {A} (h : Shell.os) (m : Shell.S A) : Prop :=
  match m with
  | (Ok _, l) => Forall (returned h) l
  | (Raise e, l) =>
      exists l' c, l = l' ++ [c] /\ Forall (returned h) l' /\ Shell.outcome h c = Raise e
  end.

(** The names [create_tmux_session] tries: the one asked for, then
    that name with [_1], [_2], ... *)
Definition candidate (base : string) (k : nat) : string :=
  match k with
  | O => base
  | _ => base +:+ "_" +:+ py_str (Z.of_nat k)
  end.

(** The tmux command creates the session [name] or works on it. *)
Definition targets (name : string) (c : Shell.call) : Prop :=
  (exists rest, c = Shell.Run ("tmux" :: "new-session" :: "-d" :: "-s" :: name :: rest))
  \/ (exists verb rest, c = Shell.Run ("tmux" :: verb :: "-t" :: name :: rest)).

(** A Linux machine with [gsettings] and [xdg-open], on which every
    call returns 0. *)
Definition linux0 : Shell.os :=
  Shell.mkOs "Linux"
    (fun name => String.eqb name "gsettings" || String.eqb name "xdg-open"
                 || String.eqb name "tmux")
    (fun _ => false) (fun _ => Ok 0) "/home/u".

(** The same machine with tmux sessions [work] and [work_1]. *)
Definition linux_with_sessions : Shell.os :=
  Shell.mkOs "Linux" (fun name => String.eqb name "tmux") (fun _ => false)
    (fun c =>
       match c with
       | Shell.Run [_; verb; _; name] =>
           if String.eqb verb "has-session"
           then if String.eqb name "work" || String.eqb name "work_1" then Ok 0 else Ok 1
           else Ok 0
       | _ => Ok 0
       end)
    "/home/u".

(** A machine on which no monitor can be spawned, and a Windows
    machine. *)
Definition host_without_spawn : env :=
  mkEnv false (fun _ => true) (fun _ => true) (fun _ => true) (fun _ => Some 77)
        None "/usr/bin/python3" "/opt/dayrun.py" "/home/u/.dayrun"
        (fun _ => "[Errno 2] No such file or directory").

Definition windows_host : env :=
  mkEnv true (fun _ => true) (fun _ => true) (fun _ => true) (fun _ => Some 77)
        (Some 4242) "python" "dayrun.py" "C:/Users/u/.dayrun"
        (fun _ => "[WinError 87] The parameter is incorrect").

(** A world in which the file [path] holds [content]. *)
Definition world_with_file (path : string) (content : jfile) : world :=
  mkWorld None None {[ path := content ]} 1000 ∅ None [].

(** [start --duration ... --detach] with the given [--log] and
    [--notify] flags. *)
Definition detach_opts (duration : string) (notify log : bool) : start_opts :=
  mkOpts None (Some duration) None "" [] false None notify true log.

(** The effects whose order the session promises, as a log shows
    them: every DND switch, opening, notification and history append. *)
Definition is_effect (e : event) : bool :=
  match e with
  | SetDnd _ | OpenItem _ | Notify _ _ | SaveSession _ => true
  | _ => false
  end.

Definition effects (evs : list event) : list event := List.filter is_effect evs.

(** The effects of the begin phase of the plan [p], of the finish phase
    of a foreground session that saves the record [e], and of the
    finish phase of the monitor on the record [d] at time [t]. *)
Definition begin_effects (p : plan) : list event :=
  (if dnd_mode p then [SetDnd true] else [])
  ++ map OpenItem (apps_list p)
  ++ match p_music p with Some music => [OpenItem music] | None => [] end
  ++ (if p_notify p
      then [Notify "DayRun" ("Session started: " +:+ human_readable_seconds (dur_seconds p))]
      else []).

Definition finish_effects (p : plan) (e : json) : list event :=
  (if p_notify p then [Notify "DayRun" "Session finished"] else [])
  ++ (if dnd_mode p then [SetDnd false] else [])
  ++ (if p_log p then [SaveSession e] else []).

Definition monitor_effects (d : list (string * json)) (t : Z) : list event :=
  [Notify "DayRun" "Detached session finished"]
  ++ (if truthy (dict_get d "dnd") then [SetDnd false] else [])
  ++ [SaveSession (JDict (dict_set d "end_ts" (JInt t)))].

Section BeginEvents.

Variable host : env.

(** What [begin] logs. *)
Definition begin_events (p : plan) : list event :=
  [Echo ("Starting DayRun session: duration=" +:+ human_readable_seconds (dur_seconds p)
         +:+ ", dnd=" +:+ bool_str (dnd_mode p) +:+ ", detach=" +:+ bool_str (p_detach p))]
  ++ (if dnd_mode p
      then SetDnd true
           :: (if dnd_result host true then []
               else [Echo "Could not enable Do Not Disturb automatically on your system. Please enable it manually if desired."])
      else [])
  ++ flat_map (fun item =>
                 OpenItem item
                 :: (if open_result host item then []
                     else [Echo ("Could not open '" +:+ item +:+ "' automatically. (Best-effort)")]))
              (apps_list p)
  ++ (if p_tmux p && match tmux_panes_list p with [] => false | _ => true end
      then CreateTmux (session_name p) (tmux_panes_list p)
           :: (if tmux_result host (session_name p)
               then [Echo ("Created tmux session '" +:+ session_name p
                           +:+ "'. Attach with: tmux attach -t " +:+ session_name p)]
               else Echo "tmux requested but failed to create session. Falling back to background commands."
                    :: map RunBackground (cmds_list p))
      else map RunBackground (cmds_list p))
  ++ match p_music p with Some music => [OpenItem music] | None => [] end
  ++ (if p_notify p
      then [Notify "DayRun" ("Session started: " +:+ human_readable_seconds (dur_seconds p))]
      else []).

End BeginEvents.

(** * Properties *)

(** ** The duration parser *)

Module DurationFacts.

Lemma chars_of_chars (l : list ascii) : chars (of_chars l) = l.
Proof. apply list_ascii_of_string_of_list_ascii. Qed.

Lemma of_chars_chars (s : string) : of_chars (chars s) = s.
Proof. apply string_of_list_ascii_of_string. Qed.

(** *** Facts on single characters, by enumeration of the 256 of them *)

Ltac by_cases_on c :=
  destruct c as [[] [] [] [] [] [] [] []]; vm_compute; try reflexivity; try discriminate.

Lemma is_space_lower_char (c : ascii) : is_space (lower_char c) = is_space c.
Proof. by_cases_on c. Qed.

Lemma lower_char_idem (c : ascii) : lower_char (lower_char c) = lower_char c.
Proof. by_cases_on c. Qed.

Lemma is_ascii_lower_char (c : ascii) : is_ascii c = true -> is_ascii (lower_char c) = true.
Proof. by_cases_on c. Qed.

Lemma ascii_digit_is_decimal (c : ascii) :
  is_ascii c = true -> is_digit_char c = true -> is_decimal c = true.
Proof. by_cases_on c. Qed.

Lemma decimal_not_num_space (c : ascii) : is_decimal c = true -> is_num_space c = false.
Proof. by_cases_on c. Qed.

Lemma decimal_not_underscore (c : ascii) : is_decimal c = true -> is_underscore c = false.
Proof. by_cases_on c. Qed.

Lemma decimal_not_sign (c : ascii) :
  is_decimal c = true -> Ascii.eqb c "-" = false /\ Ascii.eqb c "+" = false.
Proof. by_cases_on c; split; reflexivity. Qed.

(** *** Stripping *)

Lemma drop_while_split (p : ascii -> bool) (l : list ascii) :
  exists pre, l = (pre ++ drop_while p l)%list /\ forallb p pre = true.
Proof.
  induction l as [|c l [pre [Hl Hp]]]; simpl.
  - exists []. split; reflexivity.
  - destruct (p c) eqn:Hc.
    + exists (c :: pre). simpl. rewrite Hc, Hp. split; [congruence | reflexivity].
    + exists []. split; reflexivity.
Qed.

Lemma drop_while_head (p : ascii -> bool) (l : list ascii) (c : ascii) (r : list ascii) :
  drop_while p l = c :: r -> p c = false.
Proof.
  induction l as [|d l IH]; simpl; [discriminate|].
  destruct (p d) eqn:Hd; [exact IH|]. intros [= <- _]. exact Hd.
Qed.

Lemma drop_while_id (p : ascii -> bool) (l : list ascii) :
  match l with c :: _ => p c = false | [] => True end -> drop_while p l = l.
Proof. destruct l as [|c l]; simpl; [reflexivity|]. intros ->. reflexivity. Qed.

Lemma drop_while_idem (p : ascii -> bool) (l : list ascii) :
  drop_while p (drop_while p l) = drop_while p l.
Proof.
  apply drop_while_id. destruct (drop_while p l) eqn:E; [exact I|].
  eapply drop_while_head; exact E.
Qed.

Lemma drop_while_map (p : ascii -> bool) (f : ascii -> ascii) (l : list ascii) :
  (forall c, p (f c) = p c) ->
  drop_while p (map f l) = map f (drop_while p l).
Proof.
  intros Hpf. induction l as [|c l IH]; simpl; [reflexivity|].
  rewrite Hpf. destruct (p c); [exact IH | reflexivity].
Qed.

(** The result of [strip_with] neither starts nor ends with a
    character of the stripped class. *)
Lemma strip_with_idem (p : ascii -> bool) (l : list ascii) :
  strip_with p (strip_with p l) = strip_with p l.
Proof.
  unfold strip_with.
  set (a := drop_while p l).
  set (b := drop_while p (rev a)).
  assert (Hb : drop_while p b = b) by apply drop_while_idem.
  assert (Ha : drop_while p (rev b) = rev b).
  { apply drop_while_id.
    destruct (rev b) as [|c r] eqn:Er; [exact I|].
    destruct (drop_while_split p (rev a)) as [pre [Hpre _]]. fold b in Hpre.
    assert (Hra : a = (rev b ++ rev pre)%list).
    { rewrite <- rev_app_distr, <- Hpre, rev_involutive. reflexivity. }
    rewrite Er in Hra. simpl in Hra.
    eapply drop_while_head. unfold a in Hra. exact Hra. }
  rewrite Ha, rev_involutive, Hb. reflexivity.
Qed.

Lemma strip_with_map (p : ascii -> bool) (f : ascii -> ascii) (l : list ascii) :
  (forall c, p (f c) = p c) ->
  strip_with p (map f l) = map f (strip_with p l).
Proof.
  intros Hpf. unfold strip_with.
  rewrite (drop_while_map p f l Hpf), <- map_rev,
    (drop_while_map p f _ Hpf), <- map_rev.
  reflexivity.
Qed.

Lemma strip_idem (s : string) : strip (strip s) = strip s.
Proof. unfold strip. rewrite chars_of_chars, strip_with_idem. reflexivity. Qed.

Lemma lower_idem (s : string) : lower (lower s) = lower s.
Proof.
  unfold lower. rewrite chars_of_chars, map_map.
  f_equal. apply map_ext. intros c. apply lower_char_idem.
Qed.

Lemma strip_lower (s : string) : strip (lower s) = lower (strip s).
Proof.
  unfold strip, lower. rewrite !chars_of_chars.
  f_equal. apply strip_with_map. apply is_space_lower_char.
Qed.

(** Normalising twice is normalising once. *)
Lemma normalize_idem (s : string) : lower (strip (lower (strip s))) = lower (strip s).
Proof. rewrite strip_lower, strip_idem, lower_idem. reflexivity. Qed.

(** *** The conversions raise ordinary exceptions only *)

Lemma py_float_raises (s : string) (e : exn) : py_float s = Raise e -> e = ValueError.
Proof.
  unfold py_float. destruct (underscores_ok _ _); [|congruence].
  destruct (split_sign _) as [neg r]. destruct (parse_unsigned neg r); congruence.
Qed.

Lemma int_of_float_raises (x : float) (e : exn) :
  int_of_float x = Raise e -> is_Exception e = true.
Proof. destruct x; simpl; intros [= <-]; reflexivity. Qed.

Lemma float_attempt_raises (s : string) (f : float -> float) (e : exn) :
  (x ← py_float s; int_of_float (f x)) = Raise e -> is_Exception e = true.
Proof.
  destruct (py_float s) as [x|e'] eqn:E; simpl.
  - apply int_of_float_raises.
  - intros [= <-]. apply py_float_raises in E. subst e'. reflexivity.
Qed.

(** *** [int] on a string of decimal digits *)

Lemma underscores_ok_decimal (prev : option ascii) (l : list ascii) :
  forallb is_decimal l = true -> underscores_ok prev l = true.
Proof.
  revert prev. induction l as [|c l IH]; intros prev; simpl; [reflexivity|].
  intros [Hc Hl]%andb_prop. rewrite (decimal_not_underscore c Hc). apply IH, Hl.
Qed.

Lemma no_underscores_decimal (l : list ascii) :
  forallb is_decimal l = true -> no_underscores l = l.
Proof.
  induction l as [|c l IH]; simpl; [reflexivity|].
  intros [Hc Hl]%andb_prop. rewrite (decimal_not_underscore c Hc). simpl.
  rewrite (IH Hl). reflexivity.
Qed.

Lemma strip_num_space_decimal (l : list ascii) :
  forallb is_decimal l = true -> strip_with is_num_space l = l.
Proof.
  intros Hl. unfold strip_with.
  assert (Hhead : forall l', forallb is_decimal l' = true ->
            drop_while is_num_space l' = l').
  { intros l' Hl'. apply drop_while_id. destruct l' as [|c r]; [exact I|].
    simpl in Hl'. apply andb_prop in Hl' as [Hc _].
    apply decimal_not_num_space, Hc. }
  rewrite (Hhead l Hl), Hhead, rev_involutive; [reflexivity|].
  rewrite forallb_forall in *. intros c Hc. apply Hl, in_rev, Hc.
Qed.

Lemma py_int_decimal (s : string) :
  all_decimal (chars s) = true -> py_int s = Ok (digits_value (chars s)).
Proof.
  unfold py_int, all_decimal. intros Hs.
  destruct (chars s) as [|c l] eqn:E; [discriminate|].
  rewrite (strip_num_space_decimal _ Hs), (underscores_ok_decimal None _ Hs),
    (no_underscores_decimal _ Hs).
  pose proof Hs as Hs'. simpl in Hs'. apply andb_prop in Hs' as [Hc _].
  unfold split_sign. destruct (decimal_not_sign c Hc) as [-> ->].
  unfold all_decimal. rewrite Hs. reflexivity.
Qed.

(** *** ASCII strings stay ASCII under normalisation *)

Lemma forallb_drop_while (q p : ascii -> bool) (l : list ascii) :
  forallb q l = true -> forallb q (drop_while p l) = true.
Proof.
  induction l as [|c l IH]; simpl; [reflexivity|].
  intros H. destruct (p c); [|exact H].
  apply andb_prop in H as [_ H]. apply IH, H.
Qed.

Lemma forallb_rev (q : ascii -> bool) (l : list ascii) :
  forallb q l = true -> forallb q (rev l) = true.
Proof.
  rewrite !forallb_forall. intros H c Hc. apply H, in_rev, Hc.
Qed.

Lemma ascii_only_normalize (s : string) :
  ascii_only s = true -> ascii_only (lower (strip s)) = true.
Proof.
  unfold ascii_only, lower, strip, strip_with. rewrite !chars_of_chars. intros H.
  apply forallb_forall. intros c [d [<- Hd]]%in_map_iff.
  apply is_ascii_lower_char.
  assert (Hall : forallb is_ascii
            (rev (drop_while is_space (rev (drop_while is_space (chars s))))) = true).
  { apply forallb_rev, forallb_drop_while, forallb_rev, forallb_drop_while, H. }
  rewrite forallb_forall in Hall. apply Hall, Hd.
Qed.

Lemma isdigit_ascii_decimal (s : string) :
  ascii_only s = true -> isdigit s = true -> all_decimal (chars s) = true.
Proof.
  unfold ascii_only, isdigit, all_decimal.
  destruct (chars s) as [|c l]; [discriminate|].
  intros Ha Hd. apply forallb_forall. intros x Hx.
  rewrite forallb_forall in Ha, Hd.
  apply ascii_digit_is_decimal; [apply Ha | apply Hd]; exact Hx.
Qed.

(** *** The shape of the parser's result *)

Lemma parse_suffix_cases (c : ascii) (factor : Z) (s : string) (next : res Z) :
  parse_suffix c factor s next = next \/ exists n, parse_suffix c factor s next = Ok n.
Proof.
  unfold parse_suffix. destruct (endswith s c); [|left; reflexivity].
  destruct (x ← py_float (but_last s); int_of_float (fmul x (float_of_Z factor)))
    as [n|e] eqn:E.
  - right. exists n. reflexivity.
  - apply (float_attempt_raises _ (fun x => fmul x (float_of_Z factor))) in E.
    rewrite E. left. reflexivity.
Qed.

Lemma parse_plain_cases (s : string) :
  ascii_only s = true ->
  (exists n, parse_plain s = Ok n)
  \/ parse_plain s = Raise (BadParameter ("Can't parse duration '" +:+ s +:+ "'")).
Proof.
  intros Ha. unfold parse_plain. destruct (isdigit s) eqn:Hd.
  - left. rewrite (py_int_decimal s (isdigit_ascii_decimal s Ha Hd)).
    eexists. reflexivity.
  - destruct (x ← py_float s; int_of_float x) as [n|e] eqn:E.
    + left. exists n. reflexivity.
    + apply (float_attempt_raises _ (fun x => x)) in E. rewrite E. right. reflexivity.
Qed.

End DurationFacts.

Import DurationFacts.

(** C8, as the spec states it, fails: ["0"] parses to zero seconds,
    which is neither a positive number nor a failure. *)
Lemma parse_duration_zero_not_positive :
  ~ ((exists n, 0 < n /\ parse_duration "0" = Ok n)
     \/ (exists msg, parse_duration "0" = Raise (BadParameter msg))).
Proof.
  assert (H : parse_duration "0" = Ok 0) by (vm_compute; reflexivity).
  rewrite H. intros [[n [Hn [= <-]]] | [msg [=]]]. lia.
Qed.

(** C8 (amended): for every string of ASCII characters, no more of them
    than the interpreter's limit on the digits of an integer, the parser
    either returns an integer number of seconds, which can be zero or
    negative, or fails with [click.BadParameter] (the invalid-duration
    error) on the normalised string; no other exception escapes. *)
Theorem parse_duration_integer_or_invalid (s : string) :
  ascii_only s = true -> (String.length s <= max_str_digits)%nat ->
  (exists n, parse_duration s = Ok n)
  \/ parse_duration s
     = Raise (BadParameter ("Can't parse duration '" +:+ lower (strip s) +:+ "'")).
Proof.
  intros Ha _. unfold parse_duration.
  pose proof (parse_plain_cases _ (ascii_only_normalize s Ha)) as Hplain.
  set (t := lower (strip s)) in *.
  destruct (parse_suffix_cases "h" 3600 t (parse_suffix "m" 60 t (parse_plain t)))
    as [-> | [n ->]]; [|left; exists n; reflexivity].
  destruct (parse_suffix_cases "m" 60 t (parse_plain t))
    as [-> | [n ->]]; [|left; exists n; reflexivity].
  exact Hplain.
Qed.

Lemma parse_duration_integer_or_invalid_witness :
  ascii_only "-5" = true
  /\ ((exists n, parse_duration "-5" = Ok n)
      \/ parse_duration "-5"
         = Raise (BadParameter ("Can't parse duration '" +:+ lower (strip "-5") +:+ "'"))).
Proof.
  assert (Hlen : (String.length "-5" <= max_str_digits)%nat)
    by (unfold max_str_digits; cbn; lia).
  split; [reflexivity | exact (parse_duration_integer_or_invalid "-5" eq_refl Hlen)].
Defined.

(** The results that make the parser's range visible: zero, a negative
    number, and a superscript digit, which [str.isdigit] accepts and
    [int] refuses outside any [try]. *)
Example parse_duration_samples :
  parse_duration "0" = Ok 0
  /\ parse_duration "-5" = Ok (-5)
  /\ parse_duration "-2m" = Ok (-120)
  /\ parse_duration "0.5" = Ok 0
  /\ parse_duration "1.13h" = Ok 4067
  /\ parse_duration (String (ascii_of_N 178) EmptyString) = Raise ValueError.
Proof. vm_compute. repeat split. Qed.

(** C9, as the spec states it, fails: a string of digits is a number of
    minutes, so ["45"] gives 2700 seconds, not 45. *)
Lemma parse_duration_45_is_minutes :
  ~ (parse_duration "90m" = Ok 5400
     /\ parse_duration "1h" = Ok 3600
     /\ parse_duration "30" = Ok 1800
     /\ parse_duration "45" = Ok 45
     /\ exists msg, parse_duration "abc" = Raise (BadParameter msg)).
Proof.
  intros (_ & _ & _ & H & _).
  assert (H45 : parse_duration "45" = Ok 2700) by (vm_compute; reflexivity).
  rewrite H45 in H. discriminate H.
Qed.

(** C9 (amended): ["90m"], ["1h"], ["30"] and ["45"] parse to 5400,
    3600, 1800 and 2700 seconds (digits alone are minutes), and ["abc"]
    fails with [click.BadParameter]. *)
Theorem parse_duration_examples :
  parse_duration "90m" = Ok 5400
  /\ parse_duration "1h" = Ok 3600
  /\ parse_duration "30" = Ok 1800
  /\ parse_duration "45" = Ok 2700
  /\ parse_duration "abc" = Raise (BadParameter "Can't parse duration 'abc'").
Proof. vm_compute. repeat split. Qed.

(** C10: the parser normalises its input first: parsing [s] gives what
    parsing the stripped, lower-cased [s] gives, so ["  90M "] and
    ["1H"] are accepted with their lower-case meanings. *)
Theorem parse_duration_normalizes (s : string) :
  parse_duration s = parse_duration (lower (strip s))
  /\ parse_duration "  90M " = Ok 5400
  /\ parse_duration "1H" = Ok 3600.
Proof.
  split; [|split; vm_compute; reflexivity].
  unfold parse_duration. rewrite normalize_idem. reflexivity.
Qed.

(** ** Running the monad *)

Arguments py_str : simpl never.
Arguments human_readable_seconds : simpl never.
Arguments String.append : simpl never.

Lemma run_bind {A B} (m : M A) (k : A -> M B) (w : world) :
  (m ≫= k) w = match m w with
               | (Ok a, w') => k a w'
               | (Raise e, w') => (Raise e, w')
               end.
Proof. reflexivity. Qed.

Lemma run_log (e : event) (w : world) :
  log e w = (Ok tt, set_trace (trace w ++ [e]) w).
Proof. reflexivity. Qed.

Lemma set_trace_set_trace (l1 l2 : list event) (w : world) :
  set_trace (trace (set_trace (trace w ++ l1) w) ++ l2) (set_trace (trace w ++ l1) w)
  = set_trace (trace w ++ l1 ++ l2) w.
Proof. destruct w. unfold set_trace. simpl. rewrite <- app_assoc. reflexivity. Qed.

Lemma set_trace_nil (w : world) : set_trace (trace w ++ []) w = w.
Proof. destruct w. unfold set_trace. simpl. rewrite app_nil_r. reflexivity. Qed.

Lemma new_events_app (w w' : world) (evs : list event) :
  trace w' = trace w ++ evs -> new_events w w' = evs.
Proof. unfold new_events. intros ->. apply drop_app_length. Qed.

Ltac run :=
  unfold mbind, M_bind, mret, M_ret, log, modify, gets, raise, when,
    try_except, try_except_interrupt, try_finally in *; simpl in *.

(** ** The tracker commands *)

Lemma marker_absent (w : world) : pid_file w = None -> marker_pid w = None.
Proof. unfold marker_pid. intros ->. reflexivity. Qed.

(** [write_pid] leaves a marker that [read_pid] reads back, for the
    pids it is called with. *)
Example write_then_read_pid (w : world) :
  marker_pid (snd (write_pid 4242 w)) = Some 4242.
Proof. reflexivity. Qed.

(** A marker file that holds no pid (text that is not a number, or the
    number zero) is to [status] and [stop] as no marker. *)
Example stop_without_pid (host : env) (w : world) (text : string) :
  pid_file w = Some text ->
  match py_int (strip text) with Ok 0 | Raise _ => True | _ => False end ->
  stop host w = (Ok tt, set_trace (trace w ++ [Echo "No detached session found."]) w).
Proof.
  intros Hf Hp. unfold stop, read_pid, marker_pid. run. rewrite Hf.
  destruct (py_int (strip text)) as [[|p|p]|e]; simpl; try contradiction; reflexivity.
Qed.

(** C4, as the spec states it, fails: a marker file that holds the
    number zero, or text that is not a number, is present, and [stop]
    signals nothing and leaves it where it is. *)
Lemma stop_leaves_a_marker_without_pid :
  pid_file (world_with_marker "0" [7]) = Some "0"
  /\ new_events (world_with_marker "0" [7]) (snd (stop host0 (world_with_marker "0" [7])))
     = [Echo "No detached session found."]
  /\ pid_file (snd (stop host0 (world_with_marker "0" [7]))) = Some "0"
  /\ pid_file (snd (stop host0 (world_with_marker "garbage" [7]))) = Some "garbage".
Proof. vm_compute. repeat split; reflexivity. Qed.

(** C4 (amended): when the marker holds a pid other than zero, [stop]
    sends it the termination signal, reports that it did or that it
    could not, with the text of the failure, and then clears the marker
    in either case: no such marker is left after a stop attempt. *)
Theorem stop_signals_then_clears (host : env) (w : world) (pid : Z) :
  marker_pid w = Some pid -> pid <> 0 ->
  fst (stop host w) = Ok tt
  /\ (exists line,
        new_events w (snd (stop host w)) = [Kill pid SIGTERM; Echo line; ClearPid]
        /\ (pid ∈ procs w ->
            line = "Signaled detached session (pid " +:+ py_str pid +:+ ") to stop.")
        /\ (pid ∉ procs w ->
            exists msg, line = "Failed to stop pid " +:+ py_str pid +:+ ": " +:+ msg))
  /\ pid_file (snd (stop host w)) = None
  /\ marker_pid (snd (stop host w)) = None.
Proof.
  intros Hm Hpid. apply Z.eqb_neq in Hpid.
  unfold stop, read_pid, kill, clear_pid, echo. run. rewrite Hm. simpl. rewrite Hpid.
  destruct (bool_decide (pid ∈ procs w)) eqn:Ealive; simpl;
    (split; [reflexivity|]); (split; [|split; reflexivity]).
  - apply bool_decide_eq_true_1 in Ealive. eexists. split; [|split].
    + apply new_events_app; simpl; rewrite <- !app_assoc; reflexivity.
    + intros _. reflexivity.
    + intros Hdead. contradiction.
  - apply bool_decide_eq_false_1 in Ealive. eexists. split; [|split].
    + apply new_events_app; simpl; rewrite <- !app_assoc; reflexivity.
    + intros Hin. contradiction.
    + intros _. eexists. reflexivity.
Qed.

Lemma stop_signals_then_clears_witness :
  pid_file (snd (stop host0 (world_with_marker "4242" [4242]))) = None
  /\ pid_file (snd (stop host0 (world_with_marker "4242" []))) = None.
Proof.
  split.
  - apply (stop_signals_then_clears host0 (world_with_marker "4242" [4242]) 4242);
      [reflexivity | discriminate].
  - apply (stop_signals_then_clears host0 (world_with_marker "4242" []) 4242);
      [reflexivity | discriminate].
Defined.

(** C5: [status] reports that there is no session when no marker
    exists; when the marker holds the pid of a process that the probe
    reaches, it reports the session as running and leaves the marker;
    when the probe fails, it reports a stale marker and clears it. *)
Theorem status_reports (w : world) :
  (pid_file w = None ->
   status w = (Ok tt, set_trace (trace w ++ [Echo "No detached session found."]) w))
  /\ (forall pid, marker_pid w = Some pid -> pid <> 0 -> pid ∈ procs w ->
      status w
      = (Ok tt,
         set_trace (trace w ++ [Kill pid SIG0;
                                Echo ("Detached session monitor running (pid "
                                      +:+ py_str pid +:+ ").")]) w)
      /\ pid_file (snd (status w)) = pid_file w)
  /\ (forall pid, marker_pid w = Some pid -> pid <> 0 -> pid ∉ procs w ->
      status w
      = (Ok tt,
         set_pid_file None
           (set_trace (trace w ++ [Kill pid SIG0;
                                   Echo "No detached session running (stale PID file).";
                                   ClearPid]) w))
      /\ pid_file (snd (status w)) = None).
Proof.
  split; [|split].
  - intros Hf. unfold status, read_pid. run. rewrite (marker_absent w Hf). reflexivity.
  - intros pid Hm Hpid Hin. apply Z.eqb_neq in Hpid.
    unfold status, read_pid, kill, clear_pid, echo. run. rewrite Hm. simpl. rewrite Hpid.
    rewrite (bool_decide_eq_true_2 _ Hin). simpl.
    rewrite <- !app_assoc. split; reflexivity.
  - intros pid Hm Hpid Hin. apply Z.eqb_neq in Hpid.
    unfold status, read_pid, kill, clear_pid, echo. run. rewrite Hm. simpl. rewrite Hpid.
    rewrite (bool_decide_eq_false_2 _ Hin). simpl.
    rewrite <- !app_assoc. split; reflexivity.
Qed.

Lemma status_reports_witness :
  trace (snd (status (mkWorld None None ∅ 1000 ∅ None [])))
  = [Echo "No detached session found."]
  /\ pid_file (snd (status (world_with_marker "4242" [4242]))) = Some "4242"
  /\ pid_file (snd (status (world_with_marker "4242" []))) = None.
Proof.
  split; [|split].
  - rewrite (proj1 (status_reports (mkWorld None None ∅ 1000 ∅ None [])) eq_refl).
    reflexivity.
  - rewrite (proj2 (proj1 (proj2 (status_reports (world_with_marker "4242" [4242])))
                      4242 eq_refl ltac:(discriminate) ltac:(vm_compute; reflexivity))).
    reflexivity.
  - apply (proj2 (proj2 (status_reports (world_with_marker "4242" []))) 4242);
      [reflexivity | discriminate | vm_compute; intros H; discriminate H].
Defined.

(** ** The order of the effects of a session *)

Section Phases.

Implicit Types (lo mid hi : nat) (evs : list event).

Lemma within_weaken lo hi lo' hi' evs :
  (lo' <= lo)%nat -> (hi <= hi')%nat -> within lo hi evs -> within lo' hi' evs.
Proof.
  intros Hlo Hhi Hw. unfold within in *. eapply Forall_impl; [exact Hw|].
  simpl. intros e He r Hr. specialize (He r Hr). lia.
Qed.

Lemma ordered_app lo mid hi evs1 evs2 :
  ordered evs1 -> ordered evs2 -> within lo mid evs1 -> within mid hi evs2 ->
  ordered (evs1 ++ evs2).
Proof.
  intros O1 O2 W1 W2 i j a b ra rb Hij Ha Hb Hra Hrb.
  apply lookup_app_Some in Ha as [Ha | [Hi Ha]];
    apply lookup_app_Some in Hb as [Hb | [Hj Hb]].
  - exact (O1 i j a b ra rb Hij Ha Hb Hra Hrb).
  - unfold within in W1, W2. rewrite Forall_lookup in W1, W2.
    specialize (W1 _ _ Ha _ Hra). specialize (W2 _ _ Hb _ Hrb). lia.
  - apply lookup_lt_Some in Hb. lia.
  - apply (O2 (i - length evs1)%nat (j - length evs1)%nat a b ra rb); auto. lia.
Qed.

Lemma phase_nil lo hi : phase lo hi [].
Proof.
  split; [|constructor].
  intros i j a b ra rb _ Ha. rewrite lookup_nil in Ha. discriminate.
Qed.

Lemma phase_app lo mid hi evs1 evs2 :
  (lo <= mid <= hi)%nat ->
  phase lo mid evs1 -> phase mid hi evs2 -> phase lo hi (evs1 ++ evs2).
Proof.
  intros Hm [O1 W1] [O2 W2]. split.
  - exact (ordered_app lo mid hi _ _ O1 O2 W1 W2).
  - apply Forall_app. split.
    + apply (within_weaken lo mid); [lia | lia | exact W1].
    + apply (within_weaken mid hi); [lia | lia | exact W2].
Qed.

Lemma phase_weaken lo hi lo' hi' evs :
  (lo' <= lo)%nat -> (hi <= hi')%nat -> phase lo hi evs -> phase lo' hi' evs.
Proof. intros Hlo Hhi [O W]. split; [exact O | exact (within_weaken _ _ _ _ _ Hlo Hhi W)]. Qed.

Lemma phase_single lo hi (e : event) :
  (forall r, rank e = Some r -> (lo <= r <= hi)%nat) -> phase lo hi [e].
Proof.
  intros He. split; [|constructor; [exact He | constructor]].
  intros i j a b ra rb Hij Ha Hb.
  destruct i, j; simpl in *; try lia; rewrite ?lookup_nil in *; discriminate.
Qed.

Lemma unranked_phase lo hi evs : unranked evs -> phase lo hi evs.
Proof.
  intros Hu. split.
  - intros i j a b ra rb _ Ha _ Hra.
    unfold unranked in Hu. rewrite Forall_lookup in Hu.
    rewrite (Hu _ _ Ha) in Hra. discriminate.
  - eapply Forall_impl; [exact Hu|]. simpl. intros e He r Hr. congruence.
Qed.

Lemma phased_weaken {A} lo hi lo' hi' (m : M A) :
  (lo' <= lo)%nat -> (hi <= hi')%nat -> phased lo hi m -> phased lo' hi' m.
Proof.
  intros Hlo Hhi H w. destruct (H w) as [evs [Ht Hp]].
  exists evs. split; [exact Ht | exact (phase_weaken _ _ _ _ _ Hlo Hhi Hp)].
Qed.

Lemma phased_bind {A B} lo mid hi (m : M A) (k : A -> M B) :
  (lo <= mid <= hi)%nat ->
  phased lo mid m -> (forall a, phased mid hi (k a)) -> phased lo hi (m ≫= k).
Proof.
  intros Hm H1 H2 w. rewrite run_bind.
  destruct (H1 w) as [evs1 [Ht1 Hp1]].
  destruct (m w) as [[a|e] w1]; simpl in *.
  - destruct (H2 a w1) as [evs2 [Ht2 Hp2]].
    exists (evs1 ++ evs2). rewrite Ht2, Ht1, app_assoc.
    split; [reflexivity | exact (phase_app lo mid hi _ _ Hm Hp1 Hp2)].
  - exists evs1. split; [exact Ht1|]. apply (phase_weaken lo mid); [lia | lia | exact Hp1].
Qed.

Lemma phased_try_except {A} lo mid hi (m : M A) (h : exn -> M A) :
  (lo <= mid <= hi)%nat ->
  phased lo mid m -> (forall e, phased mid hi (h e)) -> phased lo hi (try_except m h).
Proof.
  intros Hm H1 H2 w. unfold try_except.
  destruct (H1 w) as [evs1 [Ht1 Hp1]].
  assert (Hdone : exists evs, trace (snd (m w)) = trace w ++ evs /\ phase lo hi evs).
  { exists evs1. split; [exact Ht1|]. apply (phase_weaken lo mid); [lia | lia | exact Hp1]. }
  destruct (m w) as [[a|e] w1]; simpl in *; [exact Hdone|].
  destruct (is_Exception e); [|exact Hdone].
  destruct (H2 e w1) as [evs2 [Ht2 Hp2]].
  exists (evs1 ++ evs2). rewrite Ht2, Ht1, app_assoc.
  split; [reflexivity | exact (phase_app lo mid hi _ _ Hm Hp1 Hp2)].
Qed.

Lemma phased_try_except_interrupt {A} lo mid hi (m : M A) (h : M A) :
  (lo <= mid <= hi)%nat ->
  phased lo mid m -> phased mid hi h -> phased lo hi (try_except_interrupt m h).
Proof.
  intros Hm H1 H2 w. unfold try_except_interrupt.
  destruct (H1 w) as [evs1 [Ht1 Hp1]].
  assert (Hdone : exists evs, trace (snd (m w)) = trace w ++ evs /\ phase lo hi evs).
  { exists evs1. split; [exact Ht1|]. apply (phase_weaken lo mid); [lia | lia | exact Hp1]. }
  destruct (m w) as [[a|e] w1]; simpl in *; [exact Hdone|].
  destruct e; try exact Hdone.
  destruct (H2 w1) as [evs2 [Ht2 Hp2]].
  exists (evs1 ++ evs2). rewrite Ht2, Ht1, app_assoc.
  split; [reflexivity | exact (phase_app lo mid hi _ _ Hm Hp1 Hp2)].
Qed.

Lemma phased_try_finally {A} lo mid hi (m : M A) (c : M unit) :
  (lo <= mid <= hi)%nat ->
  phased lo mid m -> phased mid hi c -> phased lo hi (try_finally m c).
Proof.
  intros Hm H1 H2 w. unfold try_finally.
  destruct (H1 w) as [evs1 [Ht1 Hp1]].
  destruct (m w) as [r w1]; simpl in *.
  destruct (H2 w1) as [evs2 [Ht2 Hp2]].
  exists (evs1 ++ evs2).
  split; [|exact (phase_app lo mid hi _ _ Hm Hp1 Hp2)].
  destruct (c w1) as [[u|e] w2]; simpl in *; rewrite Ht2, Ht1, app_assoc; reflexivity.
Qed.

Lemma phased_ret {A} lo hi (a : A) : phased lo hi (mret a : M A).
Proof. intros w. exists []. split; [symmetry; apply app_nil_r | apply phase_nil]. Qed.

Lemma phased_raise {A} lo hi (e : exn) : phased lo hi (raise e : M A).
Proof. intros w. exists []. split; [symmetry; apply app_nil_r | apply phase_nil]. Qed.

Lemma phased_gets {A} lo hi (f : world -> A) : phased lo hi (gets f).
Proof. intros w. exists []. split; [symmetry; apply app_nil_r | apply phase_nil]. Qed.

Lemma phased_modify lo hi (f : world -> world) :
  (forall w, trace (f w) = trace w) -> phased lo hi (modify f).
Proof.
  intros Hf w. exists []. simpl. rewrite Hf, app_nil_r. split; [reflexivity | apply phase_nil].
Qed.

Lemma phased_log lo hi (e : event) :
  (forall r, rank e = Some r -> (lo <= r <= hi)%nat) -> phased lo hi (log e).
Proof. intros He w. exists [e]. split; [reflexivity | apply phase_single, He]. Qed.

Lemma phased_when lo hi (b : bool) (m : M unit) :
  phased lo hi m -> phased lo hi (when b m).
Proof. intros H. destruct b; [exact H | apply phased_ret]. Qed.

Lemma phased_for_each {A} r (l : list A) (f : A -> M unit) :
  (forall x, phased r r (f x)) -> phased r r (for_each l f).
Proof.
  intros Hf. induction l as [|x l IH]; simpl.
  - apply phased_ret.
  - apply (phased_bind r r r); [lia | apply Hf | intros _; exact IH].
Qed.

End Phases.

(** A step that logs nothing the order concerns fits any phase. *)
Ltac phased_silent :=
  repeat first
    [ apply phased_ret | apply phased_raise | apply phased_gets
    | apply phased_log; intros r; simpl; discriminate
    | apply phased_modify; intros w; reflexivity
    | apply phased_when
    | match goal with
      | |- phased ?lo ?hi (_ ≫= _) => apply (phased_bind lo lo hi); [lia | | intros ?]
      | |- phased ?lo ?hi (try_except _ _) => apply (phased_try_except lo lo hi); [lia | | intros ?]
      | |- phased ?lo ?hi (if ?b then _ else _) => destruct b
      | |- phased ?lo ?hi (match ?x with _ => _ end) => destruct x
      end ].

Section SessionFacts.

Variable host : env.

Implicit Types (lo hi : nat) (p : plan) (entry : list (string * json)).

Ltac unfold_calls :=
  unfold echo, now, notification, set_dnd, open_app_or_url, create_tmux_session,
    run_subprocess_background, popen_monitor, write_pid, clear_pid, read_pid,
    load_sessions, read_entry, unlink_entry, write_entry, entry_get, entry_set,
    kill, sleep, run_commands.

Lemma rank_save_session (j : json) (r : nat) :
  rank (SaveSession j) = Some r -> r = 5%nat.
Proof.
  destruct j as [| | | | |d]; simpl; try discriminate.
  destruct (dict_has d "end_ts"); congruence.
Qed.

Lemma phased_save_session_entry lo hi (j : json) :
  (lo <= 5 <= hi)%nat -> phased lo hi (save_session_entry j).
Proof.
  intros H. unfold save_session_entry.
  apply (phased_bind lo hi hi); [lia| |intros _].
  - apply phased_log. intros r ->%rank_save_session. lia.
  - unfold_calls. phased_silent.
Qed.

Lemma dict_has_set_other (d : list (string * json)) (k k' : string) (v : json) :
  String.eqb k k' = false ->
  dict_has (dict_set d k v) k' = dict_has d k'.
Proof.
  intros Hk. induction d as [|[k0 v0] d IH]; simpl.
  - rewrite Hk. reflexivity.
  - destruct (String.eqb k0 k) eqn:E; simpl; [reflexivity|].
    rewrite IH. reflexivity.
Qed.

Lemma dict_has_set (d : list (string * json)) (k : string) (v : json) :
  dict_has (dict_set d k v) k = true.
Proof.
  induction d as [|[k0 v0] d IH]; simpl.
  - rewrite String.eqb_refl. reflexivity.
  - destruct (String.eqb k0 k) eqn:E; simpl; rewrite ?E, ?IH; reflexivity.
Qed.

(** The record that [start] logs when it detaches is not stamped yet. *)
Lemma phased_save_unstamped lo (d : list (string * json)) :
  dict_has d "end_ts" = false -> phased lo lo (save_session_entry (JDict d)).
Proof.
  intros Hd. unfold save_session_entry.
  apply (phased_bind lo lo lo); [lia| |intros _].
  - apply phased_log. intros r. simpl. rewrite Hd. discriminate.
  - unfold_calls. phased_silent.
Qed.

Lemma phased_begin p : phased 0 2 (begin host p).
Proof.
  unfold begin.
  apply (phased_bind 0 0 2); [lia | unfold_calls; phased_silent | intros _].
  apply (phased_bind 0 0 2); [lia | | intros _].
  { apply phased_when. unfold_calls.
    apply (phased_bind 0 0 0); [lia | | intros ok; phased_silent].
    apply (phased_bind 0 0 0); [lia | | intros _; phased_silent].
    apply phased_log. intros r [= <-]. lia. }
  apply (phased_bind 0 1 2); [lia | | intros _].
  { apply (phased_weaken 1 1); [lia | lia |]. apply phased_for_each. intros item.
    unfold_calls.
    apply (phased_bind 1 1 1); [lia | | intros opened; phased_silent].
    apply (phased_bind 1 1 1); [lia | | intros _; phased_silent].
    apply phased_log. intros r [= <-]. lia. }
  apply (phased_bind 1 1 2); [lia | | intros _].
  { assert (Hcmds : forall l, phased 1 1 (run_commands host l)).
    { intros l. apply phased_for_each. intros c. unfold_calls. phased_silent. }
    destruct (p_tmux p && _); [|apply Hcmds].
    unfold create_tmux_session.
    apply (phased_bind 1 1 1); [lia | phased_silent | intros created].
    destruct created; [unfold_calls; phased_silent|].
    apply (phased_bind 1 1 1); [lia | unfold_calls; phased_silent | intros _; apply Hcmds]. }
  apply (phased_bind 1 1 2); [lia | | intros _].
  { destruct (p_music p); [|apply phased_ret]. unfold_calls.
    apply (phased_bind 1 1 1); [lia | | intros _; phased_silent].
    apply (phased_bind 1 1 1); [lia | | intros _; phased_silent].
    apply phased_log. intros r [= <-]. lia. }
  apply phased_when. unfold notification. apply phased_log.
  intros r. simpl. intros [= <-]. lia.
Qed.

Lemma phased_countdown_loop lo (fuel : nat) (remaining : Z) :
  phased lo lo (countdown_loop fuel remaining).
Proof.
  revert remaining. induction fuel as [|fuel IH]; intros remaining; simpl.
  - destruct (0 <? remaining); apply phased_ret.
  - destruct (0 <? remaining); [|apply phased_ret].
    apply (phased_bind lo lo lo); [lia | | intros _].
    { unfold countdown_echo. apply phased_when.
      destruct (0 <? remaining / 60); unfold_calls; phased_silent. }
    apply (phased_bind lo lo lo); [lia | unfold_calls; phased_silent | intros _].
    apply IH.
Qed.

Lemma phased_finish p entry : phased 3 5 (finish host p entry).
Proof.
  unfold finish.
  apply (phased_bind 3 3 5); [lia | | intros _].
  { apply phased_when. unfold notification. apply phased_log.
    intros r [= <-]. lia. }
  apply (phased_bind 3 4 5); [lia | | intros _].
  { apply phased_when. unfold_calls.
    apply (phased_bind 3 4 4); [lia | | intros _; phased_silent].
    apply (phased_bind 3 4 4); [lia | | intros _; phased_silent].
    apply phased_log. intros r [= <-]. lia. }
  apply (phased_bind 4 4 5); [lia | unfold_calls; phased_silent | intros t].
  apply (phased_bind 4 5 5); [lia | | intros _; unfold_calls; phased_silent].
  apply phased_when. apply phased_save_session_entry. lia.
Qed.

Lemma phased_detach_session lo p (start_ts : Z) entry :
  dict_has entry "end_ts" = false ->
  phased lo lo (detach_session host p start_ts entry).
Proof.
  intros Hd. unfold detach_session.
  apply (phased_try_except lo lo lo); [lia | | intros e; unfold_calls; phased_silent].
  apply (phased_bind lo lo lo); [lia | unfold_calls; phased_silent | intros _].
  destruct (windows host); [apply phased_ret|].
  apply (phased_bind lo lo lo); [lia | unfold_calls; phased_silent | intros pid].
  apply (phased_bind lo lo lo); [lia | unfold_calls; phased_silent | intros _].
  apply (phased_bind lo lo lo); [lia | unfold_calls; phased_silent | intros _].
  destruct (p_log p); [|apply phased_ret].
  apply (phased_try_except lo lo lo); [lia | | intros e; unfold_calls; phased_silent].
  apply (phased_bind lo lo lo); [lia | | intros _; apply phased_ret].
  apply phased_save_unstamped. rewrite dict_has_set_other; [exact Hd | reflexivity].
Qed.

(** The countdown and what follows it: either the interrupt handler
    runs, or the finishing steps do, never both. *)
Lemma phased_interruptible lo hi (body : M unit) (handler : M unit) (rest : M unit) :
  (lo <= hi)%nat ->
  phased lo lo body -> phased lo hi handler -> phased lo hi rest ->
  phased lo hi
    (interrupted ← try_except_interrupt (body ;; mret false) (handler ;; mret true);
     if interrupted : bool then mret tt else rest).
Proof.
  intros Hle Hb Hh Hr w. rewrite run_bind. unfold try_except_interrupt.
  rewrite run_bind.
  destruct (Hb w) as [evs1 [Ht1 Hp1]].
  assert (Hp1' : phase lo hi evs1) by (apply (phase_weaken lo lo); [lia | lia | exact Hp1]).
  destruct (body w) as [[[]|e] w1]; simpl in *.
  - destruct (Hr w1) as [evs2 [Ht2 Hp2]].
    exists (evs1 ++ evs2). rewrite Ht2, Ht1, app_assoc.
    split; [reflexivity | exact (phase_app lo lo hi _ _ ltac:(lia) Hp1 Hp2)].
  - assert (Hdone : exists evs, trace w1 = trace w ++ evs /\ phase lo hi evs)
      by (exists evs1; split; assumption).
    destruct e; try exact Hdone.
    rewrite run_bind.
    destruct (Hh w1) as [evs2 [Ht2 Hp2]].
    exists (evs1 ++ evs2).
    split; [|exact (phase_app lo lo hi _ _ ltac:(lia) Hp1 Hp2)].
    destruct (handler w1) as [[[]|e] w2]; simpl in *; rewrite Ht2, Ht1, app_assoc; reflexivity.
Qed.

Lemma phased_run_session p : phased 2 5 (run_session host p).
Proof.
  unfold run_session.
  apply (phased_bind 2 2 5); [lia | unfold_calls; phased_silent | intros start_ts].
  apply (phased_bind 2 2 5); [lia | | intros [returned entry]].
  - destruct (p_detach p); [|apply phased_ret].
    apply phased_detach_session. reflexivity.
  - destruct returned; [apply phased_ret|].
    apply (phased_interruptible 2 5 (countdown (dur_seconds p))
             (echo "Session interrupted by user." ;;
              when (dnd_mode p) (set_dnd host false ;; mret tt))
             (finish host p entry)); [lia | apply phased_countdown_loop | |].
    + apply (phased_bind 2 2 5); [lia | unfold_calls; phased_silent | intros _].
      apply phased_when. unfold_calls.
      apply (phased_bind 2 5 5); [lia | | intros _; phased_silent].
      apply (phased_bind 2 5 5); [lia | | intros _; phased_silent].
      apply phased_log. intros r [= <-]. lia.
    + apply (phased_weaken 3 5); [lia | lia | apply phased_finish].
Qed.

Lemma phased_start (cfg : config) (o : start_opts) : phased 0 5 (start host cfg o).
Proof.
  unfold start.
  destruct (template_not_found cfg o); [unfold_calls; phased_silent|].
  destruct (parse_duration _) as [dur|e].
  - apply (phased_bind 0 0 5); [lia | unfold_calls; phased_silent | intros t].
    apply (phased_bind 0 2 5); [lia | apply phased_begin | intros _].
    apply phased_run_session.
  - destruct (is_Exception e); unfold_calls; phased_silent.
Qed.

Lemma phased_finishing (seconds : Z) (entry : json) :
  phased 3 5 (finishing host seconds entry).
Proof.
  unfold finishing.
  apply (phased_bind 3 3 5); [lia | unfold_calls; phased_silent | intros _].
  apply (phased_bind 3 3 5); [lia | | intros _].
  { unfold notification. apply phased_log. intros r [= <-]. lia. }
  apply (phased_bind 3 3 5); [lia | unfold_calls; phased_silent | intros d].
  apply (phased_bind 3 4 5); [lia | | intros _].
  { apply phased_when. unfold_calls.
    apply (phased_bind 3 4 4); [lia | | intros _; phased_silent].
    apply (phased_bind 3 4 4); [lia | | intros _; phased_silent].
    apply phased_log. intros r [= <-]. lia. }
  apply (phased_bind 4 4 5); [lia | unfold_calls; phased_silent | intros t].
  apply (phased_bind 4 4 5); [lia | unfold_calls; phased_silent | intros entry'].
  apply phased_save_session_entry. lia.
Qed.

Lemma phased_monitor (self seconds : Z) (entry_file : string) :
  phased 3 5 (monitor host self seconds entry_file).
Proof.
  unfold monitor, load_entry.
  apply (phased_bind 3 3 5); [lia | unfold_calls; phased_silent | intros entry].
  apply (phased_bind 3 3 5); [lia | unfold_calls; phased_silent | intros _].
  apply (phased_try_finally 3 5 5); [lia | apply phased_finishing |].
  unfold cleanup. unfold_calls. phased_silent.
Qed.

Lemma phased_ordered {A} lo hi (m : M A) (w : world) :
  phased lo hi m -> ordered (new_events w (snd (m w))).
Proof.
  intros H. destruct (H w) as [evs [Ht [Ho _]]].
  rewrite (new_events_app _ _ _ Ht). exact Ho.
Qed.

End SessionFacts.

(** ** Runs of the commands, step by step *)

Section Runs.

Variable host : env.

Implicit Types (p : plan) (entry : list (string * json)) (w : world).

Ltac unfold_calls :=
  unfold echo, now, notification, set_dnd, open_app_or_url, create_tmux_session,
    run_subprocess_background, popen_monitor, write_pid, clear_pid, read_pid,
    load_sessions, read_entry, unlink_entry, write_entry, entry_get, entry_set,
    kill, sleep, run_commands.

(** Stepping through a command in a world given by its fields. *)
Ltac world_step :=
  unfold mbind, M_bind, mret, M_ret, log, modify, gets, raise, when,
    try_except, try_except_interrupt, try_finally;
  cbn [sessions_file pid_file files clock procs sigint trace
       set_sessions_file set_pid_file set_files set_clock set_sigint set_trace
       fst snd is_Exception history].

Ltac world_eq w :=
  destruct w; unfold set_sessions_file, set_pid_file, set_files, set_clock,
    set_sigint, set_trace; cbn [sessions_file pid_file files clock procs sigint trace];
  f_equal;
  try lia; try (rewrite <- ?app_assoc, ?app_nil_r; simpl; reflexivity).

Lemma logger_ret {A} (a : A) : logger (mret a : M A).
Proof. intros w. exists a, []. rewrite set_trace_nil. reflexivity. Qed.

Lemma logger_gets {A} (f : world -> A) : logger (gets f).
Proof. intros w. exists (f w), []. rewrite set_trace_nil. reflexivity. Qed.

Lemma logger_log (e : event) : logger (log e).
Proof. intros w. exists tt, [e]. reflexivity. Qed.

Lemma logger_bind {A B} (m : M A) (k : A -> M B) :
  logger m -> (forall a, logger (k a)) -> logger (m ≫= k).
Proof.
  intros Hm Hk w. rewrite run_bind.
  destruct (Hm w) as [a [evs1 ->]].
  destruct (Hk a (set_trace (trace w ++ evs1) w)) as [b [evs2 ->]].
  exists b, (evs1 ++ evs2). rewrite set_trace_set_trace. reflexivity.
Qed.

Lemma logger_when (b : bool) (m : M unit) : logger m -> logger (when b m).
Proof. intros H. destruct b; [exact H | apply logger_ret]. Qed.

Lemma logger_for_each {A} (l : list A) (f : A -> M unit) :
  (forall x, logger (f x)) -> logger (for_each l f).
Proof.
  intros Hf. induction l as [|x l IH]; simpl.
  - apply logger_ret.
  - apply logger_bind; [apply Hf | intros _; exact IH].
Qed.

Ltac logger_auto :=
  repeat first
    [ apply logger_ret | apply logger_gets | apply logger_log
    | apply logger_when
    | apply logger_for_each; intros ?
    | apply logger_bind; [|intros ?]
    | match goal with
      | |- logger (if ?b then _ else _) => destruct b
      | |- logger (match ?x with _ => _ end) => destruct x
      end ].

Lemma logger_begin p : logger (begin host p).
Proof. unfold begin. unfold_calls. logger_auto. Qed.

(** [begin] returns normally, touches nothing but the log, and logs
    events of the first three ranks only. *)
Lemma begin_runs p w :
  exists evs, begin host p w = (Ok tt, set_trace (trace w ++ evs) w) /\ phase 0 2 evs.
Proof.
  destruct (logger_begin p w) as [[] [evs Hrun]].
  destruct (phased_begin host p w) as [evs' [Ht Hp]].
  exists evs. split; [exact Hrun|].
  rewrite Hrun in Ht. simpl in Ht. destruct w; simpl in Ht.
  apply app_inv_head in Ht. subst evs'. exact Hp.
Qed.

(** *** The countdown *)

Lemma countdown_loop_eq (fuel : nat) (remaining : Z) :
  countdown_loop fuel remaining
  = if 0 <? remaining then
      match fuel with
      | O => mret tt
      | S fuel =>
          countdown_echo remaining (countdown_interval remaining) ;;
          sleep (countdown_interval remaining) ;;
          countdown_loop fuel (remaining - countdown_interval remaining)
      end
    else mret tt.
Proof. destruct fuel; reflexivity. Qed.

Lemma countdown_sleeps_eq (fuel : nat) (remaining : Z) :
  countdown_sleeps fuel remaining
  = if 0 <? remaining then
      match fuel with
      | O => O
      | S fuel => S (countdown_sleeps fuel (remaining - countdown_interval remaining))
      end
    else O.
Proof. destruct fuel; reflexivity. Qed.

Lemma countdown_interval_bounds (remaining : Z) :
  0 < remaining -> 0 < countdown_interval remaining <= remaining.
Proof.
  intros H. unfold countdown_interval.
  destruct (60 <? remaining) eqn:E; [apply Z.ltb_lt in E|]; lia.
Qed.

Lemma countdown_loop_fuel (fuel1 fuel2 : nat) (remaining : Z) :
  (Z.to_nat remaining <= fuel1)%nat -> (Z.to_nat remaining <= fuel2)%nat ->
  countdown_loop fuel1 remaining = countdown_loop fuel2 remaining.
Proof.
  revert fuel2 remaining. induction fuel1 as [|fuel1 IH]; intros fuel2 remaining H1 H2;
    rewrite (countdown_loop_eq _ remaining), (countdown_loop_eq fuel2 remaining);
    destruct (0 <? remaining) eqn:E; try reflexivity; apply Z.ltb_lt in E.
  - lia.
  - destruct fuel2 as [|fuel2]; [lia|].
    pose proof (countdown_interval_bounds remaining E).
    rewrite (IH fuel2 (remaining - countdown_interval remaining)); [reflexivity | lia | lia].
Qed.

(** One turn of the countdown when no interrupt is pending. *)
Lemma countdown_turn (remaining : Z) w :
  0 < remaining -> sigint w = None ->
  exists pre,
    (countdown_echo remaining (countdown_interval remaining) ;;
     sleep (countdown_interval remaining)) w
    = (Ok tt, set_clock (clock w + countdown_interval remaining)
                (set_trace (trace w ++ pre) w))
    /\ unranked pre.
Proof.
  intros Hr Hs. pose proof (countdown_interval_bounds remaining Hr) as Hi.
  assert (Hneg : (countdown_interval remaining <? 0) = false) by (apply Z.ltb_ge; lia).
  unfold countdown_echo. unfold_calls. run. rewrite Hneg.
  destruct (remaining mod countdown_interval remaining =? 0);
    [destruct (0 <? remaining / 60)|]; simpl; rewrite Hs.
  - exists [Echo ("Time left: " +:+ py_str (remaining / 60) +:+ "m "
                  +:+ py_str (remaining mod 60) +:+ "s");
            Sleep (countdown_interval remaining)].
    split; [f_equal; world_eq w | repeat constructor].
  - exists [Echo ("Time left: " +:+ py_str (remaining mod 60) +:+ "s");
            Sleep (countdown_interval remaining)].
    split; [f_equal; world_eq w | repeat constructor].
  - exists [Sleep (countdown_interval remaining)].
    split; [f_equal; world_eq w | repeat constructor].
Qed.

(** Without an interrupt the countdown returns after sleeping for
    exactly the duration. *)
Lemma countdown_loop_completes (fuel : nat) (remaining : Z) w :
  (Z.to_nat remaining <= fuel)%nat -> sigint w = None ->
  exists evs,
    countdown_loop fuel remaining w
    = (Ok tt, set_clock (clock w + Z.max 0 remaining) (set_trace (trace w ++ evs) w))
    /\ unranked evs.
Proof.
  revert remaining w. induction fuel as [|fuel IH]; intros remaining w Hf Hs;
    rewrite countdown_loop_eq; destruct (0 <? remaining) eqn:E;
    try (apply Z.ltb_ge in E; exists []; split; [|constructor];
         replace (Z.max 0 remaining) with 0 by lia; cbv [mret M_ret]; f_equal; world_eq w).
  - apply Z.ltb_lt in E. lia.
  - apply Z.ltb_lt in E.
    pose proof (countdown_interval_bounds remaining E) as Hi.
    destruct (countdown_turn remaining w E Hs) as [pre [Hturn Hpre]].
    set (w1 := set_clock (clock w + countdown_interval remaining)
                 (set_trace (trace w ++ pre) w)) in *.
    destruct (IH (remaining - countdown_interval remaining) w1) as [evs [Hrun Hu]];
      [lia | destruct w; exact Hs |].
    exists (pre ++ evs). split; [|apply Forall_app; split; assumption].
    change ((countdown_echo remaining (countdown_interval remaining) ;;
             sleep (countdown_interval remaining) ;;
             countdown_loop fuel (remaining - countdown_interval remaining)) w)
      with (match countdown_echo remaining (countdown_interval remaining) w with
            | (Ok a, w') =>
                (sleep (countdown_interval remaining) ;;
                 countdown_loop fuel (remaining - countdown_interval remaining)) w'
            | (Raise e, w') => (Raise e, w')
            end).
    rewrite run_bind in Hturn.
    destruct (countdown_echo remaining (countdown_interval remaining) w) as [[[]|e] w0];
      [|discriminate Hturn].
    rewrite run_bind, Hturn, Hrun. unfold w1. f_equal. world_eq w.
Qed.

Lemma countdown_echo_runs (remaining interval : Z) w :
  exists pre,
    countdown_echo remaining interval w = (Ok tt, set_trace (trace w ++ pre) w)
    /\ unranked pre.
Proof.
  unfold countdown_echo, echo. run.
  destruct (remaining mod interval =? 0); [destruct (0 <? remaining / 60)|].
  - eexists [_]. split; [reflexivity | repeat constructor].
  - eexists [_]. split; [reflexivity | repeat constructor].
  - exists []. split; [rewrite set_trace_nil; reflexivity | constructor].
Qed.

Lemma sleep_interrupt (secs : Z) w :
  0 <= secs -> sigint w = Some O ->
  sleep secs w
  = (Raise KeyboardInterrupt, set_sigint None (set_trace (trace w ++ [Sleep secs]) w)).
Proof.
  intros Hs Hk. apply Z.ltb_ge in Hs. unfold sleep. run. rewrite Hs. simpl. rewrite Hk.
  reflexivity.
Qed.

Lemma sleep_pending (secs : Z) (k : nat) w :
  0 <= secs -> sigint w = Some (S k) ->
  sleep secs w
  = (Ok tt, set_clock (clock w + secs)
              (set_sigint (Some k) (set_trace (trace w ++ [Sleep secs]) w))).
Proof.
  intros Hs Hk. apply Z.ltb_ge in Hs. unfold sleep. run. rewrite Hs. simpl. rewrite Hk.
  reflexivity.
Qed.

Lemma sleep_runs (secs : Z) w :
  0 <= secs -> sigint w = None ->
  sleep secs w = (Ok tt, set_clock (clock w + secs) (set_trace (trace w ++ [Sleep secs]) w)).
Proof.
  intros Hs Hk. apply Z.ltb_ge in Hs. unfold sleep. run. rewrite Hs. simpl. rewrite Hk.
  reflexivity.
Qed.

(** A Ctrl-C that arrives before the countdown has made all its sleeps
    ends it with [KeyboardInterrupt]; nothing but the log, the clock and
    the pending interrupt has changed by then. *)
Lemma countdown_loop_interrupted (fuel : nat) (remaining : Z) (k : nat) w :
  sigint w = Some k -> (k < countdown_sleeps fuel remaining)%nat ->
  exists evs dt,
    countdown_loop fuel remaining w
    = (Raise KeyboardInterrupt,
       set_sigint None (set_clock (clock w + dt) (set_trace (trace w ++ evs) w)))
    /\ unranked evs.
Proof.
  revert remaining k w. induction fuel as [|fuel IH]; intros remaining k w Hs Hk;
    rewrite countdown_sleeps_eq in Hk; rewrite countdown_loop_eq;
    destruct (0 <? remaining) eqn:E; try lia.
  apply Z.ltb_lt in E. pose proof (countdown_interval_bounds remaining E) as Hi.
  destruct (countdown_echo_runs remaining (countdown_interval remaining) w)
    as [pre [Hecho Hpre]].
  rewrite run_bind, Hecho, run_bind.
  set (w0 := set_trace (trace w ++ pre) w).
  assert (Hs0 : sigint w0 = Some k) by (destruct w; exact Hs).
  destruct k as [|k].
  - rewrite (sleep_interrupt (countdown_interval remaining) w0 ltac:(lia) Hs0).
    exists (pre ++ [Sleep (countdown_interval remaining)]), 0. split.
    + unfold w0. f_equal. world_eq w.
    + apply Forall_app. split; [exact Hpre | repeat constructor].
  - rewrite (sleep_pending (countdown_interval remaining) k w0 ltac:(lia) Hs0).
    set (w1 := set_clock _ _).
    destruct (IH (remaining - countdown_interval remaining) k w1) as [evs [dt [Hrun Hu]]];
      [destruct w; reflexivity | lia |].
    exists (pre ++ [Sleep (countdown_interval remaining)] ++ evs),
           (countdown_interval remaining + dt).
    split.
    + rewrite Hrun. unfold w1, w0. f_equal. world_eq w.
    + apply Forall_app. split; [exact Hpre|]. constructor; [reflexivity | exact Hu].
Qed.

(** *** The history store *)

Lemma save_session_entry_runs (e : json) w :
  history_ok w ->
  save_session_entry e w
  = (Ok tt, set_sessions_file (Some (Parsed (JList (e :: history w))))
              (set_trace (trace w ++ [SaveSession e]) w)).
Proof.
  unfold history_ok, history, save_session_entry, load_sessions. run.
  destruct (sessions_file w) as [[|[]]|]; simpl; intros H; try contradiction; reflexivity.
Qed.

(** A history file that holds something else than a list makes
    [save_session_entry] raise, and stays as it is. *)
Lemma save_session_entry_raises (e : json) w :
  ~ history_ok w ->
  save_session_entry e w = (Raise AttributeError, set_trace (trace w ++ [SaveSession e]) w).
Proof.
  unfold history_ok, history, save_session_entry, load_sessions. run.
  destruct (sessions_file w) as [[|[]]|]; simpl; intros H;
    try (exfalso; apply H; exact I); reflexivity.
Qed.

(** *** The end of a foreground session *)

Lemma finish_runs p entry w :
  history_ok w ->
  let e := JDict (dict_set entry "end_ts" (JInt (clock w))) in
  finish host p entry w
  = (Ok tt,
     (if p_log p
      then set_sessions_file (Some (Parsed (JList (e :: history w))))
      else fun w => w)
       (set_trace (trace w ++ finish_events p e) w)).
Proof.
  intros Hok e. unfold finish, finish_events. unfold_calls. run.
  destruct (p_notify p), (dnd_mode p), (p_log p); simpl;
    rewrite ?save_session_entry_runs by (destruct w; exact Hok); simpl;
    f_equal; world_eq w.
Qed.

(** *** A whole run of [start] *)

Lemma start_runs_plan (cfg : config) (o : start_opts) p w :
  plan_of cfg o (clock w) = Some p ->
  start host cfg o w = (begin host p ;; run_session host p) w.
Proof.
  unfold plan_of, start. destruct (template_not_found cfg o); [discriminate|].
  destruct (parse_duration (dur_str_of cfg o)); [|discriminate].
  intros [= <-]. reflexivity.
Qed.

Lemma run_session_foreground p w :
  p_detach p = false ->
  run_session host p w
  = (interrupted ← try_except_interrupt
       (countdown (dur_seconds p) ;; mret false)
       ((echo "Session interrupted by user." ;;
         when (dnd_mode p) (set_dnd host false ;; mret tt)) ;;
        mret true);
     if interrupted : bool then mret tt
     else finish host p (session_entry p (clock w))) w.
Proof. intros Hd. unfold run_session. unfold_calls. run. rewrite Hd. reflexivity. Qed.

(** A foreground session that is not interrupted. *)
Lemma foreground_completes p w :
  p_detach p = false -> sigint w = None -> history_ok w ->
  let e := JDict (dict_set (session_entry p (clock w)) "end_ts"
                   (JInt (clock w + Z.max 0 (dur_seconds p)))) in
  exists pre mid,
    (begin host p ;; run_session host p) w
    = (Ok tt,
       (if p_log p
        then set_sessions_file (Some (Parsed (JList (e :: history w))))
        else fun w => w)
         (set_clock (clock w + Z.max 0 (dur_seconds p))
            (set_trace (trace w ++ pre ++ mid ++ finish_events p e) w)))
    /\ phase 0 2 pre /\ unranked mid.
Proof.
  intros Hd Hs Hok e.
  destruct (begin_runs p w) as [pre [Hbegin Hpre]].
  set (w0 := set_trace (trace w ++ pre) w) in *.
  destruct (countdown_loop_completes (Z.to_nat (dur_seconds p)) (dur_seconds p) w0)
    as [mid [Hcount Hmid]]; [lia | destruct w; exact Hs |].
  set (w1 := set_clock _ _) in Hcount.
  exists pre, mid. split; [|split; assumption].
  rewrite run_bind, Hbegin, (run_session_foreground p w0 Hd).
  rewrite run_bind. unfold try_except_interrupt. rewrite run_bind.
  unfold countdown. rewrite Hcount. cbv [mret M_ret].
  assert (Hok1 : history_ok w1) by (destruct w; exact Hok).
  rewrite (finish_runs p _ w1 Hok1).
  assert (Hc : clock w1 = clock w + Z.max 0 (dur_seconds p)) by (destruct w; reflexivity).
  assert (Hc0 : clock w0 = clock w) by (destruct w; reflexivity).
  assert (Hh : history w1 = history w) by (destruct w; reflexivity).
  rewrite Hc, Hc0, Hh. fold e. f_equal.
  unfold w1, w0. destruct (p_log p); world_eq w.
Qed.

(** A foreground session interrupted during its countdown. *)
Lemma foreground_interrupted p (k : nat) w :
  p_detach p = false -> sigint w = Some k -> (k < sleeps_of (dur_seconds p))%nat ->
  exists pre mid dt,
    (begin host p ;; run_session host p) w
    = (Ok tt,
       set_sigint None
         (set_clock (clock w + dt)
            (set_trace (trace w ++ pre ++ mid
                        ++ [Echo "Session interrupted by user."]
                        ++ (if dnd_mode p then [SetDnd false] else [])) w)))
    /\ phase 0 2 pre /\ unranked mid.
Proof.
  intros Hd Hs Hk.
  destruct (begin_runs p w) as [pre [Hbegin Hpre]].
  set (w0 := set_trace (trace w ++ pre) w) in *.
  destruct (countdown_loop_interrupted (Z.to_nat (dur_seconds p)) (dur_seconds p) k w0)
    as [mid [dt [Hcount Hmid]]]; [destruct w; exact Hs | exact Hk |].
  exists pre, mid, dt. split; [|split; assumption].
  rewrite run_bind, Hbegin, (run_session_foreground p w0 Hd).
  rewrite run_bind. unfold try_except_interrupt. rewrite run_bind.
  unfold countdown. rewrite Hcount. unfold_calls. run.
  unfold w0. destruct (dnd_mode p); simpl; f_equal; world_eq w.
Qed.

(** *** A detached session *)

(** [start --detach] when the monitor could be spawned: the command
    writes the handoff file, the marker and, when logging, a first
    record without [end_ts], and returns. *)
Lemma detached_start_runs p (pid : Z) w :
  p_detach p = true -> windows host = false -> spawn_result host = Some pid ->
  history_ok w ->
  let entry := session_entry p (clock w) in
  exists pre,
    (begin host p ;; run_session host p) w
    = (Ok tt,
       (if p_log p
        then set_sessions_file
               (Some (Parsed (JList (JDict (dict_set entry "detached_pid" (JInt pid))
                                     :: history w))))
        else fun w => w)
         (set_pid_file (Some (py_str pid))
            (set_files (<[handoff_path host (clock w) := Parsed (JDict entry)]> (files w))
               (set_trace (trace w ++ pre ++ detach_events host p (clock w) pid) w))))
    /\ phase 0 2 pre.
Proof.
  intros Hd Hw Hsp Hok entry.
  destruct (begin_runs p w) as [pre [Hbegin Hpre]].
  exists pre. split; [|exact Hpre].
  rewrite run_bind, Hbegin. clear Hbegin.
  unfold run_session, detach_session, detach_events. unfold_calls.
  fold entry.
  set (path := handoff_path host (clock w)).
  set (spid := py_str pid). set (sdur := py_str (dur_seconds p)).
  set (e1 := dict_set entry "detached_pid" (JInt pid)).
  unfold entry in *. clear entry.
  destruct w as [sf pf fs ck ps si tr]. world_step. rewrite Hd. world_step.
  rewrite Hw. world_step. rewrite Hsp. world_step.
  destruct (p_log p); world_step; [|rewrite <- !app_assoc; reflexivity].
  rewrite save_session_entry_runs by exact Hok. world_step.
  rewrite <- !app_assoc. reflexivity.
Qed.

(** *** The monitor *)

Lemma load_entry_runs (entry_file : string) w :
  load_entry entry_file w
  = (Ok (monitor_entry w entry_file), set_trace (trace w ++ [ReadEntry entry_file]) w).
Proof.
  unfold load_entry, monitor_entry, read_entry. run.
  destruct (files w !! entry_file) as [[|j]|]; reflexivity.
Qed.

Lemma cleanup_runs (entry_file : string) w :
  cleanup entry_file w
  = (Ok tt,
     set_pid_file None
       (set_files (delete entry_file (files w))
          (set_trace (trace w ++ [UnlinkEntry entry_file; ClearPid]) w))).
Proof. unfold cleanup. unfold_calls. run. f_equal. world_eq w. Qed.

Lemma monitor_unfolds (self seconds : Z) (entry_file : string) w :
  monitor host self seconds entry_file w
  = try_finally (finishing host seconds (monitor_entry w entry_file))
      (cleanup entry_file) (monitor_marked self entry_file w).
Proof.
  unfold monitor. rewrite run_bind, load_entry_runs. unfold write_pid. run.
  f_equal. unfold monitor_marked. world_eq w.
Qed.

(** A monitor that is left to run to its end. *)
Lemma monitor_runs (self seconds : Z) (entry_file : string) (d : list (string * json)) w :
  monitor_entry w entry_file = JDict d ->
  0 <= seconds -> sigint w = None -> history_ok w ->
  let t := clock w + seconds in
  monitor host self seconds entry_file w
  = (Ok tt,
     set_pid_file None
       (set_files (delete entry_file (files w))
          (set_sessions_file
             (Some (Parsed (JList (JDict (dict_set d "end_ts" (JInt t)) :: history w))))
             (set_clock t
                (set_trace (trace w ++ monitor_events self seconds entry_file d t) w))))).
Proof.
  intros He Hs Hk Hok t. rewrite monitor_unfolds, He. unfold t. clear t He.
  apply Z.ltb_ge in Hs.
  unfold monitor_marked, monitor_events, finishing. unfold_calls.
  set (spid := py_str self). clearbody spid.
  destruct w as [sf pf fs ck ps si tr]. cbn [sigint] in Hk. subst si.
  world_step. rewrite Hs. world_step.
  destruct (truthy (dict_get d "dnd")); world_step;
    rewrite save_session_entry_runs by exact Hok; world_step;
    rewrite cleanup_runs; world_step; rewrite <- !app_assoc; reflexivity.
Qed.

(** The shape of every monitor run: the read of the handoff file, the
    write of the marker, the finishing steps, the unlink, the clearing
    of the marker. *)
Lemma monitor_trace (self seconds : Z) (entry_file : string) w :
  exists evs,
    trace (snd (monitor host self seconds entry_file w))
    = trace w ++ [ReadEntry entry_file; WritePid self] ++ evs
      ++ [UnlinkEntry entry_file; ClearPid]
    /\ phase 3 5 evs.
Proof.
  rewrite monitor_unfolds. unfold try_finally.
  destruct (phased_finishing host seconds (monitor_entry w entry_file)
              (monitor_marked self entry_file w)) as [evs [Ht Hp]].
  destruct (finishing host seconds (monitor_entry w entry_file)
              (monitor_marked self entry_file w)) as [r w2].
  rewrite cleanup_runs. cbn [fst snd] in *.
  exists evs. split; [|exact Hp].
  destruct w2 as [sf pf fs ck ps si tr]. cbn in *.
  rewrite Ht. destruct w. cbn. rewrite <- !app_assoc. reflexivity.
Qed.

End Runs.

(** ** The session life cycle *)

(** C3: when the monitor ends, it unlinks the handoff file (whether it
    was there or not) and then clears the marker, as its last two
    steps, whatever the finishing steps did: their result, an exception
    included, is the monitor's result once the cleanup has run. *)
Theorem monitor_cleans_up (host : env) (self seconds : Z) (entry_file : string)
    (w : world) :
  let w' := snd (monitor host self seconds entry_file w) in
  (exists evs, new_events w w' = evs ++ [UnlinkEntry entry_file; ClearPid])
  /\ files w' !! entry_file = None
  /\ pid_file w' = None
  /\ fst (monitor host self seconds entry_file w)
     = fst (finishing host seconds (monitor_entry w entry_file)
              (monitor_marked self entry_file w)).
Proof.
  cbv zeta. split; [|split; [|split]].
  - destruct (monitor_trace host self seconds entry_file w) as [evs [Ht _]].
    exists ([ReadEntry entry_file; WritePid self] ++ evs).
    apply new_events_app. rewrite Ht, <- !app_assoc. reflexivity.
  - rewrite monitor_unfolds. unfold try_finally.
    destruct (finishing host seconds _ _) as [r w2].
    rewrite cleanup_runs. destruct w2. cbn. apply lookup_delete_eq.
  - rewrite monitor_unfolds. unfold try_finally.
    destruct (finishing host seconds _ _) as [r w2].
    rewrite cleanup_runs. destruct w2. reflexivity.
  - rewrite monitor_unfolds. unfold try_finally.
    destruct (finishing host seconds _ _) as [r w2].
    rewrite cleanup_runs. reflexivity.
Qed.

(** The cleanup after finishing steps that raised: a negative sleep
    length is refused with [ValueError], the handoff file named does not
    exist, and the last two steps are still the unlink and the clearing
    of the marker. *)
Example monitor_cleans_up_after_error :
  monitor host0 4242 (-1) "pending.json" world0
  = (Raise ValueError,
     set_trace [ReadEntry "pending.json"; WritePid 4242; Sleep (-1);
                UnlinkEntry "pending.json"; ClearPid] world0).
Proof. vm_compute. reflexivity. Qed.

(** C2, as the spec states it, fails: the monitor reads the handoff
    file first and writes its pid to the marker afterwards. *)
Lemma monitor_marks_after_reading :
  ~ happens_before (WritePid 4242) (ReadEntry "pending.json")
      (new_events world0 (snd (monitor host0 4242 0 "pending.json" world0))).
Proof.
  intros (i & j & Hij & Hi & Hj).
  assert (Htr : new_events world0 (snd (monitor host0 4242 0 "pending.json" world0))
                = monitor_events 4242 0 "pending.json" [] 1000)
    by (vm_compute; reflexivity).
  rewrite Htr in Hi, Hj. unfold monitor_events in Hi, Hj. simpl in Hi, Hj.
  destruct j as [|j]; [lia|]. simpl in Hj.
  do 6 (destruct j as [|j]; simpl in Hj; [discriminate Hj|]).
  destruct j; discriminate Hj.
Qed.

(** C2 (amended): the monitor first reads and deserialises its handoff
    file and then writes its own pid to the marker; when the handoff
    file is missing or unparsable it goes on with the empty record:
    left to run, it sleeps, notifies, appends the record that holds
    [end_ts] only, cleans up and returns normally. *)
Theorem monitor_reads_then_marks (host : env) (self seconds : Z) (entry_file : string)
    (w : world) :
  let w' := snd (monitor host self seconds entry_file w) in
  (exists evs, new_events w w' = ReadEntry entry_file :: WritePid self :: evs)
  /\ happens_before (ReadEntry entry_file) (WritePid self) (new_events w w')
  /\ (files w !! entry_file = None \/ files w !! entry_file = Some Unparsable ->
      0 <= seconds -> sigint w = None -> history_ok w ->
      fst (monitor host self seconds entry_file w) = Ok tt
      /\ new_events w w' = monitor_events self seconds entry_file [] (clock w + seconds)
      /\ history w' = JDict [("end_ts", JInt (clock w + seconds))] :: history w).
Proof.
  cbv zeta.
  assert (Hpre : exists evs,
            new_events w (snd (monitor host self seconds entry_file w))
            = ReadEntry entry_file :: WritePid self :: evs).
  { destruct (monitor_trace host self seconds entry_file w) as [evs [Ht _]].
    exists (evs ++ [UnlinkEntry entry_file; ClearPid]).
    apply new_events_app. exact Ht. }
  split; [exact Hpre | split].
  - destruct Hpre as [evs ->]. exists 0%nat, 1%nat. repeat split. lia.
  - intros Hf Hs Hk Hok.
    assert (He : monitor_entry w entry_file = JDict []).
    { unfold monitor_entry. destruct Hf as [-> | ->]; reflexivity. }
    rewrite (monitor_runs host self seconds entry_file [] w He Hs Hk Hok).
    cbn [fst snd]. split; [reflexivity | split].
    + apply new_events_app. destruct w. reflexivity.
    + destruct w. reflexivity.
Qed.

Lemma monitor_reads_then_marks_witness :
  fst (monitor host0 4242 5 "pending.json" world0) = Ok tt
  /\ history (snd (monitor host0 4242 5 "pending.json" world0))
     = JDict [("end_ts", JInt (clock world0 + 5))] :: history world0.
Proof.
  assert (H5 : 0 <= 5) by lia.
  pose proof (proj2 (proj2 (monitor_reads_then_marks host0 4242 5 "pending.json" world0))
                (or_introl eq_refl) H5 eq_refl I) as (H1 & _ & H3).
  split; [exact H1 | exact H3].
Defined.

(** C1, as the spec states it, fails: with logging on, [start --detach]
    writes a record when it detaches, and the monitor, when it completes
    on the handoff file of that session, writes a second one in front of
    it; neither record is an update of the other. *)
Lemma monitor_adds_a_second_record :
  let o := opts0 "0" "" true in
  let w1 := snd (start host0 config0 o world0) in
  let w2 := snd (monitor host0 5000 0 (handoff_path host0 (clock world0)) w1) in
  exists p,
    plan_of config0 o (clock world0) = Some p
    /\ p_log p = true
    /\ history w1
       = [JDict (dict_set (session_entry p (clock world0)) "detached_pid" (JInt 4242))]
    /\ history w2
       = [JDict (dict_set (session_entry p (clock world0)) "end_ts" (JInt 1000));
          JDict (dict_set (session_entry p (clock world0)) "detached_pid" (JInt 4242))]
    /\ ~ (exists e, history w2 = e :: history world0).
Proof.
  eexists. split; [vm_compute; reflexivity | split; [reflexivity|]].
  split; [vm_compute; reflexivity | split; [vm_compute; reflexivity|]].
  intros [e He]. vm_compute in He. discriminate He.
Qed.

(** C1 (amended): with logging on and a usable history file, a
    foreground session that runs to its end adds exactly one record,
    stamped with [end_ts], in front of the history.  [start --detach]
    adds one record when it detaches (with [detached_pid], without
    [end_ts]) and leaves the session record in the handoff file; the
    monitor, when it completes on that handoff file, adds one more record
    in front (with [end_ts], without [detached_pid]).  The records that
    were in the history stay as they were: every write puts a new record
    in front. *)
Theorem history_records_of_a_session (host : env) (cfg : config) (o : start_opts)
    (p : plan) (w : world) :
  plan_of cfg o (clock w) = Some p -> p_log p = true ->
  history_ok w -> sigint w = None ->
  let entry := session_entry p (clock w) in
  let path := handoff_path host (clock w) in
  (p_detach p = false ->
   fst (start host cfg o w) = Ok tt
   /\ history (snd (start host cfg o w))
      = JDict (dict_set entry "end_ts" (JInt (clock w + Z.max 0 (dur_seconds p))))
        :: history w)
  /\ (forall pid,
      p_detach p = true -> windows host = false -> spawn_result host = Some pid ->
      history (snd (start host cfg o w))
      = JDict (dict_set entry "detached_pid" (JInt pid)) :: history w
      /\ files (snd (start host cfg o w)) !! path = Some (Parsed (JDict entry)))
  /\ (forall (self : Z) (w1 : world),
      files w1 !! path = Some (Parsed (JDict entry)) ->
      0 <= dur_seconds p -> history_ok w1 -> sigint w1 = None ->
      fst (monitor host self (dur_seconds p) path w1) = Ok tt
      /\ history (snd (monitor host self (dur_seconds p) path w1))
         = JDict (dict_set entry "end_ts" (JInt (clock w1 + dur_seconds p)))
           :: history w1).
Proof.
  intros Hplan Hlog Hok Hk entry path. split; [|split].
  - intros Hd. rewrite (start_runs_plan host cfg o p w Hplan).
    destruct (foreground_completes host p w Hd Hk Hok) as (pre & mid & Hrun & _).
    rewrite Hrun, Hlog. cbn [fst snd]. split; [reflexivity|].
    destruct w; reflexivity.
  - intros pid Hd Hw Hsp.
    rewrite (start_runs_plan host cfg o p w Hplan).
    destruct (detached_start_runs host p pid w Hd Hw Hsp Hok) as (pre & Hrun & _).
    rewrite Hrun, Hlog. cbn [snd]. split; [destruct w; reflexivity|].
    replace (files _) with (<[path := Parsed (JDict entry)]> (files w))
      by (destruct w; reflexivity).
    apply lookup_insert_eq.
  - intros self w1 Hf Hdur Hok1 Hk1.
    assert (He : monitor_entry w1 path = JDict entry)
      by (unfold monitor_entry; rewrite Hf; reflexivity).
    rewrite (monitor_runs host self (dur_seconds p) path entry w1 He Hdur Hk1 Hok1).
    cbn [fst snd]. split; [reflexivity|]. destruct w1; reflexivity.
Qed.

Lemma history_records_of_a_session_witness :
  let fg := opts0 "1" "" false in
  let bg := opts0 "1" "" true in
  let p := resolve config0 fg empty_template 60 1000 in
  let q := resolve config0 bg empty_template 60 1000 in
  history (snd (start host0 config0 fg world0))
  = JDict (dict_set (session_entry p (clock world0)) "end_ts"
             (JInt (clock world0 + Z.max 0 (dur_seconds p))))
    :: history world0
  /\ history (snd (start host0 config0 bg world0))
     = JDict (dict_set (session_entry q (clock world0)) "detached_pid" (JInt 4242))
       :: history world0.
Proof.
  intros fg bg p q.
  assert (Hp : plan_of config0 fg (clock world0) = Some p) by (vm_compute; reflexivity).
  assert (Hq : plan_of config0 bg (clock world0) = Some q) by (vm_compute; reflexivity).
  split.
  - exact (proj2 (proj1 (history_records_of_a_session host0 config0 fg p world0
                           Hp eq_refl I eq_refl) eq_refl)).
  - exact (proj1 (proj1 (proj2 (history_records_of_a_session host0 config0 bg q world0
                                  Hq eq_refl I eq_refl))
                    4242 eq_refl eq_refl eq_refl)).
Defined.

(** C7: when Ctrl-C interrupts the countdown of a foreground session,
    [start] reports it and returns normally; nothing is appended to the
    history, no end notification is sent and no finished record is
    logged, and when DND was on for the session the last thing [start]
    does is to switch it off. *)
Theorem interrupted_session (host : env) (cfg : config) (o : start_opts)
    (p : plan) (k : nat) (w : world) :
  plan_of cfg o (clock w) = Some p -> p_detach p = false ->
  sigint w = Some k -> (k < sleeps_of (dur_seconds p))%nat ->
  let w' := snd (start host cfg o w) in
  fst (start host cfg o w) = Ok tt
  /\ sessions_file w' = sessions_file w
  /\ (forall e, e ∈ new_events w w' -> rank e <> Some 3%nat /\ rank e <> Some 5%nat)
  /\ (exists evs,
        new_events w w'
        = evs ++ [Echo "Session interrupted by user."]
          ++ (if dnd_mode p then [SetDnd false] else [])).
Proof.
  intros Hplan Hd Hs Hk. cbv zeta. rewrite (start_runs_plan host cfg o p w Hplan).
  destruct (foreground_interrupted host p k w Hd Hs Hk)
    as (pre & mid & dt & Hrun & [_ Hpre] & Hmid).
  rewrite Hrun. cbn [fst snd].
  set (tail := [Echo "Session interrupted by user."]
               ++ (if dnd_mode p then [SetDnd false] else [])).
  assert (Hnew : new_events w
            (set_sigint None (set_clock (clock w + dt)
               (set_trace (trace w ++ pre ++ mid ++ tail) w)))
          = pre ++ mid ++ tail) by (apply new_events_app; destruct w; reflexivity).
  rewrite Hnew. split; [reflexivity | split; [destruct w; reflexivity | split]].
  - intros e He. rewrite !elem_of_app in He. destruct He as [He | [He | He]].
    + unfold within in Hpre. rewrite Forall_forall in Hpre.
      split; intros Hr; specialize (Hpre e He _ Hr); lia.
    + unfold unranked in Hmid. rewrite Forall_forall in Hmid.
      rewrite (Hmid e He). split; discriminate.
    + unfold tail in He. destruct (dnd_mode p); simpl in He;
        repeat (apply elem_of_cons in He as [-> | He]); try (split; discriminate);
        apply elem_of_nil in He; contradiction.
  - exists (pre ++ mid). rewrite <- app_assoc. reflexivity.
Qed.

Lemma interrupted_session_witness :
  let o := opts0 "1" "" false in
  fst (start host0 config0 o interrupted_world) = Ok tt
  /\ sessions_file (snd (start host0 config0 o interrupted_world))
     = sessions_file interrupted_world.
Proof.
  intros o.
  assert (Hp : plan_of config0 o (clock interrupted_world)
               = Some (resolve config0 o empty_template 60 1000))
    by (vm_compute; reflexivity).
  assert (Hk : (2 < sleeps_of (dur_seconds (resolve config0 o empty_template 60 1000)))%nat)
    by (vm_compute; lia).
  pose proof (interrupted_session host0 config0 o _ 2 interrupted_world
                Hp eq_refl eq_refl Hk) as (H1 & H2 & _).
  split; [exact H1 | exact H2].
Defined.

(** The two kinds of run side by side, with every effect on: a
    foreground session of length zero, and [start --detach] followed by
    the monitor run on the handoff file that [start] wrote. *)
Example foreground_session_trace :
  new_events world0 (snd (start host0 config0 (opts0 "0" "firefox" false) world0))
  = [Echo "Starting DayRun session: duration=0s, dnd=True, detach=False";
     SetDnd true; OpenItem "firefox"; Notify "DayRun" "Session started: 0s";
     Notify "DayRun" "Session finished"; SetDnd false;
     SaveSession (JDict [("template", JNull); ("duration_seconds", JInt 0);
                         ("start_ts", JInt 1000); ("dnd", JBool true);
                         ("apps", JList [JStr "firefox"]); ("cmds", JList []);
                         ("tmux_session", JNull); ("end_ts", JInt 1000)]);
     Echo "Session completed."].
Proof. vm_compute. reflexivity. Qed.

Example detach_then_monitor_trace :
  let o := opts0 "0" "" true in
  let p := resolve config0 o empty_template 0 1000 in
  let w1 := snd (start host0 config0 o world0) in
  new_events world0
    (snd (monitor host0 5000 0 "/home/u/.dayrun/pending_session_1000.json" w1))
  = [Echo "Starting DayRun session: duration=0s, dnd=True, detach=True";
     SetDnd true; Notify "DayRun" "Session started: 0s";
     WriteEntry "/home/u/.dayrun/pending_session_1000.json"
       (JDict (session_entry p 1000));
     Spawn ["/usr/bin/python3"; "/opt/dayrun.py"; "_monitor"; "0";
            "/home/u/.dayrun/pending_session_1000.json"];
     WritePid 4242; Echo "Detached monitor started (pid 4242).";
     SaveSession (JDict (dict_set (session_entry p 1000) "detached_pid" (JInt 4242)));
     ReadEntry "/home/u/.dayrun/pending_session_1000.json"; WritePid 5000;
     Sleep 0; Notify "DayRun" "Detached session finished"; SetDnd false;
     SaveSession (JDict (dict_set (session_entry p 1000) "end_ts" (JInt 1000)));
     UnlinkEntry "/home/u/.dayrun/pending_session_1000.json"; ClearPid].
Proof. vm_compute. reflexivity. Qed.

(** The process that [start --detach] spawns is given a word that is
    no command of the program, so the session ends where [start] left
    it. *)
Example detached_session_trace :
  let o := opts0 "0" "" true in
  let p := resolve config0 o empty_template 0 1000 in
  get_command "_monitor" = None
  /\ get_command "-monitor" = Some CmdMonitor
  /\ detached_session host0 config0 o p 4242 world0 = snd (start host0 config0 o world0).
Proof. vm_compute. repeat split; reflexivity. Qed.

(** * Further properties *)

(** Stepping through a command in a world given by its fields. *)
Ltac world_run :=
  repeat (progress
    (unfold mbind, M_bind, mret, M_ret, log, modify, gets, raise, when,
       try_except, try_except_interrupt, try_finally;
     cbn [sessions_file pid_file files clock procs sigint trace
          set_sessions_file set_pid_file set_files set_clock set_sigint set_trace
          fst snd is_Exception history])).

(** ** Decimal text: [str] of an integer, read back by [int] *)

Module DecimalFacts.

Lemma digits_value_from (l : list ascii) (acc : Z) :
  fold_left (fun a c => a * 10 + digit_value c) l acc
  = acc * 10 ^ Z.of_nat (length l) + digits_value l.
Proof.
  unfold digits_value. revert acc. induction l as [|c l IH]; intros acc.
  - simpl. lia.
  - cbn [fold_left length]. rewrite IH, (IH (0 * 10 + digit_value c)).
    rewrite Nat2Z.inj_succ, Z.pow_succ_r by lia. lia.
Qed.

Lemma digits_value_cons (c : ascii) (l : list ascii) :
  digits_value (c :: l) = digit_value c * 10 ^ Z.of_nat (length l) + digits_value l.
Proof.
  unfold digits_value at 1. cbn [fold_left]. rewrite digits_value_from. lia.
Qed.

Lemma pretty_N_char_decimal (x : N) :
  (x < 10)%N ->
  is_decimal (pretty_N_char x) = true /\ digit_value (pretty_N_char x) = Z.of_N x.
Proof.
  intros Hx.
  assert (Hc : (x = 0 \/ x = 1 \/ x = 2 \/ x = 3 \/ x = 4 \/ x = 5 \/ x = 6
                \/ x = 7 \/ x = 8 \/ x = 9)%N) by lia.
  repeat (destruct Hc as [-> | Hc]; [split; reflexivity|]). subst x. split; reflexivity.
Qed.

(** The digits that [pretty] puts in front of [s] are decimal digits
    and denote [x]. *)
Lemma pretty_N_go_digits (x : N) (s : string) :
  forallb is_decimal (chars s) = true ->
  forallb is_decimal (chars (pretty_N_go x s)) = true
  /\ digits_value (chars (pretty_N_go x s))
     = Z.of_N x * 10 ^ Z.of_nat (length (chars s)) + digits_value (chars s).
Proof.
  revert s. induction (N.lt_wf_0 x) as [x _ IH]. intros s Hs.
  destruct (decide (x = 0%N)) as [-> | Hx].
  - rewrite pretty_N_go_0. split; [exact Hs | lia].
  - rewrite pretty_N_go_step by lia.
    destruct (pretty_N_char_decimal (x mod 10)%N) as [Hd Hv];
      [apply N.mod_lt; discriminate|].
    destruct (IH (x / 10)%N ltac:(apply N.div_lt; lia)
                (String (pretty_N_char (x mod 10)%N) s)) as [IH1 IH2].
    { change (chars (String ?c ?t)) with (c :: chars t). cbn [forallb].
      rewrite Hd, Hs. reflexivity. }
    split; [exact IH1|]. rewrite IH2.
    change (chars (String ?c ?t)) with (c :: chars t).
    rewrite digits_value_cons, Hv. cbn [length].
    rewrite Nat2Z.inj_succ, Z.pow_succ_r by lia.
    rewrite (N.div_mod x 10) at 3 by discriminate.
    rewrite N2Z.inj_add, N2Z.inj_mul. change (Z.of_N 10) with 10. lia.
Qed.

Lemma pretty_positive_digits (p : positive) :
  all_decimal (chars (pretty p)) = true /\ digits_value (chars (pretty p)) = Z.pos p.
Proof.
  unfold pretty, pretty_positive, pretty, pretty_N.
  destruct (decide (N.pos p = 0%N)) as [H|_]; [discriminate H|].
  destruct (pretty_N_go_digits (N.pos p) "" eq_refl) as [H1 H2].
  split.
  - unfold all_decimal. destruct (chars (pretty_N_go (N.pos p) "")) eqn:E; [|exact H1].
    cbn in H2. lia.
  - rewrite H2. cbn. lia.
Qed.

(** Stripping leaves a text alone that neither starts nor ends with a
    character of the stripped class. *)
Lemma strip_with_id (p : ascii -> bool) (l : list ascii) :
  (forall c r, l = c :: r -> p c = false) ->
  (forall c r, rev l = c :: r -> p c = false) ->
  strip_with p l = l.
Proof.
  intros Hh Hl. unfold strip_with.
  rewrite (drop_while_id p l) by (destruct l; [exact I | eapply Hh; reflexivity]).
  rewrite (drop_while_id p (rev l)) by (destruct (rev l) eqn:E; [exact I | eapply Hl; reflexivity]).
  apply rev_involutive.
Qed.

Lemma decimal_not_space (c : ascii) : is_decimal c = true -> is_space c = false.
Proof. by_cases_on c. Qed.

Lemma decimal_lower_char (c : ascii) : is_decimal c = true -> lower_char c = c.
Proof. by_cases_on c. Qed.

Lemma decimal_is_digit_char (c : ascii) : is_decimal c = true -> is_digit_char c = true.
Proof. by_cases_on c. Qed.

Lemma decimal_not_h_m (c : ascii) :
  is_decimal c = true -> Ascii.eqb c "h" = false /\ Ascii.eqb c "m" = false.
Proof. by_cases_on c; split; reflexivity. Qed.

Lemma forallb_rev_head (q : ascii -> bool) (l : list ascii) (c : ascii) (r : list ascii) :
  forallb q l = true -> rev l = c :: r -> q c = true.
Proof.
  intros Hq Hr. rewrite forallb_forall in Hq. apply Hq, in_rev. rewrite Hr. left. reflexivity.
Qed.

Lemma strip_with_decimal (p : ascii -> bool) (l : list ascii) :
  (forall c, is_decimal c = true -> p c = false) ->
  forallb is_decimal l = true -> strip_with p l = l.
Proof.
  intros Hp Hl. apply strip_with_id.
  - intros c r ->. cbn in Hl. apply andb_prop in Hl as [Hc _]. apply Hp, Hc.
  - intros c r Hr. apply Hp. exact (forallb_rev_head _ _ _ _ Hl Hr).
Qed.

Lemma all_decimal_forallb (l : list ascii) :
  all_decimal l = true -> forallb is_decimal l = true /\ l <> [].
Proof. unfold all_decimal. destruct l; [discriminate|]. intros H. split; [exact H | discriminate]. Qed.

Lemma strip_decimal (s : string) : all_decimal (chars s) = true -> strip s = s.
Proof.
  intros [H _]%all_decimal_forallb. unfold strip.
  rewrite (strip_with_decimal is_space _ decimal_not_space H). apply of_chars_chars.
Qed.

Lemma lower_decimal (s : string) : all_decimal (chars s) = true -> lower s = s.
Proof.
  intros [H _]%all_decimal_forallb. unfold lower.
  rewrite <- (of_chars_chars s) at 2. f_equal.
  rewrite <- (map_id (chars s)) at 2. apply map_ext_in.
  intros c Hc. apply decimal_lower_char. rewrite forallb_forall in H. apply H, Hc.
Qed.

(** [int(str(z))] is [z], white space around the text or not. *)
Lemma py_int_py_str (z : Z) : py_int (strip (py_str z)) = Ok z.
Proof.
  unfold py_str, pretty, pretty_Z. destruct z as [|p|p].
  - reflexivity.
  - destruct (pretty_positive_digits p) as [Hd Hv].
    rewrite (strip_decimal _ Hd), (py_int_decimal _ Hd), Hv. reflexivity.
  - destruct (pretty_positive_digits p) as [Hd Hv].
    destruct (all_decimal_forallb _ Hd) as [Hall Hne].
    assert (Hchars : chars ("-" +:+ pretty p) = "-"%char :: chars (pretty p)) by reflexivity.
    assert (Hlast : forall (q : ascii -> bool),
              (forall c, is_decimal c = true -> q c = false) -> q "-"%char = false ->
              strip_with q ("-"%char :: chars (pretty p)) = "-"%char :: chars (pretty p)).
    { intros q Hq Hdash. apply strip_with_id.
      - intros c r [= <- _]. exact Hdash.
      - intros c r Hr. cbn [rev] in Hr.
        destruct (rev (chars (pretty p))) as [|d r'] eqn:E.
        + apply (f_equal (@rev ascii)) in E. rewrite rev_involutive in E. contradiction.
        + cbn in Hr. injection Hr as <- _. apply Hq.
          exact (forallb_rev_head _ _ _ _ Hall E). }
    assert (Hstrip : strip ("-" +:+ pretty p) = "-" +:+ pretty p).
    { unfold strip. rewrite Hchars, (Hlast is_space decimal_not_space eq_refl).
      rewrite <- Hchars. apply of_chars_chars. }
    rewrite Hstrip. unfold py_int.
    rewrite Hchars, (Hlast is_num_space decimal_not_num_space eq_refl).
    cbn [underscores_ok]. change (is_underscore "-") with false. cbn iota.
    rewrite (underscores_ok_decimal _ _ Hall).
    unfold no_underscores. cbn [List.filter]. change (is_underscore "-") with false.
    cbn [negb]. fold (no_underscores (chars (pretty p))).
    rewrite (no_underscores_decimal _ Hall). cbn [split_sign].
    change (Ascii.eqb "-" "-") with true. cbn iota. rewrite Hd, Hv. reflexivity.
Qed.

End DecimalFacts.

Import DecimalFacts.

(** ** The tracker marker *)

Lemma status_runs (w : world) :
  status w
  = if not_pid (marker_pid w)
    then (Ok tt, set_trace (trace w ++ [Echo "No detached session found."]) w)
    else
      let pid := default 0 (marker_pid w) in
      if bool_decide (pid ∈ procs w)
      then (Ok tt,
            set_trace (trace w ++ [Kill pid SIG0;
                                   Echo ("Detached session monitor running (pid "
                                         +:+ py_str pid +:+ ").")]) w)
      else (Ok tt,
            set_pid_file None
              (set_trace (trace w ++ [Kill pid SIG0;
                                      Echo "No detached session running (stale PID file).";
                                      ClearPid]) w)).
Proof.
  unfold status, read_pid, kill, clear_pid, echo. run.
  destruct (not_pid (marker_pid w)); [reflexivity|].
  destruct (bool_decide (default 0 (marker_pid w) ∈ procs w)); simpl;
    rewrite <- !app_assoc; reflexivity.
Qed.

Lemma stop_runs (host : env) (w : world) :
  stop host w
  = if not_pid (marker_pid w)
    then (Ok tt, set_trace (trace w ++ [Echo "No detached session found."]) w)
    else
      let pid := default 0 (marker_pid w) in
      (Ok tt,
       set_pid_file None
         (set_trace
            (trace w ++
             [Kill pid SIGTERM;
              Echo (if bool_decide (pid ∈ procs w)
                    then "Signaled detached session (pid " +:+ py_str pid +:+ ") to stop."
                    else "Failed to stop pid " +:+ py_str pid +:+ ": "
                         +:+ exn_str host OSError);
              ClearPid]) w)).
Proof.
  unfold stop, read_pid, kill, clear_pid, echo. run.
  destruct (not_pid (marker_pid w)); [reflexivity|].
  destruct (bool_decide (default 0 (marker_pid w) ∈ procs w)); simpl;
    rewrite <- !app_assoc; reflexivity.
Qed.

(** X1: the marker is a single slot with a round trip: whatever marker
    was there, [read_pid] after [write_pid pid] finds [pid], for every
    integer of no more digits than the interpreter's limit; a second
    [write_pid] replaces the first; and after [clear_pid] there is no
    marker. *)
Theorem marker_round_trip (pid pid' : Z) (w : world) :
  (int_digits pid <= max_str_digits)%nat -> (int_digits pid' <= max_str_digits)%nat ->
  marker_pid (snd (write_pid pid w)) = Some pid
  /\ marker_pid (snd (write_pid pid' (snd (write_pid pid w)))) = Some pid'
  /\ pid_file (snd (clear_pid (snd (write_pid pid w)))) = None
  /\ fst (read_pid (snd (clear_pid (snd (write_pid pid w))))) = Ok None.
Proof.
  intros _ _.
  assert (H : forall z w0, marker_pid (snd (write_pid z w0)) = Some z).
  { intros z w0. unfold marker_pid, write_pid. run. rewrite py_int_py_str. reflexivity. }
  repeat split; try apply H; reflexivity.
Qed.

Lemma marker_round_trip_witness :
  marker_pid (snd (write_pid 4242 world0)) = Some 4242
  /\ marker_pid (snd (write_pid (-7) (snd (write_pid 4242 world0)))) = Some (-7)
  /\ pid_file (snd (clear_pid (snd (write_pid 4242 world0)))) = None
  /\ fst (read_pid (snd (clear_pid (snd (write_pid 4242 world0))))) = Ok None.
Proof.
  assert (H1 : (int_digits 4242 <= max_str_digits)%nat)
    by (unfold max_str_digits; vm_compute; lia).
  assert (H2 : (int_digits (-7) <= max_str_digits)%nat)
    by (unfold max_str_digits; vm_compute; lia).
  exact (marker_round_trip 4242 (-7) world0 H1 H2).
Defined.

(** X2: [status] heals a stale marker once and for all: after it has
    found the recorded process gone, the next [status] finds no marker
    and only reports that there is no session; the history and the other
    files are untouched by both. *)
Theorem status_heals_stale_marker (w : world) (pid : Z) :
  marker_pid w = Some pid -> pid <> 0 -> pid ∉ procs w ->
  let w1 := snd (status w) in
  status w1 = (Ok tt, set_trace (trace w1 ++ [Echo "No detached session found."]) w1)
  /\ sessions_file w1 = sessions_file w
  /\ files w1 = files w.
Proof.
  intros Hm Hpid Hin. cbv zeta. apply Z.eqb_neq in Hpid.
  rewrite (status_runs w), Hm. cbn [not_pid default]. rewrite Hpid.
  rewrite (bool_decide_eq_false_2 _ Hin). cbn [snd].
  split; [|split; destruct w; reflexivity].
  rewrite status_runs.
  replace (marker_pid _) with (@None Z) by (destruct w; reflexivity).
  reflexivity.
Qed.

Lemma status_heals_stale_marker_witness :
  let w1 := snd (status (world_with_marker "4242" [])) in
  status w1 = (Ok tt, set_trace (trace w1 ++ [Echo "No detached session found."]) w1).
Proof.
  intros w1.
  assert (Hin : 4242 ∉ procs (world_with_marker "4242" []))
    by (vm_compute; intros H; discriminate H).
  assert (Hne : 4242 <> 0) by discriminate.
  exact (proj1 (status_heals_stale_marker (world_with_marker "4242" []) 4242
                  eq_refl Hne Hin)).
Defined.

(** X3: a marker file that holds no pid (text that [int] refuses, or
    the number zero) is to [status] and [stop] as no marker: both report
    that there is no session, signal nothing, and leave the file in
    place. *)
Theorem unreadable_marker_is_kept (host : env) (w : world) (text : string) :
  pid_file w = Some text -> not_pid (marker_pid w) = true ->
  status w = (Ok tt, set_trace (trace w ++ [Echo "No detached session found."]) w)
  /\ stop host w = (Ok tt, set_trace (trace w ++ [Echo "No detached session found."]) w)
  /\ pid_file (snd (status w)) = Some text
  /\ pid_file (snd (stop host w)) = Some text.
Proof.
  intros Hf Hn. rewrite status_runs, stop_runs, Hn. cbn [snd].
  repeat split; destruct w; exact Hf.
Qed.

Lemma unreadable_marker_is_kept_witness :
  pid_file (snd (stop host0 (world_with_marker "not a pid" [7]))) = Some "not a pid"
  /\ pid_file (snd (stop host0 (world_with_marker "0" [7]))) = Some "0".
Proof.
  split.
  - exact (proj2 (proj2 (proj2 (unreadable_marker_is_kept host0
             (world_with_marker "not a pid" [7]) "not a pid" eq_refl eq_refl)))).
  - exact (proj2 (proj2 (proj2 (unreadable_marker_is_kept host0
             (world_with_marker "0" [7]) "0" eq_refl eq_refl)))).
Defined.

(** ** The history store *)

(** X4: the history is kept newest first: after any number of
    [save_session_entry] calls on a usable history file, [load_sessions]
    returns the saved entries in reverse order of saving, in front of
    the entries that were there, which are unchanged. *)
Theorem saved_entries_newest_first (es : list json) (w : world) :
  history_ok w ->
  let w' := snd (for_each es save_session_entry w) in
  fst (for_each es save_session_entry w) = Ok tt
  /\ fst (load_sessions w') = Ok (JList (rev es ++ history w))
  /\ history_ok w'.
Proof.
  revert w. induction es as [|e es IH]; intros w Hok; cbv zeta.
  - cbn. split; [reflexivity | split; [|exact Hok]].
    unfold load_sessions, history, history_ok in *. run.
    destruct (sessions_file w) as [[|[]]|]; try contradiction; reflexivity.
  - cbn [for_each]. rewrite run_bind, (save_session_entry_runs e w Hok).
    set (w1 := set_sessions_file _ _).
    assert (Hok1 : history_ok w1) by (destruct w; exact I).
    destruct (IH w1 Hok1) as (H1 & H2 & H3).
    split; [exact H1 | split; [|exact H3]].
    rewrite H2. replace (history w1) with (e :: history w) by (destruct w; reflexivity).
    cbn [rev]. rewrite <- app_assoc. reflexivity.
Qed.

Lemma saved_entries_newest_first_witness :
  fst (load_sessions (snd (for_each [JInt 1; JInt 2; JInt 3] save_session_entry world0)))
  = Ok (JList (rev [JInt 1; JInt 2; JInt 3] ++ history world0)).
Proof.
  exact (proj1 (proj2 (saved_entries_newest_first [JInt 1; JInt 2; JInt 3] world0 I))).
Defined.

Section StoreFailure.

Variable host : env.

Lemma finish_raises (p : plan) (entry : list (string * json)) (w : world) :
  ~ history_ok w -> p_log p = true ->
  finish host p entry w
  = (Raise AttributeError,
     set_trace (trace w
                ++ (if p_notify p then [Notify "DayRun" "Session finished"] else [])
                ++ (if dnd_mode p then [SetDnd false] else [])
                ++ [SaveSession (JDict (dict_set entry "end_ts" (JInt (clock w))))]) w).
Proof.
  intros Hbad Hlog. unfold finish, notification, set_dnd, now. rewrite Hlog.
  destruct w as [sf pf fs ck ps si tr].
  destruct (p_notify p), (dnd_mode p); world_run;
    rewrite save_session_entry_raises by exact Hbad; world_run;
    rewrite <- ?app_assoc; reflexivity.
Qed.

End StoreFailure.

(** X5: a history file that holds JSON other than a list is not
    repaired: [save_session_entry] raises [AttributeError] and leaves the
    file as it is, so a foreground session with logging on ends in that
    exception, after the end notification and DND off. *)
Theorem foreign_history_file_fails_the_session (host : env) (cfg : config)
    (o : start_opts) (p : plan) (w : world) :
  plan_of cfg o (clock w) = Some p -> p_detach p = false -> p_log p = true ->
  sigint w = None -> ~ history_ok w ->
  let w' := snd (start host cfg o w) in
  fst (start host cfg o w) = Raise AttributeError
  /\ sessions_file w' = sessions_file w
  /\ (p_notify p = true -> Notify "DayRun" "Session finished" ∈ new_events w w')
  /\ (dnd_mode p = true -> SetDnd false ∈ new_events w w').
Proof.
  intros Hplan Hd Hlog Hs Hbad. cbv zeta.
  rewrite (start_runs_plan host cfg o p w Hplan).
  destruct (begin_runs host p w) as [pre [Hbegin _]].
  set (w0 := set_trace (trace w ++ pre) w) in *.
  destruct (countdown_loop_completes (Z.to_nat (dur_seconds p)) (dur_seconds p) w0)
    as [mid [Hcount _]]; [lia | destruct w; exact Hs |].
  set (w1 := set_clock _ _) in Hcount.
  assert (Hbad1 : ~ history_ok w1) by (destruct w; exact Hbad).
  rewrite run_bind, Hbegin, (run_session_foreground host p w0 Hd).
  rewrite run_bind. unfold try_except_interrupt. rewrite run_bind.
  unfold countdown. rewrite Hcount. cbv [mret M_ret].
  rewrite (finish_raises host p _ w1 Hbad1 Hlog). cbn [fst snd].
  set (tail := (if p_notify p then [Notify "DayRun" "Session finished"] else [])
               ++ (if dnd_mode p then [SetDnd false] else [])
               ++ [SaveSession _]).
  assert (Hnew : new_events w (set_trace (trace w1 ++ tail) w1) = pre ++ mid ++ tail).
  { apply new_events_app. destruct w. cbn. rewrite <- !app_assoc. reflexivity. }
  rewrite Hnew.
  split; [reflexivity | split; [destruct w; reflexivity | split]].
  - intros Hn. unfold tail. rewrite Hn, !elem_of_app. right. right. left. left.
  - intros Hn. unfold tail. rewrite Hn, !elem_of_app. right. right. right. left. left.
Qed.

Lemma foreign_history_file_fails_the_session_witness :
  let o := opts0 "0" "" false in
  fst (start host0 config0 o foreign_history_world) = Raise AttributeError
  /\ sessions_file (snd (start host0 config0 o foreign_history_world))
     = sessions_file foreign_history_world.
Proof.
  intros o.
  assert (Hp : plan_of config0 o (clock foreign_history_world)
               = Some (resolve config0 o empty_template 0 1000))
    by (vm_compute; reflexivity).
  assert (Hbad : ~ history_ok foreign_history_world) by (intros H; exact H).
  pose proof (foreign_history_file_fails_the_session host0 config0 o _
                foreign_history_world Hp eq_refl eq_refl eq_refl Hbad) as (H1 & H2 & _).
  split; [exact H1 | exact H2].
Defined.

(** ** More on durations *)

Module DigitFacts.

Lemma digit_char_not_num_space (c : ascii) : is_digit_char c = true -> is_num_space c = false.
Proof. by_cases_on c. Qed.

Lemma digit_char_not_underscore (c : ascii) : is_digit_char c = true -> is_underscore c = false.
Proof. by_cases_on c. Qed.

Lemma digit_char_not_sign (c : ascii) :
  is_digit_char c = true -> Ascii.eqb c "-" = false /\ Ascii.eqb c "+" = false.
Proof. by_cases_on c; split; reflexivity. Qed.

Lemma digit_char_not_h_m (c : ascii) :
  is_digit_char c = true -> Ascii.eqb c "h" = false /\ Ascii.eqb c "m" = false.
Proof. by_cases_on c; split; reflexivity. Qed.

Lemma isdigit_forallb (s : string) :
  isdigit s = true -> forallb is_digit_char (chars s) = true /\ chars s <> [].
Proof.
  unfold isdigit. destruct (chars s); [discriminate|].
  intros H. split; [exact H | discriminate].
Qed.

(** A string of digits ends neither in [h] nor in [m]. *)
Lemma isdigit_no_suffix (s : string) :
  isdigit s = true -> endswith s "h" = false /\ endswith s "m" = false.
Proof.
  intros [Hall _]%isdigit_forallb. unfold endswith.
  destruct (rev (chars s)) as [|d r] eqn:E; [split; reflexivity|].
  apply digit_char_not_h_m. exact (forallb_rev_head _ _ _ _ Hall E).
Qed.

Lemma all_decimal_isdigit (s : string) : all_decimal (chars s) = true -> isdigit s = true.
Proof.
  unfold all_decimal, isdigit. destruct (chars s) as [|c l]; [discriminate|].
  intros H. apply forallb_forall. intros x Hx. rewrite forallb_forall in H.
  apply decimal_is_digit_char, H, Hx.
Qed.

Lemma underscores_ok_digits (prev : option ascii) (l : list ascii) :
  forallb is_digit_char l = true -> underscores_ok prev l = true.
Proof.
  revert prev. induction l as [|c l IH]; intros prev; simpl; [reflexivity|].
  intros [Hc Hl]%andb_prop. rewrite (digit_char_not_underscore c Hc). apply IH, Hl.
Qed.

Lemma no_underscores_digits (l : list ascii) :
  forallb is_digit_char l = true -> no_underscores l = l.
Proof.
  induction l as [|c l IH]; simpl; [reflexivity|].
  intros [Hc Hl]%andb_prop. rewrite (digit_char_not_underscore c Hc). simpl.
  rewrite (IH Hl). reflexivity.
Qed.

(** [int] refuses a string of digits that are not all decimal. *)
Lemma py_int_superscript (s : string) :
  isdigit s = true -> all_decimal (chars s) = false -> py_int s = Raise ValueError.
Proof.
  intros [Hall Hne]%isdigit_forallb Hnd. unfold py_int.
  assert (Hstrip : strip_with is_num_space (chars s) = chars s).
  { apply strip_with_id.
    - intros c r E. rewrite E in Hall. cbn in Hall.
      apply andb_prop in Hall as [Hc _]. apply digit_char_not_num_space, Hc.
    - intros c r E. apply digit_char_not_num_space.
      exact (forallb_rev_head _ _ _ _ Hall E). }
  rewrite Hstrip, (underscores_ok_digits None _ Hall), (no_underscores_digits _ Hall).
  destruct (chars s) as [|c l] eqn:E; [contradiction|].
  pose proof Hall as Hall'. cbn in Hall'. apply andb_prop in Hall' as [Hc _].
  unfold split_sign. destruct (digit_char_not_sign c Hc) as [-> ->].
  rewrite Hnd. reflexivity.
Qed.

Lemma digits_value_nonneg (l : list ascii) :
  forallb is_decimal l = true -> 0 <= digits_value l.
Proof.
  induction l as [|c l IH]; [intros _; reflexivity|].
  intros [Hc Hl]%andb_prop. rewrite digits_value_cons.
  assert (0 <= digit_value c) by (revert Hc; by_cases_on c).
  specialize (IH Hl). nia.
Qed.

(** A normalised string of decimal digits is a number of minutes. *)
Lemma parse_plain_decimal (t : string) :
  all_decimal (chars t) = true ->
  parse_suffix "h" 3600 t (parse_suffix "m" 60 t (parse_plain t))
  = Ok (digits_value (chars t) * 60).
Proof.
  intros Hd. pose proof (all_decimal_isdigit t Hd) as Hi.
  destruct (isdigit_no_suffix t Hi) as [Hh Hm].
  unfold parse_suffix, parse_plain. rewrite Hh, Hm, Hi, (py_int_decimal t Hd).
  reflexivity.
Qed.

End DigitFacts.

Import DigitFacts.

(** X6: digits alone are minutes: when the stripped input is a string of
    decimal digits, no more of them than the interpreter's limit, the
    parser returns sixty times its value, which is never negative. *)
Theorem digits_are_minutes (s : string) :
  all_decimal (chars (lower (strip s))) = true ->
  (String.length (lower (strip s)) <= max_str_digits)%nat ->
  parse_duration s = Ok (digits_value (chars (lower (strip s))) * 60)
  /\ 0 <= digits_value (chars (lower (strip s))) * 60.
Proof.
  intros Hd _. split.
  - unfold parse_duration. apply parse_plain_decimal, Hd.
  - destruct (all_decimal_forallb _ Hd) as [Hall _].
    pose proof (digits_value_nonneg _ Hall). lia.
Qed.

Lemma digits_are_minutes_witness :
  parse_duration " 25 " = Ok (digits_value (chars (lower (strip " 25 "))) * 60).
Proof.
  assert (Hlen : (String.length (lower (strip " 25 ")) <= max_str_digits)%nat)
    by (unfold max_str_digits; vm_compute; lia).
  exact (proj1 (digits_are_minutes " 25 " eq_refl Hlen)).
Defined.

(** X7: a string of digits that [str.isdigit] accepts and [int]
    refuses (a superscript two, three or one among them) makes the
    parser raise [ValueError], not [click.BadParameter]: the [int(s)] of
    the digits branch is outside any [try]. *)
Theorem superscript_digits_raise_value_error (s : string) :
  isdigit (lower (strip s)) = true ->
  all_decimal (chars (lower (strip s))) = false ->
  parse_duration s = Raise ValueError.
Proof.
  intros Hi Hnd. unfold parse_duration.
  destruct (isdigit_no_suffix _ Hi) as [Hh Hm].
  unfold parse_suffix, parse_plain. rewrite Hh, Hm, Hi, (py_int_superscript _ Hi Hnd).
  reflexivity.
Qed.

Lemma superscript_digits_raise_value_error_witness :
  parse_duration (String "1" (String (ascii_of_N 178) EmptyString)) = Raise ValueError.
Proof.
  exact (superscript_digits_raise_value_error
           (String "1" (String (ascii_of_N 178) EmptyString)) eq_refl eq_refl).
Defined.

(** X8: from one minute on, [human_readable_seconds] drops the seconds
    below the minute: a duration reads like the full minutes it holds. *)
Theorem human_readable_drops_seconds (sec : Z) :
  60 <= sec ->
  human_readable_seconds sec = human_readable_seconds (sec - sec mod 60).
Proof.
  intros H. unfold human_readable_seconds.
  pose proof (Z.mod_pos_bound sec 60 ltac:(lia)) as Hm.
  pose proof (Z.div_mod sec 60 ltac:(lia)) as Hdm.
  assert (Hq : 1 <= sec / 60) by (apply Z.div_le_lower_bound; lia).
  assert (Hdiv : (sec - sec mod 60) / 60 = sec / 60).
  { replace (sec - sec mod 60) with (sec / 60 * 60) by lia. apply Z.div_mul. lia. }
  replace (sec <? 60) with false by (symmetry; apply Z.ltb_ge; lia).
  replace (sec - sec mod 60 <? 60) with false by (symmetry; apply Z.ltb_ge; lia).
  rewrite Hdiv. reflexivity.
Qed.

Lemma human_readable_drops_seconds_witness :
  human_readable_seconds 5459 = human_readable_seconds (5459 - 5459 mod 60).
Proof. apply human_readable_drops_seconds. lia. Defined.

(** X9: minutes typed as digits are shown back as typed: for [n >= 1]
    of no more digits than the interpreter's limit, parsing the decimal
    text of [n] gives [60 * n] seconds, which
    [human_readable_seconds] shows as [n] minutes below the hour and as
    hours and minutes from the hour on. *)
Theorem minutes_round_trip (n : Z) :
  1 <= n -> (int_digits n <= max_str_digits)%nat ->
  parse_duration (py_str n) = Ok (n * 60)
  /\ human_readable_seconds (n * 60)
     = if n <? 60 then py_str n +:+ "m"
       else py_str (n / 60) +:+ "h" +:+ py_str (n mod 60) +:+ "m".
Proof.
  intros Hn _. split.
  - destruct n as [|p|p]; try lia.
    destruct (pretty_positive_digits p) as [Hd Hv].
    assert (Hnorm : lower (strip (py_str (Z.pos p))) = py_str (Z.pos p)).
    { change (py_str (Z.pos p)) with (pretty p).
      rewrite (strip_decimal _ Hd), (lower_decimal _ Hd). reflexivity. }
    unfold parse_duration. rewrite Hnorm.
    change (py_str (Z.pos p)) with (pretty p).
    rewrite (parse_plain_decimal _ Hd), Hv. reflexivity.
  - unfold human_readable_seconds.
    replace (n * 60 <? 60) with false by (symmetry; apply Z.ltb_ge; lia).
    rewrite Z.div_mul by lia.
    destruct (n <? 60) eqn:E.
    + apply Z.ltb_lt in E. rewrite (Z.div_small n 60), (Z.mod_small n 60) by lia.
      reflexivity.
    + apply Z.ltb_ge in E.
      assert (1 <= n / 60) by (apply Z.div_le_lower_bound; lia).
      replace (n / 60 =? 0) with false by (symmetry; apply Z.eqb_neq; lia).
      reflexivity.
Qed.

Lemma minutes_round_trip_witness :
  parse_duration (py_str 90) = Ok (90 * 60)
  /\ human_readable_seconds (90 * 60)
     = if 90 <? 60 then py_str 90 +:+ "m"
       else py_str (90 / 60) +:+ "h" +:+ py_str (90 mod 60) +:+ "m".
Proof.
  assert (Hn : 1 <= 90) by lia.
  assert (Hlen : (int_digits 90 <= max_str_digits)%nat)
    by (unfold max_str_digits; vm_compute; lia).
  exact (minutes_round_trip 90 Hn Hlen).
Defined.

(** ** The start of a session *)

Section BeginFacts.

Variable host : env.

Ltac logs_open w0 :=
  destruct w0;
  unfold set_dnd, open_app_or_url, create_tmux_session, notification, echo;
  world_run.

Ltac logs_done :=
  cbn [negb]; world_run; unfold set_trace;
  cbn [sessions_file pid_file files clock procs sigint trace app];
  rewrite <- ?app_assoc, ?app_nil_r; reflexivity.

Ltac logs_eq w0 := logs_open w0; logs_done.

Lemma for_each_logs {A} (f : A -> M unit) (g : A -> list event) (l : list A) (w : world) :
  (forall x w0, f x w0 = (Ok tt, set_trace (trace w0 ++ g x) w0)) ->
  for_each l f w = (Ok tt, set_trace (trace w ++ flat_map g l) w).
Proof.
  intros Hf. revert w. induction l as [|x l IH]; intros w.
  - cbn. rewrite set_trace_nil. reflexivity.
  - cbn [for_each flat_map]. rewrite run_bind, Hf, IH, set_trace_set_trace. reflexivity.
Qed.

Lemma run_commands_logs (cmds : list string) (w : world) :
  run_commands host cmds w = (Ok tt, set_trace (trace w ++ map RunBackground cmds) w).
Proof.
  unfold run_commands.
  rewrite (for_each_logs _ (fun c => [RunBackground c]));
    [|intros c w0; destruct w0; reflexivity].
  assert (Hmap : flat_map (fun c => [RunBackground c]) cmds = map RunBackground cmds).
  { induction cmds as [|c l IH]; [reflexivity|]. cbn. rewrite IH. reflexivity. }
  rewrite Hmap. reflexivity.
Qed.

(** [begin] returns normally, logs [begin_events] and changes nothing
    else. *)
Lemma begin_exact (p : plan) (w : world) :
  begin host p w = (Ok tt, set_trace (trace w ++ begin_events host p) w).
Proof.
  unfold begin, begin_events.
  rewrite run_bind. unfold echo at 1. rewrite run_log.
  rewrite run_bind.
  assert (Hdnd : forall w0,
    when (dnd_mode p)
      (ok ← set_dnd host true;
       when (negb ok)
         (echo "Could not enable Do Not Disturb automatically on your system. Please enable it manually if desired.")) w0
    = (Ok tt, set_trace (trace w0 ++ (if dnd_mode p
         then SetDnd true
              :: (if dnd_result host true then []
                  else [Echo "Could not enable Do Not Disturb automatically on your system. Please enable it manually if desired."])
         else [])) w0)).
  { intros w0. destruct (dnd_mode p); cbn [when].
    - logs_open w0. destruct (dnd_result host true); logs_done.
    - logs_eq w0. }
  rewrite Hdnd, set_trace_set_trace, run_bind.
  rewrite (for_each_logs _
             (fun item => OpenItem item
                          :: (if open_result host item then []
                              else [Echo ("Could not open '" +:+ item
                                          +:+ "' automatically. (Best-effort)")]))).
  2:{ intros item w0. logs_open w0. destruct (open_result host item); logs_done. }
  rewrite set_trace_set_trace, run_bind.
  assert (Htmux : forall w0,
    (if p_tmux p && match tmux_panes_list p with [] => false | _ => true end
     then created ← create_tmux_session host (session_name p) (tmux_panes_list p);
          if created : bool
          then echo ("Created tmux session '" +:+ session_name p
                     +:+ "'. Attach with: tmux attach -t " +:+ session_name p)
          else echo "tmux requested but failed to create session. Falling back to background commands." ;;
               run_commands host (cmds_list p)
     else run_commands host (cmds_list p)) w0
    = (Ok tt, set_trace (trace w0 ++
         (if p_tmux p && match tmux_panes_list p with [] => false | _ => true end
          then CreateTmux (session_name p) (tmux_panes_list p)
               :: (if tmux_result host (session_name p)
                   then [Echo ("Created tmux session '" +:+ session_name p
                               +:+ "'. Attach with: tmux attach -t " +:+ session_name p)]
                   else Echo "tmux requested but failed to create session. Falling back to background commands."
                        :: map RunBackground (cmds_list p))
          else map RunBackground (cmds_list p))) w0)).
  { intros w0. destruct (p_tmux p && _); [|apply run_commands_logs].
    unfold create_tmux_session. rewrite !run_bind, run_log. cbv [mret M_ret].
    destruct (tmux_result host (session_name p)).
    - unfold echo. rewrite run_log, (set_trace_set_trace [_] [_]). reflexivity.
    - rewrite run_bind. unfold echo. rewrite run_log, run_commands_logs.
      rewrite !set_trace_set_trace. reflexivity. }
  rewrite Htmux, set_trace_set_trace, run_bind.
  assert (Hmusic : forall w0,
    match p_music p with
    | Some music => open_app_or_url host music ;; mret tt
    | None => mret tt
    end w0
    = (Ok tt, set_trace (trace w0 ++ match p_music p with
                                     | Some music => [OpenItem music]
                                     | None => []
                                     end) w0)).
  { intros w0. destruct (p_music p).
    - logs_eq w0.
    - logs_eq w0. }
  rewrite Hmusic, set_trace_set_trace.
  destruct (p_notify p); cbn [when].
  - unfold notification. rewrite run_log, set_trace_set_trace.
    rewrite <- ?app_assoc. reflexivity.
  - cbv [mret M_ret]. rewrite <- ?app_assoc, ?app_nil_r. reflexivity.
Qed.

Lemma opened_items_app (l1 l2 : list event) :
  opened_items (l1 ++ l2) = opened_items l1 ++ opened_items l2.
Proof. apply omap_app. Qed.

Lemma background_commands_app (l1 l2 : list event) :
  background_commands (l1 ++ l2) = background_commands l1 ++ background_commands l2.
Proof. apply omap_app. Qed.

Lemma opened_items_run (cmds : list string) :
  opened_items (map RunBackground cmds) = [].
Proof. induction cmds as [|c l IH]; [reflexivity | exact IH]. Qed.

Lemma background_commands_run (cmds : list string) :
  background_commands (map RunBackground cmds) = cmds.
Proof. induction cmds as [|c l IH]; [reflexivity|]. cbn. f_equal. exact IH. Qed.

End BeginFacts.

Section BeginProjections.

Variable host : env.

Lemma opened_items_begin_events (p : plan) :
  opened_items (begin_events host p)
  = apps_list p ++ match p_music p with Some music => [music] | None => [] end.
Proof.
  unfold begin_events. rewrite !opened_items_app.
  assert (Happs : forall l,
    opened_items (flat_map (fun item =>
        OpenItem item :: (if open_result host item then []
                          else [Echo ("Could not open '" +:+ item
                                      +:+ "' automatically. (Best-effort)")])) l) = l).
  { induction l as [|x l IH]; [reflexivity|].
    cbn [flat_map]. rewrite opened_items_app, IH.
    destruct (open_result host x); reflexivity. }
  rewrite Happs.
  replace (opened_items (if dnd_mode p then _ else _)) with (@nil string)
    by (destruct (dnd_mode p); [destruct (dnd_result host true)|]; reflexivity).
  replace (opened_items (if p_tmux p && _ then _ else _)) with (@nil string).
  2:{ destruct (p_tmux p && _); [destruct (tmux_result host (session_name p))|];
        cbn; rewrite ?opened_items_run; reflexivity. }
  replace (opened_items (if p_notify p then _ else _)) with (@nil string)
    by (destruct (p_notify p); reflexivity).
  destruct (p_music p); cbn; rewrite ?app_nil_r; reflexivity.
Qed.

Lemma background_commands_begin_events (p : plan) :
  background_commands (begin_events host p)
  = if p_tmux p && match tmux_panes_list p with [] => false | _ => true end
       && tmux_result host (session_name p)
    then []
    else cmds_list p.
Proof.
  unfold begin_events. rewrite !background_commands_app.
  assert (Happs : forall l,
    background_commands (flat_map (fun item =>
        OpenItem item :: (if open_result host item then []
                          else [Echo ("Could not open '" +:+ item
                                      +:+ "' automatically. (Best-effort)")])) l) = []).
  { induction l as [|x l IH]; [reflexivity|].
    cbn [flat_map]. rewrite background_commands_app, IH.
    destruct (open_result host x); reflexivity. }
  rewrite Happs.
  replace (background_commands (if dnd_mode p then _ else _)) with (@nil string)
    by (destruct (dnd_mode p); [destruct (dnd_result host true)|]; reflexivity).
  replace (background_commands match p_music p with Some _ => _ | None => _ end)
    with (@nil string) by (destruct (p_music p); reflexivity).
  replace (background_commands (if p_notify p then _ else _)) with (@nil string)
    by (destruct (p_notify p); reflexivity).
  cbn [background_commands omap app]. rewrite !app_nil_r.
  destruct (p_tmux p && _); cbn [andb].
  - destruct (tmux_result host (session_name p)); cbn.
    + reflexivity.
    + apply background_commands_run.
  - apply background_commands_run.
Qed.

Lemma new_events_begin (p : plan) (w : world) :
  new_events w (snd (begin host p w)) = begin_events host p.
Proof. rewrite begin_exact. apply new_events_app. destruct w; reflexivity. Qed.

End BeginProjections.

(** X10: opening is best effort: [begin] never raises and changes
    nothing but the log, and it opens every configured app or URL once,
    in the configured order, then the music target if there is one,
    whether the earlier ones could be opened or not. *)
Theorem begin_opens_every_item (host : env) (p : plan) (w : world) :
  fst (begin host p w) = Ok tt
  /\ snd (begin host p w)
     = set_trace (trace w ++ new_events w (snd (begin host p w))) w
  /\ opened_items (new_events w (snd (begin host p w)))
     = apps_list p ++ match p_music p with Some music => [music] | None => [] end.
Proof.
  rewrite new_events_begin, begin_exact. cbn [fst snd].
  split; [reflexivity | split; [reflexivity|]].
  apply opened_items_begin_events.
Qed.

(** X11: the configured commands are started in the background, in
    order, unless a tmux session was asked for, has panes and could be
    created: then none of them is started.  When the tmux session
    cannot be created the commands are started all the same. *)
Theorem commands_run_unless_tmux (host : env) (p : plan) (w : world) :
  background_commands (new_events w (snd (begin host p w)))
  = if p_tmux p && match tmux_panes_list p with [] => false | _ => true end
       && tmux_result host (session_name p)
    then []
    else cmds_list p.
Proof. rewrite new_events_begin. apply background_commands_begin_events. Qed.

(** ** The countdown *)

Ltac fields_eq w :=
  destruct w; unfold set_sessions_file, set_pid_file, set_files, set_clock,
    set_sigint, set_trace; cbn [sessions_file pid_file files clock procs sigint trace];
  f_equal;
  try lia; try (rewrite <- ?app_assoc, ?app_nil_r; simpl; reflexivity).

Lemma slept_app (l1 l2 : list event) : slept (l1 ++ l2) = slept l1 + slept l2.
Proof.
  induction l1 as [|e l1 IH]; [reflexivity|].
  cbn [app]. unfold slept in *. cbn [fold_right]. destruct e; try exact IH. lia.
Qed.

Ltac tick_list Hi :=
  repeat (constructor; [first [exact I | exact Hi]|]); constructor.

(** One turn of the countdown: at most a progress line, then one sleep
    of the interval. *)
Lemma countdown_turn_ticks (remaining : Z) (w : world) :
  0 < remaining -> sigint w = None ->
  exists pre,
    (countdown_echo remaining (countdown_interval remaining) ;;
     sleep (countdown_interval remaining)) w
    = (Ok tt, set_clock (clock w + countdown_interval remaining)
                (set_trace (trace w ++ pre) w))
    /\ Forall is_tick pre /\ slept pre = countdown_interval remaining.
Proof.
  intros Hr Hs.
  assert (Hi : countdown_interval remaining = 10 \/ countdown_interval remaining = 1)
    by (unfold countdown_interval; destruct (60 <? remaining); [left | right]; reflexivity).
  assert (Hneg : (countdown_interval remaining <? 0) = false) by (apply Z.ltb_ge; lia).
  unfold countdown_echo, echo, sleep. run. rewrite Hneg.
  destruct (remaining mod countdown_interval remaining =? 0);
    [destruct (0 <? remaining / 60)|]; simpl; rewrite Hs.
  - exists [Echo ("Time left: " +:+ py_str (remaining / 60) +:+ "m "
                  +:+ py_str (remaining mod 60) +:+ "s");
            Sleep (countdown_interval remaining)].
    split; [f_equal; fields_eq w | split; [tick_list Hi | cbn; lia]].
  - exists [Echo ("Time left: " +:+ py_str (remaining mod 60) +:+ "s");
            Sleep (countdown_interval remaining)].
    split; [f_equal; fields_eq w | split; [tick_list Hi | cbn; lia]].
  - exists [Sleep (countdown_interval remaining)].
    split; [f_equal; fields_eq w | split; [tick_list Hi | cbn; lia]].
Qed.

Lemma countdown_loop_ticks (fuel : nat) (remaining : Z) (w : world) :
  (Z.to_nat remaining <= fuel)%nat -> sigint w = None ->
  exists evs,
    countdown_loop fuel remaining w
    = (Ok tt, set_clock (clock w + Z.max 0 remaining) (set_trace (trace w ++ evs) w))
    /\ Forall is_tick evs /\ slept evs = Z.max 0 remaining.
Proof.
  revert remaining w. induction fuel as [|fuel IH]; intros remaining w Hf Hs;
    rewrite countdown_loop_eq; destruct (0 <? remaining) eqn:E;
    try (apply Z.ltb_ge in E; exists []; split; [|split; [constructor | cbn; lia]];
         replace (Z.max 0 remaining) with 0 by lia; cbv [mret M_ret]; f_equal; fields_eq w).
  - apply Z.ltb_lt in E. lia.
  - apply Z.ltb_lt in E.
    pose proof (countdown_interval_bounds remaining E) as Hi.
    destruct (countdown_turn_ticks remaining w E Hs) as [pre [Hturn [Hpre Hsl]]].
    set (w1 := set_clock (clock w + countdown_interval remaining)
                 (set_trace (trace w ++ pre) w)) in *.
    destruct (IH (remaining - countdown_interval remaining) w1) as [evs [Hrun [Hu Hsl']]];
      [lia | destruct w; exact Hs |].
    exists (pre ++ evs).
    split; [|split; [apply Forall_app; split; assumption | rewrite slept_app; lia]].
    change ((countdown_echo remaining (countdown_interval remaining) ;;
             sleep (countdown_interval remaining) ;;
             countdown_loop fuel (remaining - countdown_interval remaining)) w)
      with (match countdown_echo remaining (countdown_interval remaining) w with
            | (Ok a, w') =>
                (sleep (countdown_interval remaining) ;;
                 countdown_loop fuel (remaining - countdown_interval remaining)) w'
            | (Raise e, w') => (Raise e, w')
            end).
    rewrite run_bind in Hturn.
    destruct (countdown_echo remaining (countdown_interval remaining) w) as [[[]|e] w0];
      [|discriminate Hturn].
    rewrite run_bind, Hturn, Hrun. unfold w1. f_equal. fields_eq w.
Qed.

(** X12: a countdown that no Ctrl-C interrupts returns, and by then it
    has slept for exactly the duration (for nothing when the duration is
    zero or negative), in sleeps of ten seconds or of one; it has printed
    progress lines and done nothing else.  More turns than the duration
    has seconds are never needed. *)
Theorem countdown_sleeps_the_duration (remaining : Z) (w : world) :
  sigint w = None ->
  (exists evs,
     countdown remaining w
     = (Ok tt, set_clock (clock w + Z.max 0 remaining) (set_trace (trace w ++ evs) w))
     /\ Forall is_tick evs /\ slept evs = Z.max 0 remaining)
  /\ (forall fuel, (Z.to_nat remaining <= fuel)%nat ->
        countdown_loop fuel remaining w = countdown remaining w).
Proof.
  intros Hs. split.
  - apply countdown_loop_ticks; [lia | exact Hs].
  - intros fuel Hf. unfold countdown. rewrite (countdown_loop_fuel fuel (Z.to_nat remaining));
      [reflexivity | exact Hf | lia].
Qed.

Lemma countdown_sleeps_the_duration_witness :
  (exists evs,
     countdown 75 world0
     = (Ok tt, set_clock (clock world0 + Z.max 0 75) (set_trace (trace world0 ++ evs) world0))
     /\ Forall is_tick evs /\ slept evs = Z.max 0 75)
  /\ (forall fuel, (Z.to_nat 75 <= fuel)%nat ->
        countdown_loop fuel 75 world0 = countdown 75 world0).
Proof. exact (countdown_sleeps_the_duration 75 world0 eq_refl). Defined.

(** ** Whole sessions *)

Section SessionRuns.

Variable host : env.

Lemma py_int_raises (s : string) (e : exn) : py_int s = Raise e -> e = ValueError.
Proof.
  unfold py_int. destruct (underscores_ok _ _); [|congruence].
  destruct (split_sign _) as [neg ds]. destruct (all_decimal ds); congruence.
Qed.

(** [parse_duration] raises nothing but [Exception]s, so [start] always
    catches what it raises. *)
Lemma parse_duration_raises (s : string) (e : exn) :
  parse_duration s = Raise e -> is_Exception e = true.
Proof.
  unfold parse_duration. set (t := lower (strip s)). clearbody t.
  assert (Hplain : forall e0, parse_plain t = Raise e0 -> is_Exception e0 = true).
  { intros e0. unfold parse_plain. destruct (isdigit t).
    - destruct (py_int t) as [n|e1] eqn:E; cbn; [discriminate|].
      intros [= <-]. apply py_int_raises in E. subst e1. reflexivity.
    - destruct (x ← py_float t; int_of_float x) as [n|e1] eqn:E; [discriminate|].
      apply (float_attempt_raises _ (fun x => x)) in E. rewrite E.
      intros [= <-]. reflexivity. }
  destruct (parse_suffix_cases "h" 3600 t (parse_suffix "m" 60 t (parse_plain t)))
    as [-> | [n ->]]; [|discriminate].
  destruct (parse_suffix_cases "m" 60 t (parse_plain t)) as [-> | [n ->]]; [|discriminate].
  apply Hplain.
Qed.

(** The session after the detach block, when that block did not
    return: the countdown and the end effects. *)
Lemma session_tail_completes (p : plan) (entry : list (string * json)) (w : world) :
  sigint w = None -> history_ok w ->
  let t := clock w + Z.max 0 (dur_seconds p) in
  let e := JDict (dict_set entry "end_ts" (JInt t)) in
  exists mid,
    (interrupted ← try_except_interrupt
       (countdown (dur_seconds p) ;; mret false)
       ((echo "Session interrupted by user." ;;
         when (dnd_mode p) (set_dnd host false ;; mret tt)) ;;
        mret true);
     if interrupted : bool then mret tt
     else finish host p entry) w
    = (Ok tt,
       (if p_log p
        then set_sessions_file (Some (Parsed (JList (e :: history w))))
        else fun w => w)
         (set_clock t (set_trace (trace w ++ mid ++ finish_events p e) w)))
    /\ Forall is_tick mid /\ slept mid = Z.max 0 (dur_seconds p).
Proof.
  intros Hs Hok t e.
  destruct (countdown_loop_ticks (Z.to_nat (dur_seconds p)) (dur_seconds p) w)
    as [mid [Hcount [Hmid Hsl]]]; [lia | exact Hs |].
  set (w1 := set_clock _ _) in Hcount.
  exists mid. split; [|split; assumption].
  rewrite run_bind. unfold try_except_interrupt. rewrite run_bind.
  unfold countdown. rewrite Hcount. cbv [mret M_ret].
  assert (Hok1 : history_ok w1) by (destruct w; exact Hok).
  rewrite (finish_runs host p _ w1 Hok1).
  assert (Hc : clock w1 = t) by (destruct w; reflexivity).
  assert (Hh : history w1 = history w) by (destruct w; reflexivity).
  rewrite Hc, Hh. fold e. f_equal.
  unfold w1. destruct (p_log p); fields_eq w.
Qed.

(** A foreground session that is not interrupted, event by event. *)
Lemma foreground_exact (p : plan) (w : world) :
  p_detach p = false -> sigint w = None -> history_ok w ->
  let t := clock w + Z.max 0 (dur_seconds p) in
  let e := JDict (dict_set (session_entry p (clock w)) "end_ts" (JInt t)) in
  exists mid,
    (begin host p ;; run_session host p) w
    = (Ok tt,
       (if p_log p
        then set_sessions_file (Some (Parsed (JList (e :: history w))))
        else fun w => w)
         (set_clock t
            (set_trace (trace w ++ begin_events host p ++ mid ++ finish_events p e) w)))
    /\ Forall is_tick mid /\ slept mid = Z.max 0 (dur_seconds p).
Proof.
  intros Hd Hs Hok t e.
  set (w0 := set_trace (trace w ++ begin_events host p) w).
  destruct (session_tail_completes p (session_entry p (clock w)) w0)
    as [mid [Hrun [Hmid Hsl]]]; [destruct w; exact Hs | destruct w; exact Hok |].
  exists mid. split; [|split; assumption].
  rewrite run_bind, begin_exact. fold w0.
  rewrite (run_session_foreground host p w0 Hd).
  replace (clock w0) with (clock w) in * by (destruct w; reflexivity).
  replace (history w0) with (history w) in Hrun by (destruct w; reflexivity).
  rewrite Hrun. fold t e. f_equal. unfold w0. destruct (p_log p); fields_eq w.
Qed.

(** The detach block when no monitor can be spawned: the handoff file
    is written all the same, and the block does not return. *)
Lemma detach_session_falls_through (p : plan) (start_ts : Z)
    (entry : list (string * json)) (w : world) :
  windows host = true \/ spawn_result host = None ->
  exists evs,
    detach_session host p start_ts entry w
    = (Ok (false, entry),
       set_files (<[handoff_path host start_ts := Parsed (JDict entry)]> (files w))
         (set_trace (trace w ++ WriteEntry (handoff_path host start_ts) (JDict entry) :: evs)
            w))
    /\ Forall (fun e => match e with Spawn _ | Echo _ => True | _ => False end) evs.
Proof.
  intros Hno. unfold detach_session, write_entry, popen_monitor, echo.
  set (path := handoff_path host start_ts). clearbody path.
  set (sdur := py_str (dur_seconds p)). clearbody sdur.
  destruct w as [sf pf fs ck ps si tr].
  destruct (windows host) eqn:Hw.
  - exists []. split; [|constructor]. world_run. reflexivity.
  - destruct Hno as [Hno | Hno]; [discriminate|]. rewrite Hno.
    eexists [_; _].
    split; [world_run; rewrite <- ?app_assoc; reflexivity | repeat constructor].
Qed.

Lemma run_session_detach (p : plan) (w : world) :
  p_detach p = true ->
  run_session host p w
  = ('(returned, entry) ← detach_session host p (clock w) (session_entry p (clock w));
     if returned : bool then mret tt
     else
       interrupted ← try_except_interrupt
         (countdown (dur_seconds p) ;; mret false)
         ((echo "Session interrupted by user." ;;
           when (dnd_mode p) (set_dnd host false ;; mret tt)) ;;
          mret true);
       if interrupted : bool then mret tt
       else finish host p entry) w.
Proof. intros Hd. unfold run_session, now. run. rewrite Hd. reflexivity. Qed.

(** [start --detach] when the monitor could be spawned, event by
    event. *)
Lemma detached_start_exact (p : plan) (pid : Z) (w : world) :
  p_detach p = true -> windows host = false -> spawn_result host = Some pid ->
  history_ok w ->
  let entry := session_entry p (clock w) in
  (begin host p ;; run_session host p) w
  = (Ok tt,
     (if p_log p
      then set_sessions_file
             (Some (Parsed (JList (JDict (dict_set entry "detached_pid" (JInt pid))
                                   :: history w))))
      else fun w => w)
       (set_pid_file (Some (py_str pid))
          (set_files (<[handoff_path host (clock w) := Parsed (JDict entry)]> (files w))
             (set_trace (trace w ++ begin_events host p
                         ++ detach_events host p (clock w) pid) w)))).
Proof.
  intros Hd Hw Hsp Hok entry.
  rewrite run_bind, begin_exact.
  set (pre := begin_events host p). clearbody pre.
  unfold run_session, detach_session, detach_events, now, write_entry, popen_monitor,
    write_pid, echo.
  fold entry.
  set (path := handoff_path host (clock w)).
  set (spid := py_str pid). set (sdur := py_str (dur_seconds p)).
  set (e1 := dict_set entry "detached_pid" (JInt pid)).
  unfold entry in *. clear entry.
  destruct w as [sf pf fs ck ps si tr]. world_run. rewrite Hd. world_run.
  rewrite Hw. world_run. rewrite Hsp. world_run.
  destruct (p_log p); world_run; [|rewrite <- !app_assoc; reflexivity].
  rewrite save_session_entry_runs by exact Hok. world_run.
  rewrite <- !app_assoc. reflexivity.
Qed.

(** The word that [start] passes is no command of the program: the
    process it spawns changes nothing. *)
Lemma spawned_process_is_not_reached (self seconds : Z) (entry_file : string)
    (w : world) :
  spawned_process host self seconds entry_file w = (Ok tt, w).
Proof.
  unfold spawned_process.
  assert (Hword : get_command "_monitor" = None) by (vm_compute; reflexivity).
  rewrite Hword. reflexivity.
Qed.

(** [start --detach] when no monitor can be spawned, event by event. *)
Lemma detach_fallback_exact (p : plan) (w : world) :
  p_detach p = true -> windows host = true \/ spawn_result host = None ->
  sigint w = None -> history_ok w ->
  let entry := session_entry p (clock w) in
  let path := handoff_path host (clock w) in
  let t := clock w + Z.max 0 (dur_seconds p) in
  let e := JDict (dict_set entry "end_ts" (JInt t)) in
  exists evs mid,
    (begin host p ;; run_session host p) w
    = (Ok tt,
       (if p_log p
        then set_sessions_file (Some (Parsed (JList (e :: history w))))
        else fun w => w)
         (set_clock t
            (set_files (<[path := Parsed (JDict entry)]> (files w))
               (set_trace (trace w ++ begin_events host p
                           ++ (WriteEntry path (JDict entry) :: evs)
                           ++ mid ++ finish_events p e) w))))
    /\ Forall (fun e => match e with Spawn _ | Echo _ => True | _ => False end) evs
    /\ Forall is_tick mid /\ slept mid = Z.max 0 (dur_seconds p).
Proof.
  intros Hd Hno Hs Hok entry path t e.
  set (w0 := set_trace (trace w ++ begin_events host p) w).
  assert (Hc0 : clock w0 = clock w) by (destruct w; reflexivity).
  destruct (detach_session_falls_through p (clock w) entry w0 Hno) as [evs [Hdet Hevs]].
  fold path in Hdet. set (w1 := set_files _ _) in Hdet.
  destruct (session_tail_completes p entry w1) as [mid [Hrun [Hmid Hsl]]];
    [destruct w; exact Hs | destruct w; exact Hok |].
  exists evs, mid. split; [|split; [|split]]; try assumption.
  rewrite run_bind, begin_exact. fold w0.
  rewrite (run_session_detach p w0 Hd), Hc0. fold entry.
  rewrite run_bind, Hdet. cbv beta iota.
  replace (clock w1) with (clock w) in Hrun by (destruct w; reflexivity).
  replace (history w1) with (history w) in Hrun by (destruct w; reflexivity).
  rewrite Hrun. fold t e. f_equal.
  set (evs0 := begin_events host p) in *. set (fin := finish_events p e).
  set (wr := WriteEntry path (JDict entry)) in *. set (e0 := Parsed (JDict entry)) in *.
  clearbody evs0 fin wr e0 e t path entry.
  unfold w1, w0. clear. destruct (p_log p), w as [sf pf fs ck ps si tr];
    world_run; cbn [app]; rewrite <- ?app_assoc; reflexivity.
Qed.

(** [start --detach] with logging on and a history file that holds
    something else than a list: the monitor is spawned and the marker
    written, the failed history write is reported as a failure to
    detach, and the session runs in the foreground as well, up to the
    second failed history write. *)
Lemma detach_foreign_history_exact (p : plan) (pid : Z) (w : world) :
  p_detach p = true -> windows host = false -> spawn_result host = Some pid ->
  p_log p = true -> ~ history_ok w -> sigint w = None ->
  let entry := session_entry p (clock w) in
  let path := handoff_path host (clock w) in
  let t := clock w + Z.max 0 (dur_seconds p) in
  let e1 := dict_set entry "detached_pid" (JInt pid) in
  exists mid,
    (begin host p ;; run_session host p) w
    = (Raise AttributeError,
       set_clock t
         (set_pid_file (Some (py_str pid))
            (set_files (<[path := Parsed (JDict entry)]> (files w))
               (set_trace
                  (trace w ++ begin_events host p
                   ++ [WriteEntry path (JDict entry);
                       Spawn [python host; script host; "_monitor";
                              py_str (dur_seconds p); path];
                       WritePid pid;
                       Echo ("Detached monitor started (pid " +:+ py_str pid +:+ ").");
                       SaveSession (JDict e1);
                       Echo ("Failed to start detached monitor: "
                             +:+ exn_str host AttributeError)]
                   ++ mid
                   ++ (if p_notify p then [Notify "DayRun" "Session finished"] else [])
                   ++ (if dnd_mode p then [SetDnd false] else [])
                   ++ [SaveSession (JDict (dict_set e1 "end_ts" (JInt t)))]) w))))
    /\ Forall is_tick mid /\ slept mid = Z.max 0 (dur_seconds p).
Proof.
  intros Hd Hw Hsp Hlog Hbad Hs entry path t e1.
  set (evs0 := begin_events host p).
  set (det := [WriteEntry path (JDict entry);
               Spawn [python host; script host; "_monitor"; py_str (dur_seconds p); path];
               WritePid pid;
               Echo ("Detached monitor started (pid " +:+ py_str pid +:+ ").");
               SaveSession (JDict e1);
               Echo ("Failed to start detached monitor: " +:+ exn_str host AttributeError)]).
  set (w1 := set_pid_file (Some (py_str pid))
               (set_files (<[path := Parsed (JDict entry)]> (files w))
                  (set_trace (trace w ++ evs0 ++ det) w))).
  assert (Hdet :
            (begin host p ;; run_session host p) w
            = (interrupted ← try_except_interrupt
                 (countdown (dur_seconds p) ;; mret false)
                 ((echo "Session interrupted by user." ;;
                   when (dnd_mode p) (set_dnd host false ;; mret tt)) ;;
                  mret true);
               if interrupted : bool then mret tt
               else finish host p e1) w1).
  { rewrite run_bind, begin_exact. fold evs0.
    rewrite (run_session_detach p _ Hd).
    replace (clock (set_trace (trace w ++ evs0) w)) with (clock w)
      by (destruct w; reflexivity).
    fold entry path. rewrite run_bind.
    assert (Hblock : detach_session host p (clock w) entry (set_trace (trace w ++ evs0) w)
                     = (Ok (false, e1), w1)).
    { unfold detach_session, write_entry, popen_monitor, write_pid, echo.
      fold path. rewrite Hw, Hsp, Hlog. fold e1.
      unfold w1, det. clear w1 det.
      set (spid := py_str pid). set (sdur := py_str (dur_seconds p)).
      set (j := JDict entry).
      clearbody evs0 sdur j path.
      destruct w as [sf pf fs ck ps si tr]. world_run.
      rewrite save_session_entry_raises by exact Hbad. world_run.
      rewrite <- ?app_assoc. reflexivity. }
    rewrite Hblock. reflexivity. }
  destruct (countdown_loop_ticks (Z.to_nat (dur_seconds p)) (dur_seconds p) w1)
    as [mid [Hcount [Hmid Hsl]]]; [lia | destruct w; exact Hs |].
  set (w2 := set_clock _ _) in Hcount.
  assert (Hbad2 : ~ history_ok w2) by (destruct w; exact Hbad).
  exists mid. split; [|split; assumption].
  rewrite Hdet, run_bind. unfold try_except_interrupt. rewrite run_bind.
  unfold countdown. rewrite Hcount. cbv [mret M_ret].
  rewrite (finish_raises host p e1 w2 Hbad2 Hlog).
  replace (clock w2) with t by (destruct w; reflexivity).
  f_equal.
  set (fin := (if p_notify p then [Notify "DayRun" "Session finished"] else [])
              ++ (if dnd_mode p then [SetDnd false] else [])
              ++ [SaveSession (JDict (dict_set e1 "end_ts" (JInt t)))]).
  set (e0 := Parsed (JDict entry)) in *. set (spid := py_str pid) in *.
  clearbody fin det evs0 e0 spid path.
  unfold w2, w1, t. clear. destruct w as [sf pf fs ck ps si tr].
  world_run. rewrite <- ?app_assoc. reflexivity.
Qed.

(** The monitor when what the handoff file holds is JSON but not an
    object. *)
Lemma monitor_foreign_entry (self seconds : Z) (entry_file : string) (j : json)
    (w : world) :
  files w !! entry_file = Some (Parsed j) -> (forall d, j <> JDict d) ->
  0 <= seconds -> sigint w = None ->
  monitor host self seconds entry_file w
  = (Raise AttributeError,
     set_pid_file None
       (set_files (delete entry_file (files w))
          (set_clock (clock w + seconds)
             (set_trace (trace w ++ [ReadEntry entry_file; WritePid self; Sleep seconds;
                                     Notify "DayRun" "Detached session finished";
                                     UnlinkEntry entry_file; ClearPid]) w)))).
Proof.
  intros Hf Hj Hs Hk. rewrite monitor_unfolds.
  assert (He : monitor_entry w entry_file = j) by (unfold monitor_entry; rewrite Hf; reflexivity).
  rewrite He. clear He Hf. apply Z.ltb_ge in Hs.
  unfold monitor_marked, finishing, sleep, notification, entry_get.
  set (spid := py_str self). clearbody spid.
  destruct w as [sf pf fs ck ps si tr]. cbn [sigint] in Hk. subst si.
  world_run. rewrite Hs. world_run.
  destruct j as [| | | | |d]; try (exfalso; exact (Hj d eq_refl));
    world_run; rewrite cleanup_runs; world_run; rewrite <- ?app_assoc; reflexivity.
Qed.

End SessionRuns.

Lemma finish_events_completed (p : plan) (e : json) :
  Echo "Session completed." ∈ finish_events p e.
Proof. unfold finish_events. rewrite !elem_of_app. do 3 right. left. Qed.

Lemma finish_events_dnd_off (p : plan) (e : json) :
  SetDnd false ∈ finish_events p e <-> dnd_mode p = true.
Proof.
  unfold finish_events.
  destruct (p_notify p), (dnd_mode p), (p_log p); cbn [app];
    rewrite ?elem_of_cons, ?elem_of_nil; intuition congruence.
Qed.

Lemma ticks_no_dnd (mid : list event) (b : bool) : Forall is_tick mid -> SetDnd b ∉ mid.
Proof.
  intros Hmid Hin. rewrite Forall_forall in Hmid. exact (Hmid _ Hin).
Qed.

(** [begin] never switches DND off. *)
Lemma begin_events_no_dnd_off (host : env) (p : plan) : SetDnd false ∉ begin_events host p.
Proof.
  assert (Hkinds : Forall (fun e => e <> SetDnd false) (begin_events host p)).
  { unfold begin_events. repeat apply Forall_app_2.
    - repeat constructor; discriminate.
    - destruct (dnd_mode p); [destruct (dnd_result host true)|];
        repeat constructor; discriminate.
    - induction (apps_list p) as [|x l IH]; [constructor|].
      cbn [flat_map]. apply Forall_app_2; [|exact IH].
      destruct (open_result host x); repeat constructor; discriminate.
    - assert (Hrun : Forall (fun e => e <> SetDnd false) (map RunBackground (cmds_list p))).
      { induction (cmds_list p) as [|c l IH]; constructor; [discriminate | exact IH]. }
      destruct (p_tmux p && _); [|exact Hrun].
      constructor; [discriminate|].
      destruct (tmux_result host (session_name p)); [repeat constructor; discriminate|].
      constructor; [discriminate | exact Hrun].
    - destruct (p_music p); repeat constructor; discriminate.
    - destruct (p_notify p); repeat constructor; discriminate. }
  intros Hin. rewrite Forall_forall in Hkinds. exact (Hkinds _ Hin eq_refl).
Qed.

Lemma effects_app (l1 l2 : list event) : effects (l1 ++ l2) = effects l1 ++ effects l2.
Proof. apply List.filter_app. Qed.

Lemma effects_ticks (mid : list event) : Forall is_tick mid -> effects mid = [].
Proof.
  induction 1 as [|e mid He _ IH]; [reflexivity|].
  unfold effects in *. cbn [List.filter]. destruct e; try contradiction; exact IH.
Qed.

Lemma effects_begin_events (host : env) (p : plan) :
  effects (begin_events host p) = begin_effects p.
Proof.
  unfold begin_events, begin_effects. rewrite !effects_app.
  assert (Happs : forall l,
    effects (flat_map (fun item =>
        OpenItem item :: (if open_result host item then []
                          else [Echo ("Could not open '" +:+ item
                                      +:+ "' automatically. (Best-effort)")])) l)
    = map OpenItem l).
  { induction l as [|x l IH]; [reflexivity|].
    cbn [flat_map map]. rewrite effects_app, IH.
    destruct (open_result host x); reflexivity. }
  assert (Hrun : forall l, effects (map RunBackground l) = []).
  { induction l as [|c l IH]; [reflexivity | exact IH]. }
  rewrite Happs.
  replace (effects (if dnd_mode p then _ else _))
    with (if dnd_mode p then [SetDnd true] else [])
    by (destruct (dnd_mode p); [destruct (dnd_result host true)|]; reflexivity).
  replace (effects (if p_tmux p && _ then _ else _)) with (@nil event).
  2:{ destruct (p_tmux p && _); [destruct (tmux_result host (session_name p))|];
        unfold effects; cbn [List.filter is_effect]; fold (effects (map RunBackground (cmds_list p)));
        rewrite ?Hrun; reflexivity. }
  replace (effects match p_music p with Some music => [OpenItem music] | None => [] end)
    with (match p_music p with Some music => [OpenItem music] | None => [] end)
    by (destruct (p_music p); reflexivity).
  replace (effects (if p_notify p then _ else _))
    with (if p_notify p
          then [Notify "DayRun" ("Session started: "
                                 +:+ human_readable_seconds (dur_seconds p))]
          else [])
    by (destruct (p_notify p); reflexivity).
  reflexivity.
Qed.

Lemma effects_finish_events (p : plan) (e : json) :
  effects (finish_events p e) = finish_effects p e.
Proof.
  unfold finish_events, finish_effects.
  destruct (p_notify p), (dnd_mode p), (p_log p); reflexivity.
Qed.

Lemma effects_monitor_events (self seconds : Z) (entry_file : string)
    (d : list (string * json)) (t : Z) :
  effects (monitor_events self seconds entry_file d t) = monitor_effects d t.
Proof.
  unfold monitor_events, monitor_effects.
  destruct (truthy (dict_get d "dnd")); reflexivity.
Qed.

(** C6: the begin phase of every session performs, in this order and
    nothing else among the effects: DND on (when the session has DND),
    the opening of every app, the start notification (when notifying).
    The finish phase performs, in this order: the end notification, DND
    off, the history append; so does a foreground session that runs to
    its end, after its begin phase, and so does the monitor when it
    completes.  In every run of [start] and of the monitor, whatever
    way it ends, no effect comes before one that the order puts before
    it. *)
Theorem effects_in_order (host : env) :
  (forall (p : plan) (w : world),
     fst (begin host p w) = Ok tt
     /\ effects (new_events w (snd (begin host p w))) = begin_effects p)
  /\ (forall (cfg : config) (o : start_opts) (p : plan) (w : world),
        plan_of cfg o (clock w) = Some p -> p_detach p = false ->
        sigint w = None -> history_ok w ->
        effects (new_events w (snd (start host cfg o w)))
        = begin_effects p
          ++ finish_effects p
               (JDict (dict_set (session_entry p (clock w)) "end_ts"
                         (JInt (clock w + Z.max 0 (dur_seconds p))))))
  /\ (forall (self seconds : Z) (entry_file : string) (d : list (string * json))
             (w : world),
        files w !! entry_file = Some (Parsed (JDict d)) ->
        0 <= seconds -> sigint w = None -> history_ok w ->
        effects (new_events w (snd (monitor host self seconds entry_file w)))
        = monitor_effects d (clock w + seconds))
  /\ (forall (cfg : config) (o : start_opts) (w : world),
        ordered (new_events w (snd (start host cfg o w))))
  /\ (forall (self seconds : Z) (entry_file : string) (w : world),
        ordered (new_events w (snd (monitor host self seconds entry_file w)))).
Proof.
  split; [|split; [|split; [|split]]].
  - intros p w. rewrite new_events_begin, begin_exact.
    split; [reflexivity | apply effects_begin_events].
  - intros cfg o p w Hplan Hd Hk Hok.
    rewrite (start_runs_plan host cfg o p w Hplan).
    destruct (foreground_exact host p w Hd Hk Hok) as (mid & Hrun & Hmid & _).
    rewrite Hrun. cbn [snd]. clear Hrun.
    set (e := JDict _).
    assert (Hnew : forall evs t,
              new_events w
                ((if p_log p
                  then set_sessions_file (Some (Parsed (JList (e :: history w))))
                  else fun w0 => w0) (set_clock t (set_trace (trace w ++ evs) w)))
              = evs).
    { intros evs t. apply new_events_app. destruct (p_log p), w; reflexivity. }
    rewrite Hnew, !effects_app, effects_begin_events, (effects_ticks mid Hmid),
      effects_finish_events.
    reflexivity.
  - intros self seconds entry_file d w Hf Hs Hk Hok.
    assert (He : monitor_entry w entry_file = JDict d)
      by (unfold monitor_entry; rewrite Hf; reflexivity).
    rewrite (monitor_runs host self seconds entry_file d w He Hs Hk Hok). cbn [snd].
    set (evs := monitor_events _ _ _ _ _).
    replace (new_events w _) with evs
      by (symmetry; apply new_events_app; destruct w; reflexivity).
    apply effects_monitor_events.
  - intros cfg o w. apply (phased_ordered 0 5), phased_start.
  - intros self seconds entry_file w. apply (phased_ordered 3 5), phased_monitor.
Qed.

(** X13: when the template is not found or the duration cannot be
    parsed, [start] prints one line and returns normally: no DND, no
    app, no process, no file, no history record. *)
Theorem start_aborts_with_one_line (host : env) (cfg : config) (o : start_opts)
    (w : world) :
  plan_of cfg o (clock w) = None ->
  exists msg, start host cfg o w = (Ok tt, set_trace (trace w ++ [Echo msg]) w).
Proof.
  unfold plan_of, start, echo.
  destruct (template_not_found cfg o); [intros _; eexists; reflexivity|].
  destruct (parse_duration (dur_str_of cfg o)) as [n|e] eqn:E; [discriminate|].
  intros _. rewrite (parse_duration_raises _ _ E). eexists. reflexivity.
Qed.

Lemma start_aborts_with_one_line_witness :
  exists msg,
    start host0 config0 (opts0 "soon" "firefox" false) world0
    = (Ok tt, set_trace (trace world0 ++ [Echo msg]) world0).
Proof.
  assert (Hp : plan_of config0 (opts0 "soon" "firefox" false) (clock world0) = None)
    by (vm_compute; reflexivity).
  exact (start_aborts_with_one_line host0 config0 (opts0 "soon" "firefox" false) world0 Hp).
Defined.

(** X14: a foreground session that no Ctrl-C interrupts, event by
    event: the start effects, then the countdown's progress lines and
    sleeps, which add up to the duration, then the end effects.  It
    returns normally; beside the log and the clock it changes the
    history only, and with [--no-log] not even that. *)
Theorem foreground_session_event_by_event (host : env) (cfg : config) (o : start_opts)
    (p : plan) (w : world) :
  plan_of cfg o (clock w) = Some p -> p_detach p = false ->
  sigint w = None -> history_ok w ->
  let t := clock w + Z.max 0 (dur_seconds p) in
  let e := JDict (dict_set (session_entry p (clock w)) "end_ts" (JInt t)) in
  exists mid,
    start host cfg o w
    = (Ok tt,
       (if p_log p
        then set_sessions_file (Some (Parsed (JList (e :: history w))))
        else fun w => w)
         (set_clock t
            (set_trace (trace w ++ begin_events host p ++ mid ++ finish_events p e) w)))
    /\ Forall is_tick mid /\ slept mid = Z.max 0 (dur_seconds p).
Proof.
  intros Hplan Hd Hs Hok. cbv zeta. rewrite (start_runs_plan host cfg o p w Hplan).
  exact (foreground_exact host p w Hd Hs Hok).
Qed.

Lemma foreground_session_event_by_event_witness :
  fst (start host0 config0 (opts0 "1" "firefox" false) world0) = Ok tt.
Proof.
  assert (Hp : plan_of config0 (opts0 "1" "firefox" false) (clock world0)
               = Some (resolve config0 (opts0 "1" "firefox" false) empty_template 60 1000))
    by (vm_compute; reflexivity).
  destruct (foreground_session_event_by_event host0 config0 (opts0 "1" "firefox" false)
              _ world0 Hp eq_refl eq_refl I) as [mid [Hrun _]].
  rewrite Hrun. reflexivity.
Defined.

(** X15: [--detach] on Windows, or when the monitor cannot be spawned,
    does not detach: the session runs in the foreground to its end as if
    [--detach] had not been given, except that the handoff file has been
    written and stays behind.  No marker is written. *)
Theorem detach_falls_back_to_foreground (host : env) (cfg : config) (o : start_opts)
    (p : plan) (w : world) :
  plan_of cfg o (clock w) = Some p -> p_detach p = true ->
  windows host = true \/ spawn_result host = None ->
  sigint w = None -> history_ok w ->
  let w' := snd (start host cfg o w) in
  let entry := session_entry p (clock w) in
  let t := clock w + Z.max 0 (dur_seconds p) in
  fst (start host cfg o w) = Ok tt
  /\ clock w' = t
  /\ history w'
     = (if p_log p then [JDict (dict_set entry "end_ts" (JInt t))] else []) ++ history w
  /\ Echo "Session completed." ∈ new_events w w'
  /\ pid_file w' = pid_file w
  /\ files w' = <[handoff_path host (clock w) := Parsed (JDict entry)]> (files w).
Proof.
  intros Hplan Hd Hno Hs Hok. cbv zeta. rewrite (start_runs_plan host cfg o p w Hplan).
  destruct (detach_fallback_exact host p w Hd Hno Hs Hok) as (evs & mid & Hrun & _).
  rewrite Hrun. cbn [fst snd]. clear Hrun.
  set (t := clock w + Z.max 0 (dur_seconds p)).
  set (e := JDict (dict_set (session_entry p (clock w)) "end_ts" (JInt t))).
  set (path := handoff_path host (clock w)).
  set (e0 := Parsed (JDict (session_entry p (clock w)))).
  set (wr := WriteEntry path (JDict (session_entry p (clock w)))).
  set (evs0 := begin_events host p).
  assert (Hfin := finish_events_completed p e).
  set (fin := finish_events p e) in *.
  clearbody evs0 wr e0 path fin e t.
  split; [reflexivity|].
  split; [destruct (p_log p), w; reflexivity|].
  split; [destruct (p_log p), w; reflexivity|].
  split; [|split; destruct (p_log p), w; reflexivity].
  assert (Hnew : new_events w
            ((if p_log p
              then set_sessions_file (Some (Parsed (JList (e :: history w))))
              else fun w0 => w0)
               (set_clock t
                  (set_files (<[path := e0]> (files w))
                     (set_trace (trace w ++ evs0 ++ (wr :: evs) ++ mid ++ fin) w))))
          = evs0 ++ (wr :: evs) ++ mid ++ fin).
  { apply new_events_app. destruct (p_log p), w; reflexivity. }
  rewrite Hnew, !elem_of_app. right. right. right. exact Hfin.
Qed.

Lemma detach_falls_back_to_foreground_witness :
  fst (start host_without_spawn config0 (opts0 "1" "" true) world0) = Ok tt
  /\ pid_file (snd (start windows_host config0 (opts0 "1" "" true) world0))
     = pid_file world0.
Proof.
  assert (Hp : plan_of config0 (opts0 "1" "" true) (clock world0)
               = Some (resolve config0 (opts0 "1" "" true) empty_template 60 1000))
    by (vm_compute; reflexivity).
  split.
  - exact (proj1 (detach_falls_back_to_foreground host_without_spawn config0
                    (opts0 "1" "" true) _ world0 Hp eq_refl (or_intror eq_refl) eq_refl I)).
  - exact (proj1 (proj2 (proj2 (proj2 (proj2
             (detach_falls_back_to_foreground windows_host config0
                (opts0 "1" "" true) _ world0 Hp eq_refl (or_introl eq_refl) eq_refl I)))))).
Defined.

(** X16: a detached session ends where [start --detach] left it.
    When [start] returns, at once, the marker holds the pid of the
    process it spawned and the handoff file holds the session record.
    That process is given the word [_monitor], under which click has
    registered no command (the monitor is registered as [-monitor]), so
    it changes nothing: the marker and the handoff file stay, and there
    is no end notification, no DND off and no finished record. *)
Theorem spawned_monitor_is_not_reached (host : env) (cfg : config) (o : start_opts)
    (p : plan) (pid : Z) (w : world) :
  plan_of cfg o (clock w) = Some p ->
  p_detach p = true -> windows host = false -> spawn_result host = Some pid ->
  history_ok w ->
  let w1 := snd (start host cfg o w) in
  let path := handoff_path host (clock w) in
  fst (start host cfg o w) = Ok tt
  /\ clock w1 = clock w
  /\ marker_pid w1 = Some pid
  /\ files w1 = <[path := Parsed (JDict (session_entry p (clock w)))]> (files w)
  /\ get_command "_monitor" = None
  /\ get_command (click_name "_monitor") = Some CmdMonitor
  /\ detached_session host cfg o p pid w = w1.
Proof.
  intros Hplan Hd Hw Hsp Hok. cbv zeta.
  unfold detached_session. rewrite spawned_process_is_not_reached. cbn [snd].
  rewrite (start_runs_plan host cfg o p w Hplan).
  rewrite (detached_start_exact host p pid w Hd Hw Hsp Hok). cbn [fst snd].
  split; [reflexivity|].
  split; [destruct (p_log p), w; reflexivity|].
  split.
  { unfold marker_pid.
    replace (pid_file _) with (Some (py_str pid)) by (destruct (p_log p), w; reflexivity).
    rewrite py_int_py_str. reflexivity. }
  split; [destruct (p_log p), w; reflexivity|].
  split; [vm_compute; reflexivity|].
  split; [vm_compute; reflexivity | reflexivity].
Qed.

Lemma spawned_monitor_is_not_reached_witness :
  marker_pid (snd (start host0 config0 (opts0 "1" "" true) world0)) = Some 4242
  /\ detached_session host0 config0 (opts0 "1" "" true)
       (resolve config0 (opts0 "1" "" true) empty_template 60 1000) 4242 world0
     = snd (start host0 config0 (opts0 "1" "" true) world0).
Proof.
  assert (Hp : plan_of config0 (opts0 "1" "" true) (clock world0)
               = Some (resolve config0 (opts0 "1" "" true) empty_template 60 1000))
    by (vm_compute; reflexivity).
  pose proof (spawned_monitor_is_not_reached host0 config0 (opts0 "1" "" true) _ 4242 world0
                Hp eq_refl eq_refl eq_refl I) as (_ & _ & H3 & _ & _ & _ & H7).
  split; [exact H3 | exact H7].
Defined.

(** X17: the monitor is told neither [--no-log] nor [--no-notify]: the
    session record in the handoff file does not hold them.  Whenever
    it completes on the handoff record of a session, whatever the flags
    of that session, it sends the end notification and puts a finished
    record in front of the history. *)
Theorem monitor_ignores_log_and_notify_flags (host : env) (p : plan)
    (start_ts self : Z) (entry_file : string) (w : world) :
  files w !! entry_file = Some (Parsed (JDict (session_entry p start_ts))) ->
  0 <= dur_seconds p -> sigint w = None -> history_ok w ->
  let w' := snd (monitor host self (dur_seconds p) entry_file w) in
  fst (monitor host self (dur_seconds p) entry_file w) = Ok tt
  /\ history w'
     = JDict (dict_set (session_entry p start_ts) "end_ts"
                (JInt (clock w + dur_seconds p)))
       :: history w
  /\ Notify "DayRun" "Detached session finished" ∈ new_events w w'.
Proof.
  intros Hf Hdur Hk Hok. cbv zeta.
  assert (He : monitor_entry w entry_file = JDict (session_entry p start_ts))
    by (unfold monitor_entry; rewrite Hf; reflexivity).
  rewrite (monitor_runs host self (dur_seconds p) entry_file _ w He Hdur Hk Hok).
  cbn [fst snd]. split; [reflexivity | split; [destruct w; reflexivity|]].
  set (evs := monitor_events _ _ _ _ _).
  assert (Hin : Notify "DayRun" "Detached session finished" ∈ evs).
  { unfold evs, monitor_events. rewrite !elem_of_app. left.
    rewrite !elem_of_cons. right. right. right. left. reflexivity. }
  clearbody evs.
  match goal with
  | |- _ ∈ new_events w ?w2 => replace (new_events w w2) with evs; [exact Hin|]
  end.
  symmetry. apply new_events_app. destruct w; reflexivity.
Qed.

Lemma monitor_ignores_log_and_notify_flags_witness :
  let o := detach_opts "1" false false in
  let p := resolve config0 o empty_template 60 1000 in
  let w := world_with_file "h.json" (Parsed (JDict (session_entry p 1000))) in
  p_log p = false /\ p_notify p = false
  /\ history (snd (monitor host0 5000 (dur_seconds p) "h.json" w))
     = JDict (dict_set (session_entry p 1000) "end_ts" (JInt (clock w + dur_seconds p)))
       :: history w.
Proof.
  intros o p w.
  assert (Hf : files w !! "h.json" = Some (Parsed (JDict (session_entry p 1000))))
    by (vm_compute; reflexivity).
  assert (Hdur : 0 <= dur_seconds p) by (vm_compute; discriminate).
  split; [reflexivity | split; [reflexivity|]].
  exact (proj1 (proj2 (monitor_ignores_log_and_notify_flags host0 p 1000 5000 "h.json" w
                         Hf Hdur eq_refl I))).
Defined.

(** X18: a session that ran to its end switches DND off exactly when it
    had DND on, whether switching it on had worked or not: a foreground
    session does so at its end, and the monitor, when it completes on
    the handoff record of a session, reads the mode from that record. *)
Theorem dnd_is_switched_off_iff_on (host : env) (cfg : config) (o : start_opts)
    (p : plan) (w : world) :
  plan_of cfg o (clock w) = Some p -> sigint w = None -> history_ok w ->
  (p_detach p = false ->
   SetDnd false ∈ new_events w (snd (start host cfg o w)) <-> dnd_mode p = true)
  /\ (forall (start_ts self : Z) (entry_file : string) (w1 : world),
      files w1 !! entry_file = Some (Parsed (JDict (session_entry p start_ts))) ->
      0 <= dur_seconds p -> sigint w1 = None -> history_ok w1 ->
      SetDnd false
        ∈ new_events w1 (snd (monitor host self (dur_seconds p) entry_file w1))
      <-> dnd_mode p = true).
Proof.
  intros Hplan Hk Hok. split.
  - intros Hd. rewrite (start_runs_plan host cfg o p w Hplan).
    destruct (foreground_exact host p w Hd Hk Hok) as (mid & Hrun & Hmid & _).
    rewrite Hrun. cbn [snd]. clear Hrun.
    set (e := JDict _).
    assert (Hnew : forall evs t,
              new_events w
                ((if p_log p
                  then set_sessions_file (Some (Parsed (JList (e :: history w))))
                  else fun w0 => w0) (set_clock t (set_trace (trace w ++ evs) w)))
              = evs).
    { intros evs t. apply new_events_app. destruct (p_log p), w; reflexivity. }
    rewrite Hnew, !elem_of_app, finish_events_dnd_off.
    pose proof (begin_events_no_dnd_off host p). pose proof (ticks_no_dnd mid false Hmid).
    tauto.
  - intros start_ts self entry_file w1 Hf Hdur Hk1 Hok1.
    assert (He : monitor_entry w1 entry_file = JDict (session_entry p start_ts))
      by (unfold monitor_entry; rewrite Hf; reflexivity).
    rewrite (monitor_runs host self (dur_seconds p) entry_file _ w1 He Hdur Hk1 Hok1).
    cbn [snd].
    set (evs := monitor_events _ _ _ _ _).
    assert (Hin : SetDnd false ∈ evs <-> dnd_mode p = true).
    { unfold evs, monitor_events. rewrite !elem_of_app.
      change (truthy (dict_get (session_entry p start_ts) "dnd")) with (dnd_mode p).
      destruct (dnd_mode p); rewrite ?elem_of_cons, ?elem_of_nil; intuition congruence. }
    clearbody evs.
    match goal with
    | |- _ ∈ new_events w1 ?w2 <-> _ => replace (new_events w1 w2) with evs; [exact Hin|]
    end.
    symmetry. apply new_events_app. destruct w1; reflexivity.
Qed.

Lemma dnd_is_switched_off_iff_on_witness :
  let o := opts0 "1" "" false in
  SetDnd false ∈ new_events world0 (snd (start host0 config0 o world0))
  <-> dnd_mode (resolve config0 o empty_template 60 1000) = true.
Proof.
  intros o.
  assert (Hp : plan_of config0 o (clock world0)
               = Some (resolve config0 o empty_template 60 1000))
    by (vm_compute; reflexivity).
  exact (proj1 (dnd_is_switched_off_iff_on host0 config0 o _ world0 Hp eq_refl I) eq_refl).
Defined.

(** X19: [stop] after [start --detach]: it signals the process that
    [start] spawned and clears the marker, whether that process is still
    alive or not.  The handoff file stays behind, and the history gets
    no finished record. *)
Theorem stop_after_detach (host : env) (cfg : config) (o : start_opts)
    (p : plan) (pid : Z) (w : world) :
  plan_of cfg o (clock w) = Some p ->
  p_detach p = true -> windows host = false -> spawn_result host = Some pid ->
  pid <> 0 -> history_ok w ->
  let w1 := snd (start host cfg o w) in
  let w2 := snd (stop host w1) in
  fst (stop host w1) = Ok tt
  /\ Kill pid SIGTERM ∈ new_events w1 w2
  /\ pid_file w2 = None
  /\ files w2 !! handoff_path host (clock w)
     = Some (Parsed (JDict (session_entry p (clock w))))
  /\ sessions_file w2 = sessions_file w1.
Proof.
  intros Hplan Hd Hw Hsp Hpid Hok. cbv zeta.
  rewrite (start_runs_plan host cfg o p w Hplan).
  rewrite (detached_start_exact host p pid w Hd Hw Hsp Hok). cbn [snd].
  set (w1 := (if p_log p then _ else _) _).
  assert (Hm : marker_pid w1 = Some pid).
  { unfold marker_pid.
    replace (pid_file w1) with (Some (py_str pid))
      by (unfold w1; destruct (p_log p), w; reflexivity).
    rewrite py_int_py_str. reflexivity. }
  assert (Hf : files w1 !! handoff_path host (clock w)
               = Some (Parsed (JDict (session_entry p (clock w))))).
  { replace (files w1)
      with (<[handoff_path host (clock w) := Parsed (JDict (session_entry p (clock w)))]>
              (files w))
      by (unfold w1; destruct (p_log p), w; reflexivity).
    apply lookup_insert_eq. }
  clearbody w1. apply Z.eqb_neq in Hpid.
  rewrite stop_runs, Hm. cbn [not_pid default]. rewrite Hpid. cbn [fst snd].
  split; [reflexivity|].
  split.
  { match goal with
    | |- _ ∈ new_events w1 (set_pid_file None (set_trace (trace w1 ++ ?l) w1)) =>
        replace (new_events w1 (set_pid_file None (set_trace (trace w1 ++ l) w1))) with l
          by (symmetry; apply new_events_app; destruct w1; reflexivity)
    end.
    left. }
  split; [destruct w1; reflexivity|].
  split; [destruct w1; exact Hf | destruct w1; reflexivity].
Qed.

Lemma stop_after_detach_witness :
  let w1 := snd (start host0 config0 (opts0 "1" "" true) world0) in
  fst (stop host0 w1) = Ok tt /\ pid_file (snd (stop host0 w1)) = None.
Proof.
  intros w1.
  assert (Hp : plan_of config0 (opts0 "1" "" true) (clock world0)
               = Some (resolve config0 (opts0 "1" "" true) empty_template 60 1000))
    by (vm_compute; reflexivity).
  assert (Hne : 4242 <> 0) by discriminate.
  pose proof (stop_after_detach host0 config0 (opts0 "1" "" true) _ 4242 world0
                Hp eq_refl eq_refl eq_refl Hne I) as (H1 & _ & H3 & _).
  split; [exact H1 | exact H3].
Defined.

(** X20: [start --detach] with logging on and a history file that holds
    JSON other than a list: the monitor has been spawned and the marker
    holds its pid, yet the failed history write is reported as a failure
    to start the monitor, and the session then runs in the foreground as
    well, for its whole duration, until the second history write fails
    with [AttributeError].  The history file stays as it was. *)
Theorem detach_with_foreign_history (host : env) (cfg : config) (o : start_opts)
    (p : plan) (pid : Z) (w : world) :
  plan_of cfg o (clock w) = Some p ->
  p_detach p = true -> windows host = false -> spawn_result host = Some pid ->
  p_log p = true -> ~ history_ok w -> sigint w = None ->
  let w' := snd (start host cfg o w) in
  fst (start host cfg o w) = Raise AttributeError
  /\ marker_pid w' = Some pid
  /\ (exists args, Spawn args ∈ new_events w w')
  /\ (exists msg, Echo ("Failed to start detached monitor: " +:+ msg) ∈ new_events w w')
  /\ clock w' = clock w + Z.max 0 (dur_seconds p)
  /\ sessions_file w' = sessions_file w.
Proof.
  intros Hplan Hd Hw Hsp Hlog Hbad Hk. cbv zeta.
  rewrite (start_runs_plan host cfg o p w Hplan).
  destruct (detach_foreign_history_exact host p pid w Hd Hw Hsp Hlog Hbad Hk)
    as (mid & Hrun & _).
  rewrite Hrun. cbn [fst snd]. clear Hrun.
  match goal with
  | |- context [set_trace (trace w ++ ?l) w] =>
      set (evs := l);
      assert (Hnew : forall t pf fs,
                new_events w (set_clock t (set_pid_file pf (set_files fs
                                (set_trace (trace w ++ evs) w)))) = evs)
        by (intros; apply new_events_app; destruct w; reflexivity)
  end.
  rewrite Hnew.
  split; [reflexivity|].
  split.
  { unfold marker_pid.
    replace (pid_file _) with (Some (py_str pid)) by (destruct w; reflexivity).
    rewrite py_int_py_str. reflexivity. }
  split.
  { eexists. unfold evs. rewrite !elem_of_app. right. left.
    rewrite !elem_of_cons. right. left. reflexivity. }
  split.
  { exists (exn_str host AttributeError). unfold evs. rewrite !elem_of_app. right. left.
    rewrite !elem_of_cons. do 5 right. left. reflexivity. }
  split; destruct w; reflexivity.
Qed.

Lemma detach_with_foreign_history_witness :
  let o := opts0 "1" "" true in
  fst (start host0 config0 o foreign_history_world) = Raise AttributeError
  /\ marker_pid (snd (start host0 config0 o foreign_history_world)) = Some 4242.
Proof.
  intros o.
  assert (Hp : plan_of config0 o (clock foreign_history_world)
               = Some (resolve config0 o empty_template 60 1000))
    by (vm_compute; reflexivity).
  assert (Hbad : ~ history_ok foreign_history_world) by (intros H; exact H).
  pose proof (detach_with_foreign_history host0 config0 o _ 4242 foreign_history_world
                Hp eq_refl eq_refl eq_refl eq_refl Hbad eq_refl) as (H1 & H2 & _).
  split; [exact H1 | exact H2].
Defined.

(** X21: a handoff file that holds JSON other than an object makes the
    monitor fail, but late: it sleeps for the whole duration and sends
    the end notification first, then raises [AttributeError] without
    switching DND off or touching the history; the handoff file and the
    marker are removed all the same. *)
Theorem monitor_of_a_foreign_handoff (host : env) (self seconds : Z)
    (entry_file : string) (j : json) (w : world) :
  files w !! entry_file = Some (Parsed j) -> (forall d, j <> JDict d) ->
  0 <= seconds -> sigint w = None ->
  monitor host self seconds entry_file w
  = (Raise AttributeError,
     set_pid_file None
       (set_files (delete entry_file (files w))
          (set_clock (clock w + seconds)
             (set_trace (trace w ++ [ReadEntry entry_file; WritePid self; Sleep seconds;
                                     Notify "DayRun" "Detached session finished";
                                     UnlinkEntry entry_file; ClearPid]) w)))).
Proof. apply monitor_foreign_entry. Qed.

Lemma monitor_of_a_foreign_handoff_witness :
  monitor host0 4242 60 "h.json" (world_with_file "h.json" (Parsed (JList [])))
  = (Raise AttributeError,
     set_pid_file None
       (set_files (delete "h.json" (files (world_with_file "h.json" (Parsed (JList [])))))
          (set_clock (clock (world_with_file "h.json" (Parsed (JList []))) + 60)
             (set_trace (trace (world_with_file "h.json" (Parsed (JList [])))
                         ++ [ReadEntry "h.json"; WritePid 4242; Sleep 60;
                             Notify "DayRun" "Detached session finished";
                             UnlinkEntry "h.json"; ClearPid])
                (world_with_file "h.json" (Parsed (JList []))))))).
Proof.
  assert (Hf : files (world_with_file "h.json" (Parsed (JList []))) !! "h.json"
               = Some (Parsed (JList []))) by (vm_compute; reflexivity).
  assert (Hj : forall d, JList [] <> JDict d) by (intros d H; discriminate H).
  assert (Hs : 0 <= 60) by lia.
  exact (monitor_of_a_foreign_handoff host0 4242 60 "h.json" (JList [])
           (world_with_file "h.json" (Parsed (JList []))) Hf Hj Hs eq_refl).
Defined.

(** X22: a handoff file that is missing or cannot be parsed does not
    stop the monitor: it works on an empty record, so after the sleep
    and the end notification it leaves DND alone and puts a record that
    holds [end_ts] only in front of the history; then it clears the
    marker. *)
Theorem monitor_without_handoff (host : env) (self seconds : Z) (entry_file : string)
    (w : world) :
  files w !! entry_file = None \/ files w !! entry_file = Some Unparsable ->
  0 <= seconds -> sigint w = None -> history_ok w ->
  let w' := snd (monitor host self seconds entry_file w) in
  fst (monitor host self seconds entry_file w) = Ok tt
  /\ history w' = JDict [("end_ts", JInt (clock w + seconds))] :: history w
  /\ new_events w w'
     = [ReadEntry entry_file; WritePid self; Sleep seconds;
        Notify "DayRun" "Detached session finished";
        SaveSession (JDict [("end_ts", JInt (clock w + seconds))]);
        UnlinkEntry entry_file; ClearPid]
  /\ pid_file w' = None.
Proof.
  intros Hf Hs Hk Hok. cbv zeta.
  assert (He : monitor_entry w entry_file = JDict []).
  { unfold monitor_entry. destruct Hf as [-> | ->]; reflexivity. }
  rewrite (monitor_runs host self seconds entry_file [] w He Hs Hk Hok). cbn [fst snd].
  split; [reflexivity|].
  split; [destruct w; reflexivity|].
  split; [|destruct w; reflexivity].
  apply new_events_app. destruct w; reflexivity.
Qed.

Lemma monitor_without_handoff_witness :
  fst (monitor host0 4242 60 "h.json" world0) = Ok tt
  /\ history (snd (monitor host0 4242 60 "h.json" world0))
     = JDict [("end_ts", JInt (clock world0 + 60))] :: history world0.
Proof.
  assert (Hf : files world0 !! "h.json" = None
               \/ files world0 !! "h.json" = Some Unparsable)
    by (left; vm_compute; reflexivity).
  assert (Hs : 0 <= 60) by lia.
  pose proof (monitor_without_handoff host0 4242 60 "h.json" world0 Hf Hs eq_refl I)
    as (H1 & H2 & _).
  split; [exact H1 | exact H2].
Defined.

(** ** Comma-separated options *)

Module ItemFacts.

Lemma append_nil_l (s : string) : "" +:+ s = s.
Proof. reflexivity. Qed.

Lemma append_cons (c : ascii) (s r : string) : String c s +:+ r = String c (s +:+ r).
Proof. reflexivity. Qed.

Lemma append_nil_r (s : string) : s +:+ "" = s.
Proof. induction s as [|c s IH]; [reflexivity|]. rewrite append_cons, IH. reflexivity. Qed.

Lemma split_comma_cons (c : ascii) (r : string) :
  split_comma (String c r)
  = if Ascii.eqb c "," then EmptyString :: split_comma r
    else match split_comma r with
         | [] => [String c EmptyString]
         | x :: xs => String c x :: xs
         end.
Proof. reflexivity. Qed.

Lemma split_comma_not_nil (s : string) : split_comma s <> [].
Proof.
  destruct s as [|c r]; [discriminate|]. rewrite split_comma_cons.
  destruct (Ascii.eqb c ","); [discriminate|]. destruct (split_comma r); discriminate.
Qed.

Lemma comma_free_cons (c : ascii) (s : string) :
  comma_free (String c s) = negb (Ascii.eqb c ",") && comma_free s.
Proof. reflexivity. Qed.

(** The pieces of [s.split(",")] hold no comma. *)
Lemma split_comma_comma_free (s : string) :
  List.Forall (fun x => comma_free x = true) (split_comma s).
Proof.
  induction s as [|c r IH]; [repeat constructor|].
  rewrite split_comma_cons. destruct (Ascii.eqb c ",") eqn:E.
  - constructor; [reflexivity | exact IH].
  - destruct (split_comma r) as [|x xs] eqn:Er; [exfalso; exact (split_comma_not_nil r Er)|].
    inversion IH as [|? ? Hx Hxs]; subst.
    constructor; [|exact Hxs]. rewrite comma_free_cons, E, Hx. reflexivity.
Qed.

Lemma comma_free_strip (x : string) : comma_free x = true -> comma_free (strip x) = true.
Proof.
  unfold comma_free, strip, strip_with. rewrite chars_of_chars. intros H.
  apply forallb_rev, forallb_drop_while, forallb_rev, forallb_drop_while, H.
Qed.

(** A piece without comma in front of a string joins the first piece
    of that string. *)
Lemma split_comma_app (x r : string) :
  comma_free x = true ->
  split_comma (x +:+ r)
  = match split_comma r with
    | [] => [x]
    | y :: ys => (x +:+ y) :: ys
    end.
Proof.
  induction x as [|c x IH]; intros Hx.
  - rewrite append_nil_l. destruct (split_comma r) eqn:E; [|reflexivity].
    exfalso. exact (split_comma_not_nil r E).
  - rewrite comma_free_cons in Hx. apply andb_prop in Hx as [Hc Hx].
    apply negb_true_iff in Hc.
    rewrite append_cons, split_comma_cons, Hc, (IH Hx).
    destruct (split_comma r) as [|y ys] eqn:Er; [|reflexivity].
    exfalso. exact (split_comma_not_nil r Er).
Qed.

Lemma concat_cons2 (x y : string) (l : list string) :
  String.concat "," (x :: y :: l) = x +:+ String "," (String.concat "," (y :: l)).
Proof. reflexivity. Qed.

(** [",".join(items).split(",")] gives the items back. *)
Lemma split_comma_concat (items : list string) :
  items <> [] -> List.Forall (fun x => comma_free x = true) items ->
  split_comma (String.concat "," items) = items.
Proof.
  induction items as [|x l IH]; intros Hne Hall; [contradiction|].
  inversion Hall as [|? ? Hx Hl]; subst.
  destruct l as [|y l].
  - change (String.concat "," [x]) with x.
    rewrite <- (append_nil_r x) at 1. rewrite (split_comma_app x "" Hx).
    cbn [split_comma]. rewrite append_nil_r. reflexivity.
  - rewrite concat_cons2, (split_comma_app x _ Hx), split_comma_cons.
    change (Ascii.eqb "," ",") with true. cbv iota.
    rewrite (IH ltac:(discriminate) Hl), append_nil_r. reflexivity.
Qed.

Lemma stripped_items_clean (s : string) : List.Forall clean_item (stripped_items s).
Proof.
  unfold stripped_items. apply List.Forall_forall. intros x Hin.
  apply filter_In in Hin as [Hin Hne]. apply in_map_iff in Hin as [y [<- Hy]].
  pose proof (split_comma_comma_free s) as Hfree.
  rewrite List.Forall_forall in Hfree.
  split; [|split].
  - intros E. rewrite E in Hne. discriminate Hne.
  - apply comma_free_strip, Hfree, Hy.
  - apply strip_idem.
Qed.

Lemma stripped_items_concat (items : list string) :
  List.Forall clean_item items -> stripped_items (String.concat "," items) = items.
Proof.
  intros Hall. destruct items as [|x l]; [reflexivity|].
  unfold stripped_items. rewrite split_comma_concat; [|discriminate|].
  - induction Hall as [|y l' [Hne [_ Hs]] _ IH]; [reflexivity|].
    cbn [map List.filter]. rewrite Hs.
    destruct (String.eqb y "") eqn:E; [apply String.eqb_eq in E; contradiction|].
    cbn [negb]. f_equal. exact IH.
  - eapply List.Forall_impl; [|exact Hall]. intros y [_ [Hy _]]. exact Hy.
Qed.

End ItemFacts.

(** X23: the items read from a comma-separated option ([--apps] of
    [start], [--apps] and [--cmds] of [templates add]) are never empty,
    hold no comma and have no white space at either end; and a list of
    strings comes back unchanged from being joined by commas and read as
    such an option exactly when all its strings are of that kind. *)
Theorem comma_separated_items :
  (forall s, List.Forall clean_item (stripped_items s))
  /\ (forall items,
        stripped_items (String.concat "," items) = items
        <-> List.Forall clean_item items).
Proof.
  split; [exact ItemFacts.stripped_items_clean|].
  intros items. split.
  - intros H. rewrite <- H. apply ItemFacts.stripped_items_clean.
  - apply ItemFacts.stripped_items_concat.
Qed.

(** ** Templates *)

Module TemplateFacts.

Lemma assoc_templates_set (temps : list (string * template)) (name : string)
    (entry : template) :
  assoc (templates_set temps name entry) name = Some entry.
Proof.
  induction temps as [|[k v] r IH]; cbn [templates_set assoc].
  - rewrite String.eqb_refl. reflexivity.
  - destruct (String.eqb k name) eqn:E; cbn [assoc]; rewrite E; [reflexivity | exact IH].
Qed.

Lemma assoc_templates_set_other (temps : list (string * template)) (name n : string)
    (entry : template) :
  n <> name -> assoc (templates_set temps name entry) n = assoc temps n.
Proof.
  intros Hn. induction temps as [|[k v] r IH]; cbn [templates_set assoc].
  - destruct (String.eqb name n) eqn:E; [|reflexivity].
    apply String.eqb_eq in E. congruence.
  - destruct (String.eqb k name) eqn:E; cbn [assoc].
    + apply String.eqb_eq in E. subst k.
      destruct (String.eqb name n) eqn:E'; [|reflexivity].
      apply String.eqb_eq in E'. congruence.
    + destruct (String.eqb k n); [reflexivity | exact IH].
Qed.

Lemma assoc_templates_del (temps : list (string * template)) (name : string) :
  assoc (templates_del temps name) name = None.
Proof.
  unfold templates_del. induction temps as [|[k v] r IH]; [reflexivity|].
  cbn [List.filter fst]. destruct (String.eqb k name) eqn:E; cbn [negb assoc];
    [exact IH | rewrite E; exact IH].
Qed.

Lemma assoc_templates_del_other (temps : list (string * template)) (name n : string) :
  n <> name -> assoc (templates_del temps name) n = assoc temps n.
Proof.
  intros Hn. unfold templates_del. induction temps as [|[k v] r IH]; [reflexivity|].
  cbn [List.filter fst]. destruct (String.eqb k name) eqn:E; cbn [negb assoc].
  - apply String.eqb_eq in E. subst k.
    destruct (String.eqb name n) eqn:E'; [|exact IH].
    apply String.eqb_eq in E'. congruence.
  - destruct (String.eqb k n); [reflexivity | exact IH].
Qed.

Lemma new_template_truthy (a : add_opts) : template_truthy (new_template a) = true.
Proof.
  unfold new_template, template_truthy.
  destruct (nonempty (a_duration a)), (a_dnd a); reflexivity.
Qed.

Lemma nonempty_name (name : string) : name <> "" -> nonempty (Some name) = Some name.
Proof.
  intros Hn. cbn [nonempty]. destruct (String.eqb name "") eqn:E; [|reflexivity].
  apply String.eqb_eq in E. contradiction.
Qed.

(** What [start --template name] reads from the configuration that
    [templates add] saved. *)
Lemma added_template_data (confirm : bool) (cfg cfg' : config) (a : add_opts)
    (line : string) (o : start_opts) :
  templates_add confirm cfg a = (Some cfg', line) ->
  o_template o = Some (a_name a) -> a_name a <> "" ->
  template_not_found cfg' o = false /\ template_data_of cfg' o = new_template a.
Proof.
  unfold templates_add. destruct (has_template _ _ && negb confirm); [discriminate|].
  intros [= <- _] Ho Hn.
  assert (Hdata : template_data_of
                    (mkConfig (default_duration cfg) (dnd_on_start cfg)
                       (templates_set (templates cfg) (a_name a) (new_template a))) o
                  = new_template a).
  { unfold template_data_of. rewrite Ho, (nonempty_name _ Hn). cbn [templates].
    rewrite assoc_templates_set. reflexivity. }
  split; [|exact Hdata].
  unfold template_not_found. rewrite Hdata, Ho, (nonempty_name _ Hn), new_template_truthy.
  reflexivity.
Qed.

End TemplateFacts.

Lemma begin_events_no_tmux (host : env) (p : plan) (n : string) (panes : list pane) :
  tmux_panes_list p = [] -> CreateTmux n panes ∉ begin_events host p.
Proof.
  intros Hpanes.
  assert (Hkinds : Forall (fun e => e <> CreateTmux n panes) (begin_events host p)).
  { unfold begin_events. rewrite Hpanes, andb_false_r. repeat apply Forall_app_2.
    - repeat constructor; discriminate.
    - destruct (dnd_mode p); [destruct (dnd_result host true)|];
        repeat constructor; discriminate.
    - induction (apps_list p) as [|x l IH]; [constructor|].
      cbn [flat_map]. apply Forall_app_2; [|exact IH].
      destruct (open_result host x); repeat constructor; discriminate.
    - induction (cmds_list p) as [|c l IH]; constructor; [discriminate | exact IH].
    - destruct (p_music p); repeat constructor; discriminate.
    - destruct (p_notify p); repeat constructor; discriminate. }
  intros Hin. rewrite Forall_forall in Hkinds. exact (Hkinds _ Hin eq_refl).
Qed.

(** X24: a template saved by [templates add] is found by [start
    --template] under its name: [start] reads back the entry that was
    built, takes the duration from the command line first, then from the
    template, then from the configuration's default, and the other
    templates are as they were.  This is about the configuration handed
    to [save_config], read back as written. *)
Theorem added_template_is_found (confirm : bool) (cfg cfg' : config) (a : add_opts)
    (line : string) (o : start_opts) :
  templates_add confirm cfg a = (Some cfg', line) ->
  o_template o = Some (a_name a) -> a_name a <> "" ->
  template_not_found cfg' o = false
  /\ template_data_of cfg' o = new_template a
  /\ dur_str_of cfg' o
     = default (default (default_duration cfg) (nonempty (a_duration a)))
               (nonempty (o_duration o))
  /\ (forall n, n <> a_name a -> assoc (templates cfg') n = assoc (templates cfg) n).
Proof.
  intros Hadd Ho Hn.
  destruct (TemplateFacts.added_template_data confirm cfg cfg' a line o Hadd Ho Hn)
    as [Hfound Hdata].
  split; [exact Hfound | split; [exact Hdata | split]].
  - unfold dur_str_of. rewrite Hdata. unfold templates_add in Hadd.
    destruct (has_template _ _ && negb confirm); [discriminate|].
    injection Hadd as <- _. cbn [default_duration new_template t_duration].
    destruct (nonempty (a_duration a)) as [d|] eqn:E; [|reflexivity].
    assert (Hd : nonempty (Some d) = Some d).
    { unfold nonempty in E |- *. destruct (a_duration a) as [d'|]; [|discriminate].
      destruct (String.eqb d' "") eqn:E'; [discriminate|].
      injection E as <-. rewrite E'. reflexivity. }
    rewrite Hd. reflexivity.
  - intros n Hne. unfold templates_add in Hadd.
    destruct (has_template _ _ && negb confirm); [discriminate|].
    injection Hadd as <- _. cbn [templates].
    apply TemplateFacts.assoc_templates_set_other, Hne.
Qed.

Lemma added_template_is_found_witness :
  template_data_of
    (mkConfig "25m" true (templates_set [] "deep" (new_template add0)))
    (template_opts "deep")
  = new_template add0.
Proof.
  assert (Hne : a_name add0 <> "") by discriminate.
  exact (proj1 (proj2 (added_template_is_found true config0
                         (mkConfig "25m" true (templates_set [] "deep" (new_template add0)))
                         add0 "Saved template 'deep'." (template_opts "deep")
                         eq_refl eq_refl Hne))).
Defined.

(** X25: [templates remove] and [start]: when the name is there, the
    configuration is saved without it, [start --template] with that name
    then prints that the template is not found and does nothing else,
    and the other templates are as they were; when the name is not
    there, nothing is saved. *)
Theorem removed_template_is_not_found (host : env) (cfg : config) (name : string)
    (o : start_opts) (w : world) :
  o_template o = Some name -> name <> "" ->
  match templates_remove cfg name with
  | (Some cfg', line) =>
      has_template (templates cfg) name = true
      /\ start host cfg' o w
         = (Ok tt, set_trace (trace w ++ [Echo ("Template '" +:+ name +:+ "' not found.")]) w)
      /\ (forall n, n <> name -> assoc (templates cfg') n = assoc (templates cfg) n)
  | (None, line) =>
      has_template (templates cfg) name = false /\ line = "Template not found."
  end.
Proof.
  intros Ho Hn. unfold templates_remove.
  destruct (has_template (templates cfg) name) eqn:E; [|split; reflexivity].
  split; [reflexivity | split].
  - assert (Hnf : template_not_found
                    (mkConfig (default_duration cfg) (dnd_on_start cfg)
                       (templates_del (templates cfg) name)) o = true).
    { unfold template_not_found, template_data_of.
      rewrite Ho, (TemplateFacts.nonempty_name _ Hn). cbn [templates].
      rewrite TemplateFacts.assoc_templates_del. reflexivity. }
    unfold start. rewrite Hnf, Ho. reflexivity.
  - intros n Hne. cbn [templates]. apply TemplateFacts.assoc_templates_del_other, Hne.
Qed.

Lemma removed_template_is_not_found_witness :
  match templates_remove
          (mkConfig "25m" true (templates_set [] "deep" (new_template add0))) "deep" with
  | (Some cfg', line) =>
      has_template
        (templates (mkConfig "25m" true (templates_set [] "deep" (new_template add0))))
        "deep" = true
      /\ start host0 cfg' (template_opts "deep") world0
         = (Ok tt, set_trace (trace world0
                              ++ [Echo ("Template '" +:+ "deep" +:+ "' not found.")]) world0)
      /\ (forall n, n <> "deep" ->
            assoc (templates cfg') n
            = assoc (templates (mkConfig "25m" true
                                  (templates_set [] "deep" (new_template add0)))) n)
  | (None, line) =>
      has_template
        (templates (mkConfig "25m" true (templates_set [] "deep" (new_template add0))))
        "deep" = false
      /\ line = "Template not found."
  end.
Proof.
  assert (Hne : "deep" <> "") by discriminate.
  exact (removed_template_is_not_found host0
           (mkConfig "25m" true (templates_set [] "deep" (new_template add0))) "deep"
           (template_opts "deep") world0 eq_refl Hne).
Defined.

(** X26: a template made by [templates add] has no tmux panes, so a
    session started from it never creates a tmux session, with [--tmux]
    or without: it opens the template's apps and then those of the
    command line, and runs the command line's commands and then the
    template's in the background. *)
Theorem added_template_never_uses_tmux (host : env) (confirm : bool)
    (cfg cfg' : config) (a : add_opts) (line : string) (o : start_opts) (p : plan)
    (w : world) :
  templates_add confirm cfg a = (Some cfg', line) ->
  o_template o = Some (a_name a) -> a_name a <> "" ->
  plan_of cfg' o (clock w) = Some p ->
  let evs := new_events w (snd (begin host p w)) in
  (forall n panes, CreateTmux n panes ∉ evs)
  /\ opened_items evs
     = (if String.eqb (a_apps a) "" then [] else stripped_items (a_apps a))
       ++ (if String.eqb (o_apps o) "" then [] else stripped_items (o_apps o))
  /\ background_commands evs
     = o_cmds o ++ (if String.eqb (a_cmds a) "" then [] else stripped_items (a_cmds a)).
Proof.
  intros Hadd Ho Hn Hplan. cbv zeta.
  destruct (TemplateFacts.added_template_data confirm cfg cfg' a line o Hadd Ho Hn)
    as [Hfound Hdata].
  unfold plan_of in Hplan. rewrite Hfound, Hdata in Hplan.
  destruct (parse_duration (dur_str_of cfg' o)) as [d|]; [|discriminate].
  injection Hplan as <-.
  set (p := resolve cfg' o (new_template a) d (clock w)).
  assert (Hpanes : tmux_panes_list p = []).
  { unfold p, resolve. cbn [new_template t_tmux tmux_panes tmux_truthy].
    destruct (o_tmux o); reflexivity. }
  assert (Happs : apps_list p
                  = (if String.eqb (a_apps a) "" then [] else stripped_items (a_apps a))
                    ++ (if String.eqb (o_apps o) "" then [] else stripped_items (o_apps o))).
  { unfold p, resolve. cbn [new_template t_tmux t_apps tmux_panes tmux_truthy].
    destruct (o_tmux o); cbn [andb apps_list];
      destruct (if String.eqb (a_apps a) "" then [] else stripped_items (a_apps a));
      reflexivity. }
  assert (Hcmds : cmds_list p
                  = o_cmds o
                    ++ (if String.eqb (a_cmds a) "" then [] else stripped_items (a_cmds a))).
  { unfold p, resolve. cbn [new_template t_tmux t_cmds tmux_panes tmux_truthy].
    destruct (o_tmux o); cbn [andb cmds_list];
      destruct (if String.eqb (a_cmds a) "" then [] else stripped_items (a_cmds a));
      reflexivity. }
  assert (Hmusic : p_music p = None).
  { unfold p, resolve. cbn [new_template t_tmux t_music tmux_panes tmux_truthy nonempty].
    destruct (o_tmux o); reflexivity. }
  clearbody p. rewrite new_events_begin.
  split; [|split].
  - intros n panes. apply begin_events_no_tmux, Hpanes.
  - rewrite opened_items_begin_events, Hmusic, Happs, app_nil_r. reflexivity.
  - rewrite background_commands_begin_events, Hpanes, andb_false_r. exact Hcmds.
Qed.

Lemma added_template_never_uses_tmux_witness :
  background_commands
    (new_events world0
       (snd (begin host0
               (resolve (mkConfig "25m" true (templates_set [] "deep" (new_template add0)))
                  (template_opts "deep") (new_template add0) 3000 1000)
               world0)))
  = o_cmds (template_opts "deep")
    ++ (if String.eqb (a_cmds add0) "" then [] else stripped_items (a_cmds add0)).
Proof.
  assert (Hne : a_name add0 <> "") by discriminate.
  assert (Hp : plan_of (mkConfig "25m" true (templates_set [] "deep" (new_template add0)))
                 (template_opts "deep") (clock world0)
               = Some (resolve (mkConfig "25m" true
                                  (templates_set [] "deep" (new_template add0)))
                         (template_opts "deep") (new_template add0) 3000 1000))
    by (vm_compute; reflexivity).
  exact (proj2 (proj2 (added_template_never_uses_tmux host0 true config0
                         (mkConfig "25m" true (templates_set [] "deep" (new_template add0)))
                         add0 "Saved template 'deep'." (template_opts "deep") _ world0
                         eq_refl eq_refl Hne Hp))).
Defined.

(** ** The wrappers around the operating system *)

Section ShellFacts.

Variable h : Shell.os.

Lemma sound_ret {A} (a : A) : sound h (mret a : Shell.S A).
Proof. constructor. Qed.

Lemma sound_do (c : Shell.call) : sound h (Shell.do h c).
Proof.
  unfold Shell.do, sound. destruct (Shell.outcome h c) as [code|e] eqn:E.
  - constructor; [exists code; exact E | constructor].
  - exists [], c. split; [reflexivity | split; [constructor | exact E]].
Qed.

Lemma sound_bind {A B} (m : Shell.S A) (k : A -> Shell.S B) :
  sound h m -> (forall a, sound h (k a)) -> sound h (m ≫= k).
Proof.
  intros Hm Hk. destruct m as [[a|e] l]; unfold mbind, Shell.S_bind; [|exact Hm].
  specialize (Hk a). destruct (k a) as [[b|e] l']; unfold sound in *.
  - apply Forall_app_2; assumption.
  - destruct Hk as (l'' & c & -> & Hl & Ho). exists (l ++ l''), c.
    split; [apply app_assoc | split; [apply Forall_app_2; assumption | exact Ho]].
Qed.

Lemma sound_for_each {A} (l : list A) (f : A -> Shell.S unit) :
  (forall x, sound h (f x)) -> sound h (Shell.for_each l f).
Proof.
  intros Hf. induction l as [|x l IH]; cbn [Shell.for_each].
  - apply sound_ret.
  - apply sound_bind; [apply Hf | intros _; exact IH].
Qed.

Lemma sound_find_name (fuel : nat) (base name : string) (i : Z) (m : Shell.S string) :
  Shell.find_name h fuel base name i = Some m -> sound h m.
Proof.
  revert name i m. induction fuel as [|fuel IH]; intros name i m; cbn [Shell.find_name];
    destruct (Shell.outcome h (Shell.has_session name)) as [code|e] eqn:E.
  - destruct code; [discriminate | |]; intros [= <-];
      (constructor; [eexists; exact E | constructor]).
  - intros [= <-]. exists [], (Shell.has_session name).
    split; [reflexivity | split; [constructor | exact E]].
  - destruct code.
    + destruct (Shell.find_name h fuel base _ _) as [[r l]|] eqn:En; [|discriminate].
      intros [= <-]. specialize (IH _ _ _ En). unfold sound in *. destruct r as [n|e].
      * constructor; [eexists; exact E | exact IH].
      * destruct IH as (l' & c & -> & Hl & Ho). exists (Shell.has_session name :: l'), c.
        split; [reflexivity | split; [|exact Ho]].
        constructor; [eexists; exact E | exact Hl].
    + intros [= <-]. constructor; [eexists; exact E | constructor].
    + intros [= <-]. constructor; [eexists; exact E | constructor].
  - intros [= <-]. exists [], (Shell.has_session name).
    split; [reflexivity | split; [constructor | exact E]].
Qed.

Lemma sound_split_pane (name : string) (p : pane) : sound h (Shell.split_pane h name p).
Proof.
  unfold Shell.split_pane. apply sound_bind; [apply sound_do|]. intros _.
  destruct (nonempty (pane_cmd p)); [|apply sound_ret].
  apply sound_bind; [apply sound_do | intros _; apply sound_ret].
Qed.

Lemma sound_create_panes (name : string) (panes : list pane) :
  sound h (Shell.create_panes h name panes).
Proof.
  unfold Shell.create_panes. destruct panes as [|first rest].
  - apply sound_bind; [apply sound_do | intros _; apply sound_ret].
  - apply sound_bind; [destruct (nonempty (pane_cmd first)); apply sound_do|]. intros _.
    apply sound_bind; [apply sound_for_each, sound_split_pane|]. intros _.
    apply sound_bind; [apply sound_do | intros _; apply sound_ret].
Qed.

(** The body of the [try] block of [create_tmux_session] returns
    [True] or raises. *)
Lemma create_body_result (found : Shell.S string) (panes : list pane) (b : bool)
    (l : list Shell.call) :
  (name ← found; Shell.create_panes h name panes ;; mret true) = (Ok b, l) -> b = true.
Proof.
  destruct found as [[name|e] l0]; unfold mbind at 1, Shell.S_bind at 1; [|discriminate].
  unfold mbind, Shell.S_bind. destruct (Shell.create_panes h name panes) as [[[]|e] l1];
    cbn; [|discriminate].
  intros [= <- _]. reflexivity.
Qed.

Hypothesis all_return : forall c, returned h c.

Lemma split_panes_ok (name : string) (rest : list pane) :
  exists calls,
    Shell.for_each rest (Shell.split_pane h name) = (Ok tt, calls)
    /\ Forall (targets name) calls.
Proof.
  induction rest as [|p rest [calls [IH Hc]]]; cbn [Shell.for_each].
  - exists []. split; [reflexivity | constructor].
  - rewrite IH. unfold Shell.split_pane.
    destruct (all_return (Shell.Run ["tmux"; "split-window"; "-t"; name; "-c";
                                     Shell.or_home h (pane_cwd p)])) as [c1 E1].
    destruct (nonempty (pane_cmd p)) as [cmd|].
    + destruct (all_return (Shell.Run ["tmux"; "send-keys"; "-t"; name; cmd; "Enter"]))
        as [c2 E2].
      unfold mbind, Shell.S_bind, Shell.do. rewrite E1, E2.
      eexists. split; [reflexivity|]. cbn.
      constructor; [right; eexists _, _; reflexivity|].
      constructor; [right; eexists _, _; reflexivity | exact Hc].
    + unfold mbind, Shell.S_bind, Shell.do. rewrite E1.
      eexists. split; [reflexivity|]. cbn.
      constructor; [right; eexists _, _; reflexivity | exact Hc].
Qed.

Lemma create_panes_ok (name : string) (panes : list pane) :
  exists calls,
    Shell.create_panes h name panes = (Ok tt, calls)
    /\ calls <> [] /\ Forall (targets name) calls.
Proof.
  unfold Shell.create_panes. destruct panes as [|first rest].
  - destruct (all_return (Shell.Run ["tmux"; "new-session"; "-d"; "-s"; name])) as [c E].
    unfold mbind, Shell.S_bind, Shell.do. rewrite E.
    eexists. split; [reflexivity|].
    split; [discriminate|]. cbn. constructor; [left; eexists; reflexivity | constructor].
  - destruct (split_panes_ok name rest) as [calls [Hrest Hc]]. rewrite Hrest.
    destruct (all_return (Shell.Run ["tmux"; "select-layout"; "-t"; name; "tiled"]))
      as [c3 E3].
    set (first_call :=
           match nonempty (pane_cmd first) with
           | Some cmd => Shell.Run ["tmux"; "new-session"; "-d"; "-s"; name; "-c";
                                    Shell.or_home h (pane_cwd first); cmd]
           | None => Shell.Run ["tmux"; "new-session"; "-d"; "-s"; name; "-c";
                                Shell.or_home h (pane_cwd first)]
           end).
    assert (Hfirst : match nonempty (pane_cmd first) with
                     | Some cmd =>
                         Shell.do h (Shell.Run ["tmux"; "new-session"; "-d"; "-s"; name; "-c";
                                                Shell.or_home h (pane_cwd first); cmd])
                     | None =>
                         Shell.do h (Shell.Run ["tmux"; "new-session"; "-d"; "-s"; name; "-c";
                                                Shell.or_home h (pane_cwd first)])
                     end = Shell.do h first_call)
      by (unfold first_call; destruct (nonempty (pane_cmd first)); reflexivity).
    assert (Htarget : targets name first_call)
      by (unfold first_call; destruct (nonempty (pane_cmd first)); left; eexists;
          reflexivity).
    rewrite Hfirst. clearbody first_call. destruct (all_return first_call) as [c1 E1].
    exists (first_call :: calls ++ [Shell.Run ["tmux"; "select-layout"; "-t"; name; "tiled"]]).
    split; [|split; [discriminate|]].
    + unfold mbind, Shell.S_bind, Shell.do. rewrite E1, E3. cbn. reflexivity.
    + constructor; [exact Htarget|]. apply Forall_app_2; [exact Hc|].
      constructor; [right; eexists _, _; reflexivity | constructor].
Qed.

Lemma find_name_first_free (base : string) (k j fuel : nat) (c : Z) :
  (k <= fuel)%nat ->
  (forall m, (m < k)%nat ->
     Shell.outcome h (Shell.has_session (candidate base (j + m))) = Ok 0) ->
  c <> 0 -> Shell.outcome h (Shell.has_session (candidate base (j + k))) = Ok c ->
  Shell.find_name h fuel base (candidate base j) (Z.of_nat j + 1)
  = Some (Ok (candidate base (j + k)),
          map (fun m => Shell.has_session (candidate base m)) (seq j (S k))).
Proof.
  revert j fuel. induction k as [|k IH]; intros j fuel Hf Hbusy Hc Hfree.
  - rewrite Nat.add_0_r in *.
    destruct fuel; cbn [Shell.find_name]; rewrite Hfree;
      (destruct c; [contradiction | reflexivity | reflexivity]).
  - destruct fuel as [|fuel]; [lia|]. cbn [Shell.find_name].
    pose proof (Hbusy O ltac:(lia)) as H0. rewrite Nat.add_0_r in H0. rewrite H0.
    assert (Hnext : base +:+ "_" +:+ py_str (Z.of_nat j + 1) = candidate base (S j)).
    { unfold candidate. f_equal. f_equal. f_equal. lia. }
    rewrite Hnext.
    replace (Z.of_nat j + 1 + 1) with (Z.of_nat (S j) + 1) by lia.
    rewrite (IH (S j) fuel ltac:(lia)).
    + replace (S j + k)%nat with (j + S k)%nat by lia. reflexivity.
    + intros m Hm. replace (S j + m)%nat with (j + S m)%nat by lia. apply Hbusy. lia.
    + exact Hc.
    + replace (S j + k)%nat with (j + S k)%nat by lia. exact Hfree.
Qed.

(** The name loop ends as soon as a candidate has no session, or the
    probe raises: that many turns are enough. *)
Lemma find_name_ends (base : string) (k j fuel : nat) :
  (k <= fuel)%nat ->
  Shell.outcome h (Shell.has_session (candidate base (j + k))) <> Ok 0 ->
  exists m, Shell.find_name h fuel base (candidate base j) (Z.of_nat j + 1) = Some m.
Proof.
  revert j fuel. induction k as [|k IH]; intros j fuel Hf Hfree.
  - rewrite Nat.add_0_r in Hfree.
    destruct fuel; cbn [Shell.find_name];
      destruct (Shell.outcome h (Shell.has_session (candidate base j))) as [[|c|c]|e];
      try contradiction; eexists; reflexivity.
  - destruct fuel as [|fuel]; [lia|]. cbn [Shell.find_name].
    destruct (Shell.outcome h (Shell.has_session (candidate base j))) as [[|c|c]|e];
      try (eexists; reflexivity).
    assert (Hnext : base +:+ "_" +:+ py_str (Z.of_nat j + 1) = candidate base (S j)).
    { unfold candidate. f_equal. f_equal. f_equal. lia. }
    rewrite Hnext.
    replace (Z.of_nat j + 1 + 1) with (Z.of_nat (S j) + 1) by lia.
    destruct (IH (S j) fuel ltac:(lia)) as [[r l] Hm].
    + replace (S j + k)%nat with (j + S k)%nat by lia. exact Hfree.
    + rewrite Hm. eexists. reflexivity.
Qed.

End ShellFacts.

(** X27: when tmux has sessions of the name asked for and of that name
    with [_1], ..., [_k-1], and none with [_k], [create_tmux_session]
    asks for each of these names in turn, creates the session under the
    name with [_k], sends all its further commands to that session, and
    returns [True], whatever return codes the commands give.  The
    caller is not told the name. *)
Theorem tmux_session_gets_first_free_name (h : Shell.os) (base : string)
    (panes : list pane) (k fuel : nat) (c : Z) :
  Shell.which h "tmux" = true ->
  (forall call, returned h call) ->
  (forall m, (m < k)%nat ->
     Shell.outcome h (Shell.has_session (candidate base m)) = Ok 0) ->
  Shell.outcome h (Shell.has_session (candidate base k)) = Ok c -> c <> 0 ->
  (k <= fuel)%nat ->
  exists calls,
    Shell.create_tmux_session h fuel base panes
    = Some (Ok true,
            map (fun m => Shell.has_session (candidate base m)) (seq 0 (S k)) ++ calls)
    /\ calls <> [] /\ Forall (targets (candidate base k)) calls.
Proof.
  intros Htmux Hret Hbusy Hfree Hc Hfuel.
  destruct (create_panes_ok h Hret (candidate base k) panes) as [calls [Hpanes [Hne Ht]]].
  exists calls. split; [|split; assumption].
  unfold Shell.create_tmux_session. rewrite Htmux. cbn [negb].
  change (Shell.find_name h fuel base base 1)
    with (Shell.find_name h fuel base (candidate base 0) (Z.of_nat 0 + 1)).
  rewrite (find_name_first_free h base k 0 fuel c Hfuel Hbusy Hc Hfree).
  cbn [Nat.add]. unfold mbind, Shell.S_bind, Shell.catch. rewrite Hpanes.
  cbn [mret Shell.S_ret]. rewrite app_nil_r. reflexivity.
Qed.

Lemma tmux_session_gets_first_free_name_witness :
  exists calls,
    Shell.create_tmux_session linux_with_sessions 5 "work" [mkPane None (Some "vim")]
    = Some (Ok true,
            map (fun m => Shell.has_session (candidate "work" m)) (seq 0 3) ++ calls)
    /\ calls <> [] /\ Forall (targets (candidate "work" 2)) calls.
Proof.
  assert (Hret : forall call, returned linux_with_sessions call).
  { intros call. unfold returned. destruct call as [argv| |]; [|eexists; reflexivity ..].
    destruct argv as [|a [|b [|c0 [|d [|e r]]]]]; try (eexists; reflexivity).
    cbn. destruct (String.eqb b "has-session"); [destruct (_ || _)|]; eexists; reflexivity. }
  assert (Hbusy : forall m, (m < 2)%nat ->
            Shell.outcome linux_with_sessions (Shell.has_session (candidate "work" m)) = Ok 0).
  { intros m Hm. destruct m as [|[|m]]; [reflexivity | reflexivity | lia]. }
  assert (Hone : 1 <> 0) by discriminate.
  assert (Hfuel : (2 <= 5)%nat) by lia.
  exact (tmux_session_gets_first_free_name linux_with_sessions "work"
           [mkPane None (Some "vim")] 2 5 1 eq_refl Hret Hbusy eq_refl Hone Hfuel).
Defined.

(** X28: [create_tmux_session] returns whenever its name loop ends,
    that is, when one of the names it tries has no session or the probe
    raises; as many turns as that name's rank are enough.  It never
    raises an [Exception], and it stops at the first call that raises.
    It returns [True] exactly when tmux is installed and none of the
    commands it ran raised, whatever their return codes; it returns
    [False] when tmux is not installed, and then it runs nothing, or
    when its last call raised an [Exception]. *)
Theorem tmux_returns_true_iff_nothing_raised (h : Shell.os) (base : string)
    (panes : list pane) (k fuel : nat) :
  (Shell.which h "tmux" = true ->
   Shell.outcome h (Shell.has_session (candidate base k)) <> Ok 0) ->
  (k <= fuel)%nat ->
  exists (r : res bool) (calls : list Shell.call),
    Shell.create_tmux_session h fuel base panes = Some (r, calls)
    /\ match r with
       | Ok true => Shell.which h "tmux" = true /\ Forall (returned h) calls
       | Ok false =>
           (Shell.which h "tmux" = false /\ calls = [])
           \/ (exists e l c, is_Exception e = true /\ calls = l ++ [c]
                             /\ Forall (returned h) l /\ Shell.outcome h c = Raise e)
       | Raise e =>
           is_Exception e = false
           /\ exists l c, calls = l ++ [c] /\ Forall (returned h) l
                          /\ Shell.outcome h c = Raise e
       end.
Proof.
  intros Hends Hfuel.
  unfold Shell.create_tmux_session. destruct (Shell.which h "tmux") eqn:Htmux; cbn [negb].
  2:{ exists (Ok false), []. split; [reflexivity|]. left. split; reflexivity. }
  destruct (find_name_ends h base k 0 fuel Hfuel (Hends eq_refl)) as [found Hfound].
  change (Shell.find_name h fuel base (candidate base 0) (Z.of_nat 0 + 1))
    with (Shell.find_name h fuel base base 1) in Hfound.
  rewrite Hfound.
  assert (Hs : sound h (name ← found; Shell.create_panes h name panes ;; mret true)).
  { apply sound_bind; [exact (sound_find_name h _ _ _ _ _ Hfound)|]. intros name.
    apply sound_bind; [apply sound_create_panes | intros _; apply sound_ret]. }
  pose proof (create_body_result h found panes) as Hb.
  destruct (name ← found; Shell.create_panes h name panes ;; mret true) as [[b|e] l].
  - rewrite (Hb b l eq_refl). exists (Ok true), l. split; [reflexivity|].
    split; [reflexivity | exact Hs].
  - cbn [Shell.catch]. destruct Hs as (l' & c & -> & Hl & Ho).
    destruct (is_Exception e) eqn:Ee.
    + exists (Ok false), ((l' ++ [c]) ++ []). split; [reflexivity|].
      right. exists e, l', c. rewrite app_nil_r. repeat split; assumption.
    + exists (Raise e), (l' ++ [c]). split; [reflexivity|].
      split; [exact Ee|]. exists l', c. repeat split; assumption.
Qed.

Lemma tmux_returns_true_iff_nothing_raised_witness :
  exists (r : res bool) (calls : list Shell.call),
    Shell.create_tmux_session linux_with_sessions 2 "work" [] = Some (r, calls)
    /\ match r with
       | Ok true =>
           Shell.which linux_with_sessions "tmux" = true
           /\ Forall (returned linux_with_sessions) calls
       | Ok false =>
           (Shell.which linux_with_sessions "tmux" = false /\ calls = [])
           \/ (exists e l c, is_Exception e = true /\ calls = l ++ [c]
                             /\ Forall (returned linux_with_sessions) l
                             /\ Shell.outcome linux_with_sessions c = Raise e)
       | Raise e =>
           is_Exception e = false
           /\ exists l c, calls = l ++ [c] /\ Forall (returned linux_with_sessions) l
                          /\ Shell.outcome linux_with_sessions c = Raise e
       end.
Proof.
  assert (Hends : Shell.which linux_with_sessions "tmux" = true ->
                  Shell.outcome linux_with_sessions
                    (Shell.has_session (candidate "work" 2)) <> Ok 0)
    by (intros _ H; vm_compute in H; discriminate H).
  assert (Hfuel : (2 <= 2)%nat) by lia.
  exact (tmux_returns_true_iff_nothing_raised linux_with_sessions "work" [] 2 2
           Hends Hfuel).
Defined.

Ltac shell_step :=
  cbv zeta;
  unfold Shell.catch, mbind, Shell.S_bind, mret, Shell.S_ret, Shell.do, Shell.print;
  cbn [fst snd app length default].

Ltac system_cases h Ed El :=
  destruct (String.eqb (Shell.system h) "Darwin") eqn:Ed;
  [apply String.eqb_eq in Ed
  |apply String.eqb_neq in Ed;
   destruct (String.eqb (Shell.system h) "Linux") eqn:El;
   [apply String.eqb_eq in El | apply String.eqb_neq in El]].

(** X29: [set_dnd] is best effort.  It never raises an [Exception] and
    runs at most one command; it returns [True] only when it ran one
    and the command returned, whatever its return code; on a system
    other than macOS and Linux it runs nothing and returns [False].
    With [gsettings] on Linux it does not save the setting it changes:
    it writes [show-banners false] to switch DND on and [show-banners
    true] to switch it off. *)
Theorem set_dnd_is_best_effort (h : Shell.os) (enable : bool) :
  let r := fst (Shell.set_dnd h enable) in
  let calls := snd (Shell.set_dnd h enable) in
  (length calls <= 1)%nat
  /\ match r with
     | Ok true => exists c, calls = [c] /\ returned h c
     | Ok false =>
         calls = []
         \/ exists c e, calls = [c] /\ is_Exception e = true /\ Shell.outcome h c = Raise e
     | Raise e => is_Exception e = false
     end
  /\ (Shell.system h <> "Darwin" -> Shell.system h <> "Linux" ->
      calls = [] /\ r = Ok false)
  /\ (Shell.system h = "Linux" -> Shell.which h "gsettings" = true ->
      calls = [Shell.Run ["gsettings"; "set"; "org.gnome.desktop.notifications";
                          "show-banners"; if enable then "false" else "true"]]).
Proof.
  cbv zeta. unfold Shell.set_dnd. system_cases h Ed El.
  - unfold Shell.enable_dnd_mac. cbv zeta.
    match goal with |- context [Shell.do h ?c] => set (call := c) end.
    clearbody call. shell_step.
    destruct (Shell.outcome h call) as [code|e] eqn:E;
      [|destruct (is_Exception e) eqn:Ee]; shell_step.
    + split; [lia | split; [exists call; split; [reflexivity | exists code; exact E]|]].
      split; [intros H; contradiction | intros H; rewrite Ed in H; discriminate H].
    + split; [lia | split; [right; exists call, e; repeat split; assumption|]].
      split; [intros H; contradiction | intros H; rewrite Ed in H; discriminate H].
    + split; [lia | split; [exact Ee|]].
      split; [intros H; contradiction | intros H; rewrite Ed in H; discriminate H].
  - unfold Shell.enable_dnd_linux.
    destruct (Shell.which h "gsettings") eqn:Hg; [|destruct (Shell.which h "notify-send")].
    + match goal with |- context [Shell.do h ?c] => set (call := c) end.
      shell_step.
      destruct (Shell.outcome h call) as [code|e] eqn:E;
        [|destruct (is_Exception e) eqn:Ee]; shell_step.
      * split; [lia | split; [exists call; split; [reflexivity | exists code; exact E]|]].
        split; [intros _ H; contradiction | intros _ _; reflexivity].
      * split; [lia | split; [right; exists call, e; repeat split; assumption|]].
        split; [intros _ H; contradiction | intros _ _; reflexivity].
      * split; [lia | split; [exact Ee|]].
        split; [intros _ H; contradiction | intros _ _; reflexivity].
    + match goal with |- context [Shell.do h ?c] => set (call := c) end.
      clearbody call. shell_step.
      destruct (Shell.outcome h call) as [code|e] eqn:E;
        [|destruct (is_Exception e) eqn:Ee]; shell_step.
      * split; [lia | split; [exists call; split; [reflexivity | exists code; exact E]|]].
        split; [intros _ H; contradiction | intros _ H; discriminate H].
      * split; [lia | split; [right; exists call, e; repeat split; assumption|]].
        split; [intros _ H; contradiction | intros _ H; discriminate H].
      * split; [lia | split; [exact Ee|]].
        split; [intros _ H; contradiction | intros _ H; discriminate H].
    + shell_step. split; [lia | split; [left; reflexivity|]].
      split; [intros _ H; contradiction | intros _ H; discriminate H].
  - shell_step. split; [lia | split; [left; reflexivity|]].
    split; [intros _ _; split; reflexivity | intros H; contradiction].
Qed.

(** X30: [open_app_or_url] is best effort.  It never raises an
    [Exception] and makes at most two calls; it returns [True] only
    when its last call returned; on a system other than macOS and Linux
    it does nothing and returns [False].  On Linux a URL or an existing
    path goes to [xdg-open] and to nothing else: without [xdg-open] the
    item is only printed and the result is [False]. *)
Theorem open_app_or_url_is_best_effort (h : Shell.os) (item : string) :
  let r := fst (Shell.open_app_or_url h item) in
  let calls := snd (Shell.open_app_or_url h item) in
  (length calls <= 2)%nat
  /\ match r with
     | Ok true => exists l c, calls = l ++ [c] /\ returned h c
     | Ok false => True
     | Raise e => is_Exception e = false
     end
  /\ (Shell.system h <> "Darwin" -> Shell.system h <> "Linux" ->
      calls = [] /\ r = Ok false)
  /\ (Shell.system h = "Linux" -> Shell.url_or_path h item = true ->
      calls = [Shell.Run ["xdg-open"; item]]
      \/ (calls = [Shell.Stdout ("Open: " +:+ item)] /\ r = Ok false)).
Proof.
  cbv zeta. unfold Shell.open_app_or_url. system_cases h Ed El.
  - assert (Hnot : Shell.system h = "Linux" -> False)
      by (intros H; rewrite Ed in H; discriminate H).
    destruct (Shell.url_or_path h item).
    + shell_step.
      destruct (Shell.outcome h (Shell.Run ["open"; item])) as [code|e] eqn:E;
        [|destruct (is_Exception e) eqn:Ee]; shell_step.
      * split; [lia | split; [exists [], (Shell.Run ["open"; item]);
                              split; [reflexivity | exists code; exact E]|]].
        split; [intros H; contradiction | intros H; contradiction].
      * split; [lia | split; [exact I|]].
        split; [intros H; contradiction | intros H; contradiction].
      * split; [lia | split; [exact Ee|]].
        split; [intros H; contradiction | intros H; contradiction].
    + shell_step.
      destruct (Shell.outcome h (Shell.Run ["open"; "-a"; item])) as [code|e] eqn:E;
        [|destruct (is_Exception e) eqn:Ee]; shell_step.
      * split; [lia | split; [exists [], (Shell.Run ["open"; "-a"; item]);
                              split; [reflexivity | exists code; exact E]|]].
        split; [intros H; contradiction | intros H; contradiction].
      * destruct (Shell.outcome h (Shell.Run ["open"; item])) as [code'|e'] eqn:E';
          [|destruct (is_Exception e') eqn:Ee']; shell_step.
        -- split; [lia | split; [exists [Shell.Run ["open"; "-a"; item]],
                                   (Shell.Run ["open"; item]);
                                 split; [reflexivity | exists code'; exact E']|]].
           split; [intros H; contradiction | intros H; contradiction].
        -- split; [lia | split; [exact I|]].
           split; [intros H; contradiction | intros H; contradiction].
        -- split; [lia | split; [exact Ee'|]].
           split; [intros H; contradiction | intros H; contradiction].
      * rewrite Ee. shell_step. split; [lia | split; [exact Ee|]].
        split; [intros H; contradiction | intros H; contradiction].
  - destruct (Shell.url_or_path h item).
    + destruct (Shell.which h "xdg-open").
      * shell_step.
        destruct (Shell.outcome h (Shell.Run ["xdg-open"; item])) as [code|e] eqn:E;
          [|destruct (is_Exception e) eqn:Ee]; shell_step.
        -- split; [lia | split; [exists [], (Shell.Run ["xdg-open"; item]);
                                 split; [reflexivity | exists code; exact E]|]].
           split; [intros _ H; contradiction | intros _ _; left; reflexivity].
        -- split; [lia | split; [exact I|]].
           split; [intros _ H; contradiction | intros _ _; left; reflexivity].
        -- split; [lia | split; [exact Ee|]].
           split; [intros _ H; contradiction | intros _ _; left; reflexivity].
      * shell_step. split; [lia | split; [exact I|]].
        split; [intros _ H; contradiction | intros _ _; right; split; reflexivity].
    + assert (Hone : forall call : Shell.call,
                let m := (returned ← Shell.catch (Shell.do h call ;; mret (Some true))
                                       (mret (Some false));
                          mret (default false returned)) : Shell.S bool in
                (length (snd m) <= 2)%nat
                /\ match fst m with
                   | Ok true => exists l c, snd m = l ++ [c] /\ returned h c
                   | Ok false => True
                   | Raise e => is_Exception e = false
                   end).
      { intros call. shell_step.
        destruct (Shell.outcome h call) as [code|e] eqn:E;
          [|destruct (is_Exception e) eqn:Ee]; shell_step.
        - split; [lia|]. exists [], call. split; [reflexivity | exists code; exact E].
        - split; [lia | exact I].
        - split; [lia | exact Ee]. }
      destruct (Shell.which h item);
        [|destruct (Shell.which h "gtk-launch"); [|destruct (Shell.which h "xdg-open")]].
      * destruct (Hone (Shell.Popen [item])) as [H1 H2].
        split; [exact H1 | split; [exact H2|]].
        split; [intros _ H; contradiction | intros _ H; discriminate H].
      * destruct (Hone (Shell.Run ["gtk-launch"; item])) as [H1 H2].
        split; [exact H1 | split; [exact H2|]].
        split; [intros _ H; contradiction | intros _ H; discriminate H].
      * destruct (Hone (Shell.Run ["xdg-open"; item])) as [H1 H2].
        split; [exact H1 | split; [exact H2|]].
        split; [intros _ H; contradiction | intros _ H; discriminate H].
      * shell_step. split; [lia | split; [exact I|]].
        split; [intros _ H; contradiction | intros _ H; discriminate H].
  - shell_step. split; [lia | split; [exact I|]].
    split; [intros _ _; split; reflexivity | intros H; contradiction].
Qed.
